(** * BrainDeck: the Leitner review engine (src/lib/leitner.ts), the
      useFlashCards hook, the flashcard API with its cache, the reminder
      service and the logic of three components, embedded in Rocq.

    The engine is a handful of TypeScript functions over a [FlashCard] record.
    What they compute is decided by three things of the JavaScript host, which
    are modelled here first:

    - the arithmetic of [Date] objects (ECMA-262, section "Date Objects"):
      a time value is a number of milliseconds since the epoch, or NaN;
      [setDate], [setHours] work on local time; [toISOString] throws on NaN;
    - the system clock read by [new Date()] and the generator behind
      [crypto.randomUUID()], which are threaded through a small state and
      exception monad;
    - the arithmetic of the [number] type (IEEE 754 binary64), which matters
      for the average of [calculateDeckStats] and for the seven days of the
      install prompt.

    The hook and the services around the engine work on [localStorage], the
    network and the Notification API; these make up the state of a second
    monad, in which an exception keeps what was done before it. *)

From Stdlib Require Import ZArith List String Bool Lia.
From Stdlib Require Import QArith Qround Qabs Qpower Lqa.
From Stdlib Require Import PrimFloat SpecFloat FloatOps.
From Stdlib Require Import DecimalNat DecimalString.
Import ListNotations.
Local Open Scope Z_scope.

(** ** Time values and the civil calendar of ECMA-262 *)

Module JSDate.

Definition msPerDay : Z := 86400000.
Definition msPerHour : Z := 3600000.
Definition msPerMinute : Z := 60000.
Definition msPerSecond : Z := 1000.

(** The largest magnitude of a time value: 8.64e15 ms, 100 000 000 days. *)
Definition maxTimeValue : Z := 8640000000000000.

Definition Day (t : Z) : Z := t / msPerDay.
Definition TimeWithinDay (t : Z) : Z := t mod msPerDay.

Definition DaysInYear (y : Z) : Z :=
  if negb (y mod 4 =? 0) then 365
  else if negb (y mod 100 =? 0) then 366
  else if negb (y mod 400 =? 0) then 365
  else 366.

Definition DayFromYear (y : Z) : Z :=
  365 * (y - 1970) + (y - 1969) / 4 - (y - 1901) / 100 + (y - 1601) / 400.

Definition TimeFromYear (y : Z) : Z := msPerDay * DayFromYear y.

(** "The largest integer y such that TimeFromYear(y) <= t."  The estimate from
    the mean length of a Gregorian year is off by at most one year. *)
Definition YearFromTime (t : Z) : Z :=
  let d := Day t in
  let y := 1970 + (400 * d) / 146097 in
  if DayFromYear (y + 1) <=? d then y + 1
  else if DayFromYear y <=? d then y
  else y - 1.

Definition InLeapYear (t : Z) : Z :=
  if DaysInYear (YearFromTime t) =? 366 then 1 else 0.

Definition DayWithinYear (t : Z) : Z := Day t - DayFromYear (YearFromTime t).

(** Month numbers are 0 (January) to 11 (December). *)
Definition MonthFromTime (t : Z) : Z :=
  let d := DayWithinYear t in
  let leap := InLeapYear t in
  if d <? 31 then 0
  else if d <? 59 + leap then 1
  else if d <? 90 + leap then 2
  else if d <? 120 + leap then 3
  else if d <? 151 + leap then 4
  else if d <? 181 + leap then 5
  else if d <? 212 + leap then 6
  else if d <? 243 + leap then 7
  else if d <? 273 + leap then 8
  else if d <? 304 + leap then 9
  else if d <? 334 + leap then 10
  else 11.

Definition DateFromTime (t : Z) : Z :=
  let d := DayWithinYear t in
  let leap := InLeapYear t in
  match MonthFromTime t with
  | 0 => d + 1
  | 1 => d - 30
  | 2 => d - 58 - leap
  | 3 => d - 89 - leap
  | 4 => d - 119 - leap
  | 5 => d - 150 - leap
  | 6 => d - 180 - leap
  | 7 => d - 211 - leap
  | 8 => d - 242 - leap
  | 9 => d - 272 - leap
  | 10 => d - 303 - leap
  | _ => d - 333 - leap
  end.

Definition MakeTime (hour min sec ms : Z) : Z :=
  hour * msPerHour + min * msPerMinute + sec * msPerSecond + ms.

(** Day number, within its year, of the first day of month [mn] (0..11). *)
Definition firstDayOfMonth (mn leap : Z) : Z :=
  match mn with
  | 0 => 0
  | 1 => 31
  | 2 => 59 + leap
  | 3 => 90 + leap
  | 4 => 120 + leap
  | 5 => 151 + leap
  | 6 => 181 + leap
  | 7 => 212 + leap
  | 8 => 243 + leap
  | 9 => 273 + leap
  | 10 => 304 + leap
  | _ => 334 + leap
  end.

(** MakeDay(year, month, date): the day number of the first of the month
    [month] of [year] (months overflow into years), plus [date - 1]. *)
Definition MakeDay (year month date : Z) : Z :=
  let ym := year + month / 12 in
  let mn := month mod 12 in
  let leap := if DaysInYear ym =? 366 then 1 else 0 in
  DayFromYear ym + firstDayOfMonth mn leap + date - 1.

Definition MakeDate (day time : Z) : Z := day * msPerDay + time.

(** A time value: [Some t] is the finite value [t], [None] is NaN. *)
Definition TimeValue : Type := option Z.

Definition TimeClip (t : Z) : TimeValue :=
  if Z.abs t <=? maxTimeValue then Some t else None.

End JSDate.

Import JSDate.

(** ** The host: exceptions, the local time zone, the clock, the UUID source *)

Inductive Exception : Type :=
| RangeError (message : string).

Inductive Result (A : Type) : Type :=
| Ok (a : A)
| Throw (e : Exception).
Arguments Ok {A} a.
Arguments Throw {A} e.

(** A string that holds a date, known by what [Date.parse] makes of it:
    [toISOString] writes a time value in UTC with millisecond precision and
    [new Date(string)] reads exactly that value back, so [ISOString t] stands
    for the text written for [t] (as in "2024-02-29T12:00:00.000Z");
    [NotADate] stands for any string that [Date.parse] rejects. *)
Inductive DateString : Type :=
| ISOString (t : Z)
| NotADate.

(** What the world outside the engine provides: the successive readings of
    the system clock and the successive results of [crypto.randomUUID()],
    with the number of each consumed so far. *)
Record World : Type := mkWorld {
  clock : nat -> Z;
  clockReads : nat;
  uuidSource : nat -> string;
  uuidReads : nat
}.

(** Computations that read the world and may throw. *)
Definition M (A : Type) : Type := World -> Result (A * World).

Definition ret {A : Type} (a : A) : M A := fun w => Ok (a, w).

Definition bind {A B : Type} (m : M A) (k : A -> M B) : M B :=
  fun w => match m w with
           | Ok (a, w') => k a w'
           | Throw e => Throw e
           end.

Definition lift {A : Type} (r : Result A) : M A :=
  fun w => match r with
           | Ok a => Ok (a, w)
           | Throw e => Throw e
           end.

Declare Scope js_scope.
Delimit Scope js_scope with js.
Notation "x <- m ;; k" := (bind m (fun x => k))
  (at level 100, m at next level, right associativity) : js_scope.
Local Open Scope js_scope.

(** [array.filter(callback)] and [array.map(callback)] with a callback that
    runs in the monad: elements are visited in index order. *)
Fixpoint filterM {A : Type} (p : A -> M bool) (l : list A) : M (list A) :=
  match l with
  | [] => ret []
  | x :: xs =>
      b <- p x ;;
      ys <- filterM p xs ;;
      ret (if b then x :: ys else ys)
  end.

Fixpoint mapM {A B : Type} (f : A -> M B) (l : list A) : M (list B) :=
  match l with
  | [] => ret []
  | x :: xs =>
      y <- f x ;;
      ys <- mapM f xs ;;
      ret (y :: ys)
  end.

(** [new Date()]: the current reading of the clock. *)
Definition newDate : M TimeValue :=
  fun w => Ok (TimeClip (clock w (clockReads w)),
               mkWorld (clock w) (S (clockReads w)) (uuidSource w) (uuidReads w)).

(** [crypto.randomUUID()]. *)
Definition randomUUID : M string :=
  fun w => Ok (uuidSource w (uuidReads w),
               mkWorld (clock w) (clockReads w) (uuidSource w) (S (uuidReads w))).

(** [new Date(string)]. *)
Definition Date_parse (s : DateString) : TimeValue :=
  match s with
  | ISOString t => TimeClip t
  | NotADate => None
  end.

(** [Date.prototype.toISOString]: a RangeError on an invalid date. *)
Definition toISOString (tv : TimeValue) : Result DateString :=
  match tv with
  | Some t => Ok (ISOString t)
  | None => Throw (RangeError "Invalid time value")
  end.

(** [a <= b] on two Date objects compares their time values; a comparison
    with NaN is false. *)
Definition Date_le (a b : TimeValue) : bool :=
  match a, b with
  | Some x, Some y => x <=? y
  | _, _ => false
  end.

(** [number + x] where [x] is a number or [undefined]: NaN when either is NaN
    or undefined. *)
Definition number_plus (a b : option Z) : option Z :=
  match a, b with
  | Some x, Some y => Some (x + y)
  | _, _ => None
  end.

Section Host.

(** The offset of local time from UTC, in milliseconds: [LocalTZA t true]
    at the UTC instant [t], [LocalTZA t false] for the local time [t]. *)
Variable LocalTZA : Z -> bool -> Z.

Definition LocalTime (t : Z) : Z := t + LocalTZA t true.
Definition UTC (t : Z) : Z := t - LocalTZA t false.

(** [Date.prototype.getDate] *)
Definition getDate (tv : TimeValue) : option Z :=
  match tv with
  | None => None
  | Some t => Some (DateFromTime (LocalTime t))
  end.

(** [Date.prototype.setDate(date)] *)
Definition setDate (tv : TimeValue) (date : option Z) : TimeValue :=
  match tv, date with
  | Some t, Some dt =>
      let t := LocalTime t in
      let newDate :=
        MakeDate (MakeDay (YearFromTime t) (MonthFromTime t) dt)
                 (TimeWithinDay t) in
      TimeClip (UTC newDate)
  | _, _ => None
  end.

(** [Date.prototype.setHours(hour, min, sec, ms)] *)
Definition setHours (tv : TimeValue) (hour min sec ms : Z) : TimeValue :=
  match tv with
  | None => None
  | Some t =>
      let t := LocalTime t in
      let date := MakeDate (Day t) (MakeTime hour min sec ms) in
      TimeClip (UTC date)
  end.

End Host.

(** ** The [number] type where it is not an integer: IEEE 754 binary64

    A finite binary64 number is a rational [m * 2^e] with [|m| < 2^53] and
    [e >= -1074].  Every arithmetic operation of JavaScript returns the exact
    result rounded to the nearest such number, ties to the one with an even
    [m].  Results beyond the largest finite number (about 1.8e308) are out of
    the model; the engine's numbers are far below. *)

Module Binary64.

Local Open Scope Q_scope.

(** floor(log2 x) for [x > 0]: the difference of the bit lengths of numerator
    and denominator is that or one more. *)
Definition ilog2 (x : Q) : Z :=
  let c := (Z.log2 (Qnum x) - Z.log2 (Zpos (Qden x)))%Z in
  if Qle_bool (2 ^ c) x then c else (c - 1)%Z.

(** The integer nearest to [x], ties to even. *)
Definition nearestEven (x : Q) : Z :=
  let f := Qfloor x in
  match Qcompare (x - inject_Z f) (1 # 2) with
  | Lt => f
  | Gt => (f + 1)%Z
  | Eq => if Z.even f then f else (f + 1)%Z
  end.

(** The exponent of the last place of [x]: 53 significant bits, and no
    finer than 2^-1074 (subnormal numbers). *)
Definition ulpExponent (x : Q) : Z :=
  Z.max (ilog2 (Qabs x) - 52) (-1074).

(** Round to nearest, ties to even. *)
Definition round (x : Q) : Q :=
  let x := Qred x in
  if Qeq_bool x 0 then 0
  else
    let e := ulpExponent x in
    Qred (inject_Z (nearestEven (x / 2 ^ e)) * 2 ^ e).

Definition add (a b : Q) : Q := round (a + b).
Definition mul (a b : Q) : Q := round (a * b).
Definition div (a b : Q) : Q := round (a / b).

(** [Math.round(x)]: the integer nearest to [x], ties towards +infinity;
    exact, no rounding error is involved. *)
Definition Math_round (x : Q) : Q := inject_Z (Qfloor (x + (1 # 2))).

End Binary64.

(** The machine's own binary64 arithmetic (Rocq's primitive floats), to
    compare [Binary64] with. *)

Module Hardware.

Local Open Scope Q_scope.

(** The rational a finite float stands for. *)
Definition Q_of_float (f : float) : option Q :=
  match Prim2SF f with
  | S754_zero _ => Some 0
  | S754_finite s m e =>
      Some ((if s then -1 else 1) * inject_Z (Zpos m) * 2 ^ e)
  | _ => None
  end.

Definition float_of_Z (z : Z) : float :=
  PrimFloat.of_uint63 (Uint63Axioms.of_Z z).

Definition sameNumber (f : float) (q : Q) : bool :=
  match Q_of_float f with
  | Some q' => Qeq_bool q' q
  | None => false
  end.

(** For every deck of up to [size] cards and every sum of levels it can
    have, the division, the multiplication by 10 and the final division by
    10 of [calculateDeckStats] give the same numbers in [Binary64] as on the
    machine. *)
Definition agreesWithBinary64 (size : nat) : bool :=
  forallb (fun n =>
    forallb (fun s =>
      let s := Z.of_nat s in
      let n := Z.of_nat n in
      let avgF := PrimFloat.div (float_of_Z s) (float_of_Z n) in
      let avgQ := Binary64.div (inject_Z s) (inject_Z n) in
      let mulF := PrimFloat.mul avgF (float_of_Z 10) in
      let mulQ := Binary64.mul avgQ (inject_Z 10) in
      let k := Qfloor (mulQ + (1 # 2)) in
      sameNumber avgF avgQ && sameNumber mulF mulQ
      && sameNumber (PrimFloat.div (float_of_Z k) (float_of_Z 10))
                    (Binary64.div (inject_Z k) (inject_Z 10)))
      (seq 0 (5 * n + 1)))
    (seq 1 size).

End Hardware.

(** ** The data of src/types/flashcard.ts *)

(** [type ConfidenceScore = "forgot" | "know"] *)
Inductive ConfidenceScore : Type :=
| forgot
| know.

(** [type LeitnerLevel = 0 | 1 | 2 | 3 | 4 | 5].  At run time a level is a
    number like any other; the type is the range predicate. *)
Definition LeitnerLevel (l : Z) : Prop := 0 <= l <= 5.

(** [interface FlashCard].  [level] and [reviewCount] are integers; adding 1
    to them is exact as long as they are below 2^53, as those of a deck are. *)
Record FlashCard : Type := mkFlashCard {
  id : string;
  question : string;
  answer : string;
  level : Z;
  nextReviewDate : DateString;
  lastReviewDate : option DateString;
  createdAt : DateString;
  reviewCount : Z
}.

(** [interface ReviewResult] *)
Record ReviewResult : Type := mkReviewResult {
  card : FlashCard;
  previousLevel : Z;
  newLevel : Z;
  rr_nextReviewDate : DateString
}.

(** [interface DeckStats] *)
Record DeckStats : Type := mkDeckStats {
  totalCards : Z;
  cardsToReview : Z;
  masteredCards : Z;
  averageLevel : Q
}.

(** ** src/lib/leitner.ts *)

(** [LEITNER_INTERVALS[level]]: [None] is [undefined], the value of a
    property the table does not have. *)
Definition LEITNER_INTERVALS (level : Z) : option Z :=
  match level with
  | 0 => Some 0
  | 1 => Some 1
  | 2 => Some 3
  | 3 => Some 7
  | 4 => Some 14
  | 5 => Some 30
  | _ => None
  end.

(** [Math.min(currentLevel + 1, 5)]: the sum is that of the integers, as the
    code's is for levels from -2^53 on; above 5 the minimum is 5 whatever
    the sum is rounded to. *)
Definition calculateNewLevel (currentLevel : Z) (confidence : ConfidenceScore) : Z :=
  match confidence with
  | forgot => 0
  | know => Z.min (currentLevel + 1) 5
  end.

Section Engine.

Variable LocalTZA : Z -> bool -> Z.

(** [fromDate = None] is the omitted argument: its default [new Date()] is
    evaluated at the call. *)
Definition calculateNextReviewDate (level : Z) (fromDate : option TimeValue)
  : M DateString :=
  fromDate <- match fromDate with
              | Some d => ret d
              | None => newDate
              end ;;
  let interval := LEITNER_INTERVALS level in
  let nextDate := fromDate in
  let nextDate :=
    setDate LocalTZA nextDate (number_plus (getDate LocalTZA nextDate) interval) in
  let nextDate := setHours LocalTZA nextDate 0 0 0 0 in
  lift (toISOString nextDate).

(** [card.reviewCount + 1] is the sum of the integers, as the code's is for
    a count from -2^53 up to 2^53 - 1. *)
Definition reviewCard (card : FlashCard) (confidence : ConfidenceScore)
  : M ReviewResult :=
  let previousLevel := level card in
  let newLevel := calculateNewLevel previousLevel confidence in
  nextReviewDate <- calculateNextReviewDate newLevel None ;;
  now <- newDate ;;
  lastReviewDate <- lift (toISOString now) ;;
  let updatedCard :=
    mkFlashCard (id card) (question card) (answer card)
                newLevel
                nextReviewDate
                (Some lastReviewDate)
                (createdAt card)
                (reviewCount card + 1) in
  ret (mkReviewResult updatedCard previousLevel newLevel nextReviewDate).

Definition isCardDue (card : FlashCard) : M bool :=
  now <- newDate ;;
  let now := setHours LocalTZA now 0 0 0 0 in
  let reviewDate := Date_parse (nextReviewDate card) in
  ret (Date_le reviewDate now).

Definition getDueCards (cards : list FlashCard) : M (list FlashCard) :=
  filterM isCardDue cards.

Definition calculateDeckStats (cards : list FlashCard) : M DeckStats :=
  let totalCards := Z.of_nat (List.length cards) in
  due <- getDueCards cards ;;
  let cardsToReview := Z.of_nat (List.length due) in
  let masteredCards :=
    Z.of_nat (List.length (filter (fun card => level card =? 5) cards)) in
  let averageLevel :=
    if 0 <? totalCards
    then Binary64.div
           (fold_left (fun sum card => Binary64.add sum (inject_Z (level card)))
                      cards 0%Q)
           (inject_Z totalCards)
    else 0%Q in
  ret (mkDeckStats totalCards cardsToReview masteredCards
         (Binary64.div
            (Binary64.Math_round (Binary64.mul averageLevel (inject_Z 10)))
            (inject_Z 10))).

Definition createNewCard (question answer : string) : M FlashCard :=
  now <- newDate ;;
  let todayAtMidnight := now in
  let todayAtMidnight := setHours LocalTZA todayAtMidnight 0 0 0 0 in
  id <- randomUUID ;;
  nextReviewDate <- lift (toISOString todayAtMidnight) ;;
  createdAt <- lift (toISOString now) ;;
  ret (mkFlashCard id question answer 0 nextReviewDate None createdAt 0).

(** ** src/hooks/useFlashCards.tsx: the deck reset *)

(** The arrow function that [resetDeck] maps over the deck; [now] is the
    Date object the enclosing function has set to local midnight. *)
Definition resetCard (now : TimeValue) (card : FlashCard) : M FlashCard :=
  nextReviewDate <- lift (toISOString now) ;;
  ret (mkFlashCard (id card) (question card) (answer card)
                   0 nextReviewDate None (createdAt card) 0).

(** The deck that [resetDeck] hands to [persistCards]. *)
Definition resetDeck (cards : list FlashCard) : M (list FlashCard) :=
  now <- newDate ;;
  let now := setHours LocalTZA now 0 0 0 0 in
  mapM (resetCard now) cards.

End Engine.

(** ** Vocabulary of the statements *)

(** The integers to which the code can add 1 without rounding.  [level + 1]
    and [reviewCount + 1] are additions of binary64 numbers: they give the
    integer sum from -2^53 up to 2^53 - 1, and no longer beyond (2^53 + 1 is
    no binary64 number, and the sum at 2^53 is 2^53 again).  The engine's
    [+ 1] is written on the integers and stands for the code's in this
    range. *)
Definition incrementIsExact (n : Z) : Prop := - 2 ^ 53 <= n < 2 ^ 53.

(** The calendar day (in local time) a time value falls on, the time value of
    local midnight of a calendar day, and the start of the day of a time
    value, which is what [setHours(0, 0, 0, 0)] computes. *)
Definition localDay (LocalTZA : Z -> bool -> Z) (t : Z) : Z :=
  Day (LocalTime LocalTZA t).

Definition localMidnight (LocalTZA : Z -> bool -> Z) (d : Z) : Z :=
  UTC LocalTZA (MakeDate d 0).

Definition startOfDay (LocalTZA : Z -> bool -> Z) (t : Z) : Z :=
  localMidnight LocalTZA (localDay LocalTZA t).

(** The time zones the statements are about: offsets of less than a day, and
    no change of offset that moves a local time onto another calendar day
    (daylight-saving changes happen within a day, away from its ends). *)
Record CivilZone (LocalTZA : Z -> bool -> Z) : Prop := mkCivilZone {
  zone_bounded : forall t b, Z.abs (LocalTZA t b) <= msPerDay;
  zone_keeps_day : forall x, Day (LocalTime LocalTZA (UTC LocalTZA x)) = Day x
}.

(** Time values at least forty days inside the range of [Date]. *)
Definition farFromLimits (t : Z) : Prop :=
  Z.abs t <= maxTimeValue - 40 * msPerDay.

(** A zone without daylight saving, [offset] milliseconds ahead of UTC. *)
Definition fixedZone (offset : Z) : Z -> bool -> Z := fun _ _ => offset.

(** The interval table as a total function on levels. *)
Definition intervalDays (level : Z) : Z :=
  match LEITNER_INTERVALS level with
  | Some n => n
  | None => 0
  end.

(** The reading that the next [new Date()] returns, and the world after [k]
    more readings of the clock or one more UUID. *)
Definition now (w : World) : Z := clock w (clockReads w).

Definition afterClockReads (k : nat) (w : World) : World :=
  mkWorld (clock w) (k + clockReads w) (uuidSource w) (uuidReads w).

Definition afterUUID (w : World) : World :=
  mkWorld (clock w) (clockReads w) (uuidSource w) (S (uuidReads w)).

(** A host to run the engine on: UTC+1 without daylight saving; a clock
    that starts on 2026-11-01T18:30:00.000Z and has the reviews of a card
    created then fall on the days the card is due (0, 1, 4, 11 and 25 days
    later). *)
Definition sampleZone : Z -> bool -> Z := fixedZone 3600000.

(** A zone with daylight saving: one hour ahead of UTC until
    2026-03-29T01:00:00Z, two hours ahead from then on.  A local time in the
    hour that the change skips (02:00 to 03:00) is read with the offset from
    before the change, as ECMA-262 prescribes. *)
Definition springForward : Z := 1774746000000.

Definition summerTimeZone : Z -> bool -> Z :=
  fun t isUTC =>
    if isUTC
    then (if t <? springForward then msPerHour else 2 * msPerHour)
    else (if t <? springForward + 2 * msPerHour then msPerHour else 2 * msPerHour).

Definition sampleClock (n : nat) : Z :=
  1793557800000
  + msPerDay * nth n [0; 0; 0; 1; 1; 4; 4; 11; 11; 25; 25] 25
  + Z.of_nat n.

(** A generator of identifiers that never repeats itself: a fixed prefix
    followed by a serial number. *)
Definition sampleUUID (n : nat) : string :=
  ("3b241101-e2bb-4255-8caf-" ++ NilEmpty.string_of_uint (Nat.to_uint n))%string.

Definition sampleWorld : World := mkWorld sampleClock 0 sampleUUID 0.

Definition sampleCard (l : Z) : FlashCard :=
  mkFlashCard "3b241101-e2bb-4255-8caf-4136c566a962"
              "What does REST stand for?"
              "Representational State Transfer"
              l (ISOString 1793487600000) None (ISOString 1793534400000) 0.

(** The review round trip of the specification's scenario: a card is created
    and reviewed five times, four times known and then forgotten; the clock
    decides when each step happens. *)
Definition reviewRoundTrip (LocalTZA : Z -> bool -> Z)
  : M (FlashCard * list ReviewResult) :=
  (c0 <- createNewCard LocalTZA "Q" "A" ;;
   r1 <- reviewCard LocalTZA c0 know ;;
   r2 <- reviewCard LocalTZA (card r1) know ;;
   r3 <- reviewCard LocalTZA (card r2) know ;;
   r4 <- reviewCard LocalTZA (card r3) know ;;
   r5 <- reviewCard LocalTZA (card r4) forgot ;;
   ret (c0, [r1; r2; r3; r4; r5]))%js.

(** The time value of local midnight [k] calendar days after the day of [t]. *)
Definition dueInDays (LocalTZA : Z -> bool -> Z) (t k : Z) : DateString :=
  ISOString (localMidnight LocalTZA (localDay LocalTZA t + k)).

(** What [resetDeck] makes of one card at local midnight [midnight]. *)
Definition resetTo (midnight : Z) (c : FlashCard) : FlashCard :=
  mkFlashCard (id c) (question c) (answer c) 0 (ISOString midnight) None
              (createdAt c) 0.

(** The reading of "no operation other than the two transition rules changes
    the level" for the one operation besides [reviewCard] that returns cards
    made from cards: a deck reset would leave every level as it was. *)
Definition resetDeck_keeps_levels (LocalTZA : Z -> bool -> Z) : Prop :=
  forall (cards cards' : list FlashCard) (w w' : World),
    resetDeck LocalTZA cards w = Ok (cards', w') ->
    map level cards' = map level cards.

(** The reading of "fails fast with a precondition error" for the level
    transition as it runs inside [reviewCard]: a review of a card whose level
    is out of range would throw. *)
Definition review_rejects_bad_level (LocalTZA : Z -> bool -> Z) : Prop :=
  forall (c : FlashCard) (confidence : ConfidenceScore) (w : World),
    ~ LeitnerLevel (level c) ->
    exists e, reviewCard LocalTZA c confidence w = Throw e.

(** The mean of a list of levels, rounded half up to one decimal place and
    counted in tenths: the floor of 10 * sum / n + 1/2. *)
Definition sumLevels (levels : list Z) : Z := fold_right Z.add 0 levels.

Definition meanInTenths (levels : list Z) : Z :=
  let n := Z.of_nat (List.length levels) in
  (20 * sumLevels levels + n) / (2 * n).

(** The [number] that the decimal numeral with [k] tenths denotes (as 1.3
    for 13): the binary64 number nearest to k/10. *)
Definition tenths (k : Z) : Q := Binary64.round (inject_Z k / inject_Z 10).

(** The fifty means that lie exactly half way between two tenths:
    (2K - 1)/20 for K from 1 to 50.  [tieRoundsUp K] checks that the engine's
    arithmetic on such a mean ends on K tenths. *)
Definition tieRoundsUp (K : Z) : bool :=
  Qfloor (Binary64.mul (Binary64.round ((2 * K - 1) # 20)) (inject_Z 10)
          + (1 # 2))
  =? K.

(** The value a computation returned, if it did return. *)
Definition returned {A : Type} (r : Result (A * World)) : option A :=
  match r with
  | Ok (a, _) => Some a
  | Throw _ => None
  end.

(** ** Vocabulary for the schedule of a deck *)

(** Whether a card is due on the calendar day [d]: its [nextReviewDate] is a
    date, and not after local midnight of [d]. *)
Definition dueOnDay (LocalTZA : Z -> bool -> Z) (d : Z) (c : FlashCard) : bool :=
  Date_le (Date_parse (nextReviewDate c)) (Some (localMidnight LocalTZA d)).

(** Zones in which the calendar day never goes back as time goes on. *)
Definition DaysAdvance (LocalTZA : Z -> bool -> Z) : Prop :=
  forall t1 t2, t1 <= t2 -> localDay LocalTZA t1 <= localDay LocalTZA t2.

(** [n] reviews of a card in a row, all with the same answer, each on the
    card the review before returned. *)
Fixpoint reviewRepeatedly (LocalTZA : Z -> bool -> Z) (n : nat)
    (confidence : ConfidenceScore) (c : FlashCard) : M FlashCard :=
  match n with
  | O => ret c
  | S n' =>
      (r <- reviewCard LocalTZA c confidence ;;
       reviewRepeatedly LocalTZA n' confidence (card r))%js
  end.

(** Whether the number with [k] tenths lies between 0 and 5. *)
Definition tenthsInRange (k : Z) : bool :=
  Qle_bool 0 (tenths k) && Qle_bool (tenths k) 5.

(** ** The browser around the engine: localStorage, the network, React state

    src/hooks/useFlashCards.tsx, src/lib/flashcardApi.ts and
    src/lib/notifications.ts keep the deck in React state and in
    [localStorage], fill it from a trivia service and schedule a reminder.
    Console output ([debug.log] and the like) has no part in what they
    compute and is left out.  An [async] function is run from start to end:
    no other handler of the page runs while it awaits.  [getItem] and
    [removeItem] never throw; [setItem] may. *)

(** The text under a key that holds JSON: what [JSON.stringify] wrote for a
    value of the type that the application keeps under the key, the empty
    string, or text that [JSON.parse] rejects. *)
Inductive JSONText (A : Type) : Type :=
| JSONOf (a : A)
| EmptyText
| Malformed.
Arguments JSONOf {A} a.
Arguments EmptyText {A}.
Arguments Malformed {A}.

(** The text under a key that holds a number, by what [parseInt] makes of
    it: an integer, nothing because the text is empty, or NaN. *)
Inductive NumberText : Type :=
| DecimalOf (n : Z)
| EmptyNumber
| NotNumeric.

(** The object that [scheduleDailyReminder] stores. *)
Record Reminder : Type := mkReminder {
  reminderHour : Z;
  reminderMinute : Z;
  nextReminder : DateString;
  timezone : string
}.

(** [localStorage], by the four keys of the application: "braindeck-cards",
    "braindeck-api-cache", "braindeck-cache-expiry", "braindeck-reminder".
    [quotaExceeded n] tells whether the [n]-th call of [setItem] throws a
    QuotaExceededError; [setItemCalls] counts the calls. *)
Record Storage : Type := mkStorage {
  cardsItem : option (JSONText (list FlashCard));
  apiCacheItem : option (JSONText (list FlashCard));
  cacheExpiryItem : option NumberText;
  reminderItem : option (JSONText Reminder);
  quotaExceeded : nat -> bool;
  setItemCalls : nat
}.

(** One item of the results of the Open Trivia Database. *)
Record TriviaItem : Type := mkTriviaItem {
  trivia_question : string;
  correct_answer : string;
  incorrect_answers : list string
}.

(** What [fetch] and [response.json()] come to: the request fails, or there
    is a response with its [ok] flag and status and, unless its body is not
    JSON, the [response_code] and [results] of the body. *)
Inductive FetchOutcome : Type :=
| FetchRejected
| Response (ok : bool) (status : Z) (body : option (Z * list TriviaItem)).

(** The network: the successive readings of [navigator.onLine] and the
    successive outcomes of [fetch]; [decodeEntities] is what a textarea of
    the document makes of the HTML entities of a string. *)
Record Network : Type := mkNetwork {
  onLine : nat -> bool;
  onLineReads : nat;
  fetchOutcome : nat -> FetchOutcome;
  fetchCalls : nat;
  decodeEntities : string -> string
}.

(** [NotificationPermission] *)
Inductive NotificationPermission : Type := granted | denied | default.

(** The Notification API and the timer of the [NotificationService]:
    whether [window] has [Notification], [Notification.permission], what the
    user answers when asked, the zone name that [Intl] reports, and the
    delay of the pending reminder timer, if there is one (NaN is [None]). *)
Record Notifications : Type := mkNotifications {
  notificationInWindow : bool;
  permission : NotificationPermission;
  userAnswer : NotificationPermission;
  timeZone : string;
  reminderTimeout : option (option Z)
}.

(** The state of the [useFlashCards] hook. *)
Record HookState : Type := mkHookState {
  hookCards : list FlashCard;
  isLoading : bool;
  isOffline : bool;
  hookError : option string
}.

(** [windowDefined] is false where the code runs outside a browser and
    [window] and [navigator] are undefined. *)
Record Browser : Type := mkBrowser {
  world : World;
  windowDefined : bool;
  localStorage : Storage;
  network : Network;
  notifications : Notifications;
  hookState : HookState
}.

Definition withWorld (w : World) (b : Browser) : Browser :=
  mkBrowser w (windowDefined b) (localStorage b) (network b)
            (notifications b) (hookState b).

Definition withStorage (s : Storage) (b : Browser) : Browser :=
  mkBrowser (world b) (windowDefined b) s (network b)
            (notifications b) (hookState b).

Definition withNetwork (n : Network) (b : Browser) : Browser :=
  mkBrowser (world b) (windowDefined b) (localStorage b) n
            (notifications b) (hookState b).

Definition withNotifications (n : Notifications) (b : Browser) : Browser :=
  mkBrowser (world b) (windowDefined b) (localStorage b) (network b)
            n (hookState b).

Definition withHookState (h : HookState) (b : Browser) : Browser :=
  mkBrowser (world b) (windowDefined b) (localStorage b) (network b)
            (notifications b) h.

(** What can be thrown in the browser: an exception of the engine, the
    QuotaExceededError of [setItem], the SyntaxError of [JSON.parse] and of
    [response.json()], an [Error] made with [new Error(message)], the
    rejection of [fetch], a TypeError. *)
Inductive Failure : Type :=
| EngineException (e : Exception)
| QuotaExceededError
| SyntaxError
| ErrorWith (message : string)
| FetchFailed
| TypeError.

(** Computations in the browser.  What was done before an exception stays
    done, so that [try ... catch] goes on from there. *)
Inductive Outcome (A : Type) : Type :=
| Returns (a : A) (b : Browser)
| Throws (e : Failure) (b : Browser).
Arguments Returns {A} a b.
Arguments Throws {A} e b.

Definition B (A : Type) : Type := Browser -> Outcome A.

Definition retB {A : Type} (a : A) : B A := fun b => Returns a b.

Definition bindB {A C : Type} (m : B A) (k : A -> B C) : B C :=
  fun b => match m b with
           | Returns a b' => k a b'
           | Throws e b' => Throws e b'
           end.

Definition throwB {A : Type} (e : Failure) : B A := fun b => Throws e b.

(** [try { m } catch (e) { handler e }] *)
Definition tryCatch {A : Type} (m : B A) (handler : Failure -> B A) : B A :=
  fun b => match m b with
           | Returns a b' => Returns a b'
           | Throws e b' => handler e b'
           end.

(** [try { m } finally { cleanup }] *)
Definition tryFinally {A : Type} (m : B A) (cleanup : B unit) : B A :=
  fun b => match m b with
           | Returns a b' =>
               match cleanup b' with
               | Returns _ b'' => Returns a b''
               | Throws e b'' => Throws e b''
               end
           | Throws e b' =>
               match cleanup b' with
               | Returns _ b'' => Throws e b''
               | Throws e' b'' => Throws e' b''
               end
           end.

Declare Scope browser_scope.
Delimit Scope browser_scope with browser.
Notation "x <~ m ;; k" := (bindB m (fun x => k))
  (at level 100, m at next level, right associativity) : browser_scope.
Notation "m ;;; k" := (bindB m (fun _ => k))
  (at level 100, right associativity) : browser_scope.

(** A computation of the engine, run on the clock and the UUID source of the
    browser.  An exception of the engine carries no world: the clock and
    UUID readings made before it are not counted. *)
Definition engine {A : Type} (m : M A) : B A :=
  fun b => match m (world b) with
           | Ok (a, w') => Returns a (withWorld w' b)
           | Throw e => Throws (EngineException e) b
           end.

(** The browser a computation ends in. *)
Definition finalBrowser {A : Type} (o : Outcome A) : Browser :=
  match o with
  | Returns _ b => b
  | Throws _ b => b
  end.

(** [Date.now()]: a reading of the clock. *)
Definition Date_now : B Z :=
  fun b =>
    let w := world b in
    Returns (clock w (clockReads w))
            (withWorld (mkWorld (clock w) (S (clockReads w))
                                (uuidSource w) (uuidReads w)) b).

(** [array.map(callback)] with a callback that runs in the browser. *)
Fixpoint mapB {A C : Type} (f : A -> B C) (l : list A) : B (list C) :=
  match l with
  | [] => retB []
  | x :: xs =>
      (y <~ f x ;;
       ys <~ mapB f xs ;;
       retB (y :: ys))%browser
  end.

(** [String(n)] for an integer [n] below 10^21 in size: its decimal digits,
    after a minus sign if it is negative. *)
Definition numberToString (n : Z) : string :=
  if n <? 0
  then ("-" ++ NilEmpty.string_of_uint (Nat.to_uint (Z.to_nat (- n))))%string
  else NilEmpty.string_of_uint (Nat.to_uint (Z.to_nat n)).

Definition newline : string := String (Ascii.ascii_of_nat 10) EmptyString.

(** *** localStorage *)

Definition countSetItem (s : Storage) : Storage :=
  mkStorage (cardsItem s) (apiCacheItem s) (cacheExpiryItem s)
            (reminderItem s) (quotaExceeded s) (S (setItemCalls s)).

(** [localStorage.setItem(key, value)]; [store] puts the value under its
    key.  The call is counted, and either throws or stores the value. *)
Definition setItemWith (store : Storage -> Storage) : B unit :=
  fun b =>
    let s := localStorage b in
    if quotaExceeded s (setItemCalls s)
    then Throws QuotaExceededError (withStorage (countSetItem s) b)
    else Returns tt (withStorage (store (countSetItem s)) b).

Definition putCards (v : option (JSONText (list FlashCard))) (s : Storage)
  : Storage :=
  mkStorage v (apiCacheItem s) (cacheExpiryItem s) (reminderItem s)
            (quotaExceeded s) (setItemCalls s).

Definition putApiCache (v : option (JSONText (list FlashCard))) (s : Storage)
  : Storage :=
  mkStorage (cardsItem s) v (cacheExpiryItem s) (reminderItem s)
            (quotaExceeded s) (setItemCalls s).

Definition putCacheExpiry (v : option NumberText) (s : Storage) : Storage :=
  mkStorage (cardsItem s) (apiCacheItem s) v (reminderItem s)
            (quotaExceeded s) (setItemCalls s).

Definition putReminder (v : option (JSONText Reminder)) (s : Storage)
  : Storage :=
  mkStorage (cardsItem s) (apiCacheItem s) (cacheExpiryItem s) v
            (quotaExceeded s) (setItemCalls s).

(** [localStorage.getItem(key)]: [None] is [null]. *)
Definition getItem {A : Type} (item : Storage -> option A) : B (option A) :=
  fun b => Returns (item (localStorage b)) b.

(** [localStorage.removeItem(key)]; [remove] puts nothing under the key. *)
Definition removeItemWith (remove : Storage -> Storage) : B unit :=
  fun b => Returns tt (withStorage (remove (localStorage b)) b).

(** [JSON.parse(text)] *)
Definition JSON_parse {A : Type} (text : JSONText A) : B A :=
  match text with
  | JSONOf a => retB a
  | EmptyText => throwB SyntaxError
  | Malformed => throwB SyntaxError
  end.

(** Whether a string is truthy: it is not empty. *)
Definition truthyText {A : Type} (text : JSONText A) : bool :=
  match text with
  | EmptyText => false
  | _ => true
  end.

(** *** The state of the hook *)

(** [setCards(updater)]: the updater gets the deck in the state and gives
    the new one; it is run when it is passed. *)
Definition setCardsWith (updater : list FlashCard -> B (list FlashCard))
  : B unit :=
  fun b =>
    match updater (hookCards (hookState b)) b with
    | Returns cards b' =>
        let h := hookState b' in
        Returns tt (withHookState
                      (mkHookState cards (isLoading h) (isOffline h)
                                   (hookError h)) b')
    | Throws e b' => Throws e b'
    end.

Definition setCards (cards : list FlashCard) : B unit :=
  setCardsWith (fun _ => retB cards).

Definition setIsLoading (v : bool) : B unit :=
  fun b =>
    let h := hookState b in
    Returns tt (withHookState
                  (mkHookState (hookCards h) v (isOffline h) (hookError h)) b).

Definition setIsOffline (v : bool) : B unit :=
  fun b =>
    let h := hookState b in
    Returns tt (withHookState
                  (mkHookState (hookCards h) (isLoading h) v (hookError h)) b).

Definition setError (v : option string) : B unit :=
  fun b =>
    let h := hookState b in
    Returns tt (withHookState
                  (mkHookState (hookCards h) (isLoading h) (isOffline h) v) b).

(** [array.findIndex(predicate)]: [None] is the -1 for no such element. *)
Fixpoint findIndex {A : Type} (p : A -> bool) (l : list A) : option nat :=
  match l with
  | [] => None
  | x :: xs => if p x then Some O else option_map S (findIndex p xs)
  end.

(** [copy[index] = value] on a copy of an array, for an index inside it. *)
Fixpoint assignAt {A : Type} (index : nat) (value : A) (l : list A) : list A :=
  match l, index with
  | [], _ => []
  | _ :: xs, O => value :: xs
  | x :: xs, S i => x :: assignAt i value xs
  end.

(** *** src/lib/flashcardApi.ts *)

Definition CACHE_DURATION : Z := 24 * 60 * 60 * 1000.

(** What [fetchFlashcards] returns. *)
Record FetchResult : Type := mkFetchResult {
  fr_cards : list FlashCard;
  fr_isOffline : bool;
  fromCache : bool
}.

(** [fetch(url)]: the next outcome of the network. *)
Definition fetch : B FetchOutcome :=
  fun b =>
    let n := network b in
    Returns (fetchOutcome n (fetchCalls n))
            (withNetwork
               (mkNetwork (onLine n) (onLineReads n) (fetchOutcome n)
                          (S (fetchCalls n)) (decodeEntities n)) b).

Definition decodeHTML (html : string) : B string :=
  fun b => Returns (decodeEntities (network b) html) b.

(** [isCacheValid]: [Date.now() < NaN] is false. *)
Definition isCacheValid : B bool :=
  fun b =>
    if negb (windowDefined b) then Returns false b
    else
      (cached <~ getItem cacheExpiryItem ;;
       match cached with
       | None => retB false
       | Some EmptyNumber => retB false
       | Some NotNumeric => (now <~ Date_now ;; retB false)
       | Some (DecimalOf expiryTime) =>
           (now <~ Date_now ;; retB (now <? expiryTime))
       end)%browser b.

Definition getCachedFlashcards : B (option (list FlashCard)) :=
  fun b =>
    if negb (windowDefined b) then Returns None b
    else
      (valid <~ isCacheValid ;;
       if negb valid then
         (removeItemWith (putApiCache None) ;;;
          removeItemWith (putCacheExpiry None) ;;;
          retB None)
       else
         (cached <~ getItem apiCacheItem ;;
          match cached with
          | None => retB None
          | Some text =>
              if negb (truthyText text) then retB None
              else
                tryCatch
                  (cards <~ JSON_parse text ;; retB (Some cards))
                  (fun _ =>
                     removeItemWith (putApiCache None) ;;;
                     retB None)
          end))%browser b.

(** The expiry time is written as [(Date.now() + CACHE_DURATION).toString()]:
    the decimal digits of the sum, for a clock within the range of [Date]. *)
Definition cacheFlashcards (cards : list FlashCard) : B unit :=
  fun b =>
    if negb (windowDefined b) then Returns tt b
    else
      tryCatch
        (setItemWith (putApiCache (Some (JSONOf cards))) ;;;
         now <~ Date_now ;;
         setItemWith (putCacheExpiry (Some (DecimalOf (now + CACHE_DURATION)))))%browser
        (fun _ => retB tt) b.

(** [typeof navigator !== "undefined" && navigator.onLine] *)
Definition isOnline : B bool :=
  fun b =>
    if negb (windowDefined b) then Returns false b
    else
      let n := network b in
      Returns (onLine n (onLineReads n))
              (withNetwork
                 (mkNetwork (onLine n) (S (onLineReads n)) (fetchOutcome n)
                            (fetchCalls n) (decodeEntities n)) b).

Definition clearFlashcardCache : B unit :=
  fun b =>
    if negb (windowDefined b) then Returns tt b
    else
      (removeItemWith (putApiCache None) ;;;
       removeItemWith (putCacheExpiry None))%browser b.

Section Api.

Variable LocalTZA : Z -> bool -> Z.

(** The answer side of a card made from a trivia item. *)
Definition answerOf (item : TriviaItem) : B string :=
  (correct <~ decodeHTML (correct_answer item) ;;
   others <~ mapB (fun a => d <~ decodeHTML a ;; retB ("- " ++ d)%string)
                  (incorrect_answers item) ;;
   retB ("Correct: " ++ correct ++ newline ++ newline
         ++ "Other options:" ++ newline
         ++ String.concat newline others)%string)%browser.

(** The amount asked for is part of the URL only; what comes back is the
    network's affair. *)
Definition fetchFromOpenTrivia (amount : Z) : B (list FlashCard) :=
  tryCatch
    (response <~ fetch ;;
     match response with
     | FetchRejected => throwB FetchFailed
     | Response ok status body =>
         if negb ok then
           throwB (ErrorWith ("API error: " ++ numberToString status))
         else
           match body with
           | None => throwB SyntaxError
           | Some (response_code, results) =>
               if negb (response_code =? 0) then
                 throwB (ErrorWith "Failed to fetch trivia questions")
               else
                 mapB (fun item =>
                         q <~ decodeHTML (trivia_question item) ;;
                         a <~ answerOf item ;;
                         engine (createNewCard LocalTZA q a))
                      results
           end
     end)%browser
    (fun error => throwB error).

Definition fetchFlashcards (amount : Z) : B FetchResult :=
  (online <~ isOnline ;;
   fetched <~ (if online then
                 tryCatch
                   (cards <~ fetchFromOpenTrivia amount ;;
                    cacheFlashcards cards ;;;
                    retB (Some cards))
                   (fun _ => retB None)
               else retB None) ;;
   match fetched with
   | Some cards => retB (mkFetchResult cards false false)
   | None =>
       (cachedCards <~ getCachedFlashcards ;;
        match cachedCards with
        | Some cards =>
            (online <~ isOnline ;;
             retB (mkFetchResult cards (negb online) true))
        | None => retB (mkFetchResult [] true false)
        end)
   end)%browser.

End Api.

(** *** src/hooks/useFlashCards.tsx *)

Definition sampleData : list (string * string) :=
  [ ("What is the time complexity of binary search?",
     "O(log n) - Binary search divides the search space in half with each iteration.");
    ("What is a closure in JavaScript?",
     "A closure is a function that has access to variables in its outer (enclosing) lexical scope, even after the outer function has returned.");
    ("What does REST stand for?",
     "Representational State Transfer - An architectural style for designing networked applications.");
    ("What is the difference between var, let, and const?",
     "var is function-scoped and hoisted; let is block-scoped; const is block-scoped and cannot be reassigned.");
    ("What is the Virtual DOM?",
     "A lightweight copy of the actual DOM kept in memory, used by React to optimize rendering by comparing changes before updating the real DOM.");
    ("Explain SQL JOIN types",
     "INNER JOIN: matching rows only; LEFT JOIN: all left + matches; RIGHT JOIN: all right + matches; FULL OUTER JOIN: all rows from both tables.");
    ("What is Big O notation?",
     "A mathematical notation that describes the limiting behavior of a function when the argument tends towards infinity, used to classify algorithms by their time/space complexity.");
    ("What is a Promise in JavaScript?",
     "An object representing the eventual completion or failure of an asynchronous operation, with .then(), .catch(), and .finally() methods.")
  ]%string.

Section Hook.

Variable LocalTZA : Z -> bool -> Z.

Definition initializeSampleCards : B (list FlashCard) :=
  mapB (fun qa => engine (createNewCard LocalTZA (fst qa) (snd qa))) sampleData.

Definition updateCardsFromAPI : B unit :=
  tryCatch
    (r <~ fetchFlashcards LocalTZA 8 ;;
     let fetchedCards := fr_cards r in
     let offline := fr_isOffline r in
     if (0 <? List.length fetchedCards)%nat then
       (setCardsWith (fun prevCards =>
                        if (0 <? List.length prevCards)%nat
                        then retB prevCards
                        else retB fetchedCards) ;;;
        setIsOffline offline ;;;
        setCardsWith (fun prevCards =>
                        (if (List.length prevCards =? 0)%nat
                            && (0 <? List.length fetchedCards)%nat
                         then setItemWith (putCards (Some (JSONOf fetchedCards)))
                         else retB tt) ;;;
                        retB prevCards) ;;;
        if fromCache r
        then setError (Some "Using cached flashcards - refresh when online for new cards"%string)
        else setError None)
     else if negb offline then
       (setError (Some "Failed to fetch flashcards. Using demo data."%string) ;;;
        demoCards <~ initializeSampleCards ;;
        setCards demoCards ;;;
        setItemWith (putCards (Some (JSONOf demoCards))))
     else retB tt)%browser
    (fun _ =>
       (setError (Some "Failed to fetch flashcards"%string) ;;;
        setCardsWith (fun prevCards =>
                        if (0 <? List.length prevCards)%nat then retB prevCards
                        else
                          (stored <~ getItem cardsItem ;;
                           match stored with
                           | None => initializeSampleCards
                           | Some text =>
                               if truthyText text then JSON_parse text
                               else initializeSampleCards
                           end)))%browser).

(** The effect that runs when the hook is mounted.  The inner [try] returns
    [false] where the source returns from the function, and [true] where
    the source goes on after the [if]. *)
Definition initializeCards : B unit :=
  tryFinally
    (setIsLoading true ;;;
     setError None ;;;
     stored <~ getItem cardsItem ;;
     goOn <~ match stored with
             | None => retB true
             | Some text =>
                 if truthyText text then
                   tryCatch
                     (parsedCards <~ JSON_parse text ;;
                      setCards parsedCards ;;;
                      setIsLoading false ;;;
                      updateCardsFromAPI ;;;
                      retB false)
                     (fun _ => retB true)
                 else retB true
             end ;;
     if goOn : bool then updateCardsFromAPI else retB tt)%browser
    (setIsLoading false).

Definition persistCards (updatedCards : list FlashCard) : B unit :=
  tryCatch
    (setItemWith (putCards (Some (JSONOf updatedCards))) ;;;
     setCards updatedCards)%browser
    (fun _ => retB tt).

(** The callbacks work on the [cards] of the render they were made in. *)
Definition addCard (cards : list FlashCard) (question answer : string)
  : B FlashCard :=
  (newCard <~ engine (createNewCard LocalTZA question answer) ;;
   let updatedCards := cards ++ [newCard] in
   persistCards updatedCards ;;;
   retB newCard)%browser.

(** [cards[cardIndex]] is there when [findIndex] found the index; a
    reading of [undefined.level] would be a TypeError. *)
Definition reviewFlashCard (cards : list FlashCard) (cardId : string)
    (confidence : ConfidenceScore) : B (option ReviewResult) :=
  match findIndex (fun c => String.eqb (id c) cardId) cards with
  | None => retB None
  | Some cardIndex =>
      match nth_error cards cardIndex with
      | None => throwB TypeError
      | Some found =>
          (result <~ engine (reviewCard LocalTZA found confidence) ;;
           let updatedCards := assignAt cardIndex (card result) cards in
           persistCards updatedCards ;;;
           retB (Some result))%browser
      end
  end.

Definition deleteCard (cards : list FlashCard) (cardId : string) : B unit :=
  let updatedCards :=
    filter (fun c => negb (String.eqb (id c) cardId)) cards in
  persistCards updatedCards.

(** The [resetDeck] callback as a whole: the reset cards are persisted. *)
Definition resetDeckCallback (cards : list FlashCard) : B unit :=
  (resetCards <~ engine (resetDeck LocalTZA cards) ;;
   persistCards resetCards)%browser.

(** *** src/lib/notifications.ts *)

Definition requestPermission : B NotificationPermission :=
  fun b =>
    let n := notifications b in
    if negb (notificationInWindow n) then Returns denied b
    else
      match permission n with
      | granted => Returns granted b
      | denied => Returns denied b
      | default =>
          Returns (userAnswer n)
                  (withNotifications
                     (mkNotifications (notificationInWindow n) (userAnswer n)
                                      (userAnswer n) (timeZone n)
                                      (reminderTimeout n)) b)
      end.

(** [a.getTime() - b.getTime()]: NaN when either date is invalid. *)
Definition number_minus (a b : option Z) : option Z :=
  match a, b with
  | Some x, Some y => Some (x - y)
  | _, _ => None
  end.

(** [setTimeout(callback, delay)] as far as the service keeps it: a pending
    timer is cleared and the new one takes its place. *)
Definition setReminderTimeout (delay : option Z) : B unit :=
  fun b =>
    let n := notifications b in
    Returns tt (withNotifications
                  (mkNotifications (notificationInWindow n) (permission n)
                                   (userAnswer n) (timeZone n) (Some delay)) b).

Definition clearReminderTimeout : B unit :=
  fun b =>
    let n := notifications b in
    Returns tt (withNotifications
                  (mkNotifications (notificationInWindow n) (permission n)
                                   (userAnswer n) (timeZone n) None) b).

Definition scheduleDailyReminder (hour minute : Z) : B unit :=
  (perm <~ requestPermission ;;
   match perm with
   | granted =>
       (now <~ engine newDate ;;
        reminderTime <~ engine newDate ;;
        let reminderTime := setHours LocalTZA reminderTime hour minute 0 0 in
        let reminderTime :=
          if Date_le reminderTime now
          then setDate LocalTZA reminderTime
                       (number_plus (getDate LocalTZA reminderTime) (Some 1))
          else reminderTime in
        let delay := number_minus reminderTime now in
        nextReminder <~ engine (lift (toISOString reminderTime)) ;;
        zone <~ (fun b => Returns (timeZone (notifications b)) b) ;;
        setItemWith (putReminder
                       (Some (JSONOf (mkReminder hour minute nextReminder zone)))) ;;;
        setReminderTimeout delay)
   | _ => retB tt
   end)%browser.

Definition cancelReminders : B unit :=
  (clearReminderTimeout ;;;
   removeItemWith (putReminder None))%browser.

Definition isReminderEnabled : B bool :=
  (stored <~ getItem reminderItem ;;
   retB (match stored with
         | None => false
         | Some _ => true
         end))%browser.

Definition getReminderSettings : B (option (Z * Z)) :=
  (stored <~ getItem reminderItem ;;
   match stored with
   | None => retB None
   | Some text =>
       if negb (truthyText text) then retB None
       else
         tryCatch
           (r <~ JSON_parse text ;;
            retB (Some (reminderHour r, reminderMinute r)))
           (fun _ => retB None)
   end)%browser.

End Hook.

(** *** Vocabulary of the properties of the browser side *)

(** The deck in the state of the hook is the deck under "braindeck-cards". *)
Definition inSync (b : Browser) : Prop :=
  cardsItem (localStorage b) = Some (JSONOf (hookCards (hookState b))).

(** The next [n] calls of [setItem] store their value. *)
Definition storageAccepts (n : nat) (b : Browser) : Prop :=
  forall k, (k < n)%nat ->
    quotaExceeded (localStorage b) (k + setItemCalls (localStorage b)) = false.

(** A browser to run the hook on: the sample clock and identifiers, an empty
    [localStorage] that accepts what is written, a network that is on line
    and answers every request with one trivia item, notifications that the
    user grants when asked. *)
Definition sampleStorage : Storage :=
  mkStorage None None None None (fun _ => false) 0.

Definition sampleItem : TriviaItem :=
  mkTriviaItem "Which planet is the largest?" "Jupiter"
               ["Saturn"; "Earth"; "Mars"]%string.

Definition sampleNetwork : Network :=
  mkNetwork (fun _ => true) 0
            (fun _ => Response true 200 (Some (0, [sampleItem]))) 0
            (fun html => html).

Definition sampleNotifications : Notifications :=
  mkNotifications true default granted "Europe/Berlin" None.

Definition sampleBrowser : Browser :=
  mkBrowser sampleWorld true sampleStorage sampleNetwork sampleNotifications
            (mkHookState [] true false None).

(** The same browser with a [localStorage] that is full. *)
Definition fullBrowser : Browser :=
  withStorage (mkStorage None None None None (fun _ => true) 0) sampleBrowser.

(** A second card, with an identifier of its own. *)
Definition otherCard : FlashCard :=
  mkFlashCard "7f0c2a9e-53d1-4c1b-9a57-0d2f4e8b6c11"
              "What is a closure in JavaScript?"
              "A function with access to its outer scope"
              2 (ISOString 1793487600000) None (ISOString 1793534400000) 3.

(** The sample browser once a deck of two cards has been loaded. *)
Definition sampleDeck : list FlashCard := [otherCard; sampleCard 2].

Definition loadedBrowser : Browser :=
  mkBrowser sampleWorld true
            (mkStorage (Some (JSONOf sampleDeck)) None None None
                       (fun _ => false) 0)
            sampleNetwork sampleNotifications
            (mkHookState sampleDeck false false None).

(** From [b] to [b'] neither [localStorage] nor the state of the hook nor
    the kind of host has changed. *)
Definition sameStore (b b' : Browser) : Prop :=
  localStorage b' = localStorage b
  /\ hookState b' = hookState b
  /\ windowDefined b' = windowDefined b.

(** From [b] to [b'] the deck has not changed, neither in the state of the
    hook nor under "braindeck-cards". *)
Definition sameDeck (b b' : Browser) : Prop :=
  hookState b' = hookState b
  /\ cardsItem (localStorage b') = cardsItem (localStorage b)
  /\ windowDefined b' = windowDefined b.

(** The loaded browser on a network whose answer has no results. *)
Definition emptyAnswerBrowser : Browser :=
  withNetwork
    (mkNetwork (fun _ => true) 0
               (fun _ => Response true 200 (Some (0, []))) 0
               (fun html => html))
    loadedBrowser.

(** Notifications can be shown: the API is there and permission is granted
    already, or the user grants it when asked. *)
Definition permitted (b : Browser) : Prop :=
  notificationInWindow (notifications b) = true
  /\ (permission (notifications b) = granted
      \/ (permission (notifications b) = default
          /\ userAnswer (notifications b) = granted)).

(** The time of day in local time, in milliseconds after midnight. *)
Definition localTimeOfDay (LocalTZA : Z -> bool -> Z) (t : Z) : Z :=
  TimeWithinDay (LocalTime LocalTZA t).

(** The reminder that is stored and the delay of the timer that is pending. *)
Definition storedReminder (b : Browser) : option (JSONText Reminder) :=
  reminderItem (localStorage b).

Definition pendingDelay (b : Browser) : option (option Z) :=
  reminderTimeout (notifications b).

(** ** Components *)

(** *** NotificationSettings: the label of the reminder time *)

(** [String.prototype.padStart(targetLength, padString)] *)
Definition padStart (targetLength : nat) (padString s : string) : string :=
  let len := String.length s in
  if (targetLength <=? len)%nat then s
  else
    let missing := (targetLength - len)%nat in
    (substring 0 missing (String.concat EmptyString (repeat padString missing))
     ++ s)%string.

(** [hour % 12 || 12]: the remainder has the sign of [hour], and 12 stands in
    for a remainder of zero. *)
Definition formatTime (hour minute : Z) : string :=
  let h := if Z.rem hour 12 =? 0 then 12 else Z.rem hour 12 in
  let m := padStart 2 "0"%string (numberToString minute) in
  let period := if 12 <=? hour then "PM"%string else "AM"%string in
  (numberToString h ++ ":" ++ m ++ " " ++ period)%string.

(** Reading a label back, to tell that labels differ: the digits up to the
    colon, the digits after it, and the period. *)
Definition digitOf (c : Ascii.ascii) : option Z :=
  let n := Z.of_nat (Ascii.nat_of_ascii c) - 48 in
  if (0 <=? n) && (n <=? 9) then Some n else None.

Fixpoint readDigits (acc : Z) (s : string) : Z * string :=
  match s with
  | EmptyString => (acc, EmptyString)
  | String c rest =>
      match digitOf c with
      | Some n => readDigits (10 * acc + n) rest
      | None => (acc, s)
      end
  end.

Definition readTime (label : string) : option (Z * Z) :=
  let (h, rest) := readDigits 0 label in
  match rest with
  | String colon rest =>
      let (m, period) := readDigits 0 rest in
      if String.eqb period " AM"%string then Some (h mod 12, m)
      else if String.eqb period " PM"%string then Some (h mod 12 + 12, m)
      else None
  | EmptyString => None
  end.

(** Whether the minute [k] of the day, counted from midnight, is read back
    from its label. *)
Definition labelReadsBack (k : nat) : bool :=
  let hour := Z.of_nat k / 60 in
  let minute := Z.of_nat k mod 60 in
  match readTime (formatTime hour minute) with
  | Some (h, m) => (h =? hour) && (m =? minute)
  | None => false
  end.

(** *** Toast: the toasts on display *)

Inductive ToastType : Type := Success | Info | Warning | Error.

Record Toast : Type := mkToast {
  toast_id : string;
  toast_title : string;
  toast_body : string;
  toast_type : ToastType
}.

(** The module's counter [toastId] and the [toasts] of the container that
    listens.  The counter is a [number]: [toastId++] adds one as long as the
    sum is below 2^53 and leaves 2^53 as it is, since 2^53 + 1 rounds back
    to it. *)
Record ToastState : Type := mkToastState {
  toastId : Z;
  toasts : list Toast
}.

Definition increment (n : Z) : Z := if n <? 2 ^ 53 then n + 1 else n.

(** [showToast(title, body, type)] with the listener of [useToast]: the new
    toast goes to the end of the list. *)
Definition showToast (title body : string) (type : ToastType) (s : ToastState)
  : ToastState :=
  let toast :=
    mkToast ("toast-" ++ numberToString (toastId s))%string title body type in
  mkToastState (increment (toastId s)) (toasts s ++ [toast]).

(** The timer that the listener sets for a toast, when it ends after five
    seconds: the toasts with the id of that toast are filtered out. *)
Definition expireToast (toast : Toast) (s : ToastState) : ToastState :=
  mkToastState (toastId s)
               (filter (fun t => negb (String.eqb (toast_id t) (toast_id toast)))
                       (toasts s)).

(** What happens to the toasts: one is shown, or the timer of a toast that
    was shown ends. *)
Inductive toastStep : ToastState -> ToastState -> Prop :=
| step_show (title body : string) (type : ToastType) (s : ToastState) :
    toastStep s (showToast title body type s)
| step_expire (toast : Toast) (s : ToastState) :
    toastStep s (expireToast toast s).

(** The states that the page can get to from the start, where the counter
    is 0 and nothing is on display. *)
Inductive toastReachable : ToastState -> Prop :=
| reach_start : toastReachable (mkToastState 0 [])
| reach_step (s s' : ToastState) :
    toastReachable s -> toastStep s s' -> toastReachable s'.

(** Toasts to look at: two are shown, the timer of the first ends, a third
    is shown. *)
Definition sampleToasts : ToastState :=
  showToast "Saved" "Deck saved" Success
    (expireToast (mkToast "toast-0" "Hello" "Welcome" Info)
       (showToast "Time to study!" "Your flashcards are waiting." Info
          (showToast "Hello" "Welcome" Info (mkToastState 0 [])))).

(** *** InstallPrompt: when the prompt comes back after a dismissal *)

(** [(Date.now() - parseInt(dismissed)) / (1000 * 60 * 60 * 24)]: the
    difference and the product are integers below 2^53 and exact, the
    quotient is rounded.  [None] is NaN. *)
Definition daysSince (now : Z) (dismissed : NumberText) : option Q :=
  match dismissed with
  | DecimalOf t =>
      Some (Binary64.div (inject_Z (now - t)) (inject_Z (1000 * 60 * 60 * 24)))
  | _ => None
  end.

(** [daysSince >= 7]: false for NaN. *)
Definition atLeastSevenDays (days : option Q) : bool :=
  match days with
  | Some q => Qle_bool 7 q
  | None => false
  end.

(** The first value of [showPrompt]; [dismissed] is what lies under
    "braindeck-install-dismissed", [now] what [Date.now()] returns. *)
Definition initialShowPrompt (inBrowser : bool) (dismissed : option NumberText)
    (now : Z) : bool :=
  if negb inBrowser then false
  else
    match dismissed with
    | None => false
    | Some EmptyNumber => false
    | Some text => atLeastSevenDays (daysSince now text)
    end.

(** The handler of [beforeinstallprompt]: the value of [showPrompt] after
    it. *)
Definition beforeInstallPrompt (dismissed : option NumberText) (now : Z)
    (showPrompt : bool) : bool :=
  match dismissed with
  | None => true
  | Some EmptyNumber => true
  | Some text =>
      if atLeastSevenDays (daysSince now text) then true else showPrompt
  end.

(** [handleDismiss]: the value of [showPrompt] after it and what it stores,
    [Date.now().toString()]. *)
Definition handleDismiss (now : Z) : bool * NumberText :=
  (false, DecimalOf now).

(** * Properties *)

(** ** The calendar *)

Example DayFromYear_1970 : DayFromYear 1970 = 0.
Proof. reflexivity. Qed.

(** 2024-02-29T12:00:00.000Z is the time value 1709208000000. *)
Example leap_day_2024 :
  (YearFromTime 1709208000000, MonthFromTime 1709208000000,
   DateFromTime 1709208000000) = (2024, 1, 29).
Proof. reflexivity. Qed.

(** 1969-12-31T23:59:59.999Z is the time value -1. *)
Example last_ms_of_1969 :
  (YearFromTime (-1), MonthFromTime (-1), DateFromTime (-1)) = (1969, 11, 31).
Proof. reflexivity. Qed.

(** [YearFromTime] is the year ECMA-262 asks for: the largest whose first
    day is not after the day of [t]. *)
Lemma YearFromTime_spec (t : Z) :
  DayFromYear (YearFromTime t) <= Day t < DayFromYear (YearFromTime t + 1).
Proof.
  unfold YearFromTime.
  set (d := Day t). clearbody d.
  set (y := 1970 + 400 * d / 146097).
  assert (Hy : DayFromYear (y - 1) <= d < DayFromYear (y + 2)).
  { subst y. unfold DayFromYear. clear.
    Z.div_mod_to_equations. lia. }
  destruct (DayFromYear (y + 1) <=? d) eqn:E1.
  - apply Z.leb_le in E1. replace (y + 1 + 1) with (y + 2) by lia. lia.
  - apply Z.leb_gt in E1.
    destruct (DayFromYear y <=? d) eqn:E2.
    + apply Z.leb_le in E2. lia.
    + apply Z.leb_gt in E2. replace (y - 1 + 1) with y by lia. lia.
Qed.

Lemma DayFromYear_succ (y : Z) :
  DayFromYear (y + 1) = DayFromYear y + DaysInYear y.
Proof.
  unfold DayFromYear, DaysInYear.
  assert (A4 : (y + 1 - 1969) / 4
               = (y - 1969) / 4 + (if y mod 4 =? 0 then 1 else 0)).
  { destruct (y mod 4 =? 0) eqn:E;
      [apply Z.eqb_eq in E | apply Z.eqb_neq in E];
      Z.div_mod_to_equations; lia. }
  assert (A100 : (y + 1 - 1901) / 100
                 = (y - 1901) / 100 + (if y mod 100 =? 0 then 1 else 0)).
  { destruct (y mod 100 =? 0) eqn:E;
      [apply Z.eqb_eq in E | apply Z.eqb_neq in E];
      Z.div_mod_to_equations; lia. }
  assert (A400 : (y + 1 - 1601) / 400
                 = (y - 1601) / 400 + (if y mod 400 =? 0 then 1 else 0)).
  { destruct (y mod 400 =? 0) eqn:E;
      [apply Z.eqb_eq in E | apply Z.eqb_neq in E];
      Z.div_mod_to_equations; lia. }
  assert (D1 : y mod 100 = 0 -> y mod 4 = 0)
    by (clear; intros; Z.div_mod_to_equations; lia).
  assert (D2 : y mod 400 = 0 -> y mod 100 = 0)
    by (clear; intros; Z.div_mod_to_equations; lia).
  rewrite A4, A100, A400. clear A4 A100 A400.
  destruct (y mod 4 =? 0) eqn:E4;
    destruct (y mod 100 =? 0) eqn:E100;
    destruct (y mod 400 =? 0) eqn:E400; simpl negb; cbv iota;
    rewrite ?Z.eqb_eq, ?Z.eqb_neq in *; try lia.
Qed.

Lemma DayWithinYear_range (t : Z) :
  0 <= DayWithinYear t < 365 + InLeapYear t.
Proof.
  unfold DayWithinYear, InLeapYear.
  pose proof (YearFromTime_spec t) as H.
  rewrite DayFromYear_succ in H.
  assert (Hd : DaysInYear (YearFromTime t) = 365 \/ DaysInYear (YearFromTime t) = 366).
  { unfold DaysInYear.
    repeat match goal with |- context [if ?b then _ else _] => destruct b end; auto. }
  destruct Hd as [Hd | Hd]; rewrite Hd in *; simpl; lia.
Qed.

Lemma MonthFromTime_range (t : Z) : 0 <= MonthFromTime t <= 11.
Proof.
  unfold MonthFromTime.
  repeat match goal with |- context [if ?b then _ else _] => destruct b end; lia.
Qed.

(** The table of [DateFromTime] read through [firstDayOfMonth]. *)
Lemma DateFromTime_firstDay (t : Z) :
  DateFromTime t =
  DayWithinYear t - firstDayOfMonth (MonthFromTime t) (InLeapYear t) + 1.
Proof.
  unfold DateFromTime.
  pose proof (MonthFromTime_range t) as Hm.
  destruct (MonthFromTime t) as [| p | p];
    cbv beta iota zeta delta [firstDayOfMonth]; try lia.
  repeat (destruct p as [p | p |];
          cbv beta iota zeta delta [firstDayOfMonth]; try lia).
Qed.

Lemma DateFromTime_range (t : Z) : 1 <= DateFromTime t <= 31.
Proof.
  pose proof (DayWithinYear_range t) as Hd.
  assert (Hl : InLeapYear t = 0 \/ InLeapYear t = 1).
  { unfold InLeapYear. destruct (_ =? _); auto. }
  unfold DateFromTime, MonthFromTime.
  repeat match goal with
         | |- context [if ?a <? ?b then _ else _] =>
             let E := fresh "E" in
             destruct (a <? b) eqn:E;
             [apply Z.ltb_lt in E | apply Z.ltb_ge in E]
         end; simpl; lia.
Qed.

(** Setting the day of the month to the current one plus [n] moves the day
    number by [n], whatever the month lengths in between. *)
Lemma MakeDay_shift (t n : Z) :
  MakeDay (YearFromTime t) (MonthFromTime t) (DateFromTime t + n) = Day t + n.
Proof.
  unfold MakeDay.
  pose proof (MonthFromTime_range t) as Hm.
  replace (MonthFromTime t / 12) with 0
    by (symmetry; apply Z.div_small; lia).
  replace (MonthFromTime t mod 12) with (MonthFromTime t)
    by (symmetry; apply Z.mod_small; lia).
  rewrite Z.add_0_r, DateFromTime_firstDay.
  fold (InLeapYear t). unfold DayWithinYear. lia.
Qed.

(** ** Date methods in a civil time zone *)

Lemma TimeClip_in_range (t : Z) :
  Z.abs t <= maxTimeValue -> TimeClip t = Some t.
Proof.
  intros H. unfold TimeClip.
  destruct (Z.abs t <=? maxTimeValue) eqn:E; [reflexivity |].
  apply Z.leb_gt in E. lia.
Qed.

Lemma farFromLimits_TimeClip (t : Z) : farFromLimits t -> TimeClip t = Some t.
Proof.
  unfold farFromLimits, maxTimeValue, msPerDay. intros H.
  apply TimeClip_in_range. unfold maxTimeValue. lia.
Qed.

Lemma MakeDate_Day_TimeWithinDay (t n : Z) :
  MakeDate (Day t + n) (TimeWithinDay t) = t + n * msPerDay.
Proof.
  unfold MakeDate, Day, TimeWithinDay, msPerDay.
  Z.div_mod_to_equations. lia.
Qed.

Lemma Day_MakeDate_midnight (d : Z) : Day (MakeDate d 0) = d.
Proof.
  unfold Day, MakeDate, msPerDay. rewrite Z.add_0_r.
  apply Z.div_mul. lia.
Qed.

Lemma fixedZone_civil (offset : Z) :
  Z.abs offset <= msPerDay -> CivilZone (fixedZone offset).
Proof.
  intros H. split.
  - intros t b. exact H.
  - intros x. unfold LocalTime, UTC, fixedZone. f_equal. lia.
Qed.

Section CivilTime.

Variable LocalTZA : Z -> bool -> Z.
Hypothesis civil : CivilZone LocalTZA.

Lemma setHours_midnight (t : Z) :
  setHours LocalTZA (Some t) 0 0 0 0 = TimeClip (startOfDay LocalTZA t).
Proof. reflexivity. Qed.

Lemma localDay_localMidnight (d : Z) :
  localDay LocalTZA (localMidnight LocalTZA d) = d.
Proof.
  unfold localDay, localMidnight.
  rewrite (zone_keeps_day _ civil). apply Day_MakeDate_midnight.
Qed.

(** Local midnight of a day is within a day of [d * msPerDay]. *)
Lemma localMidnight_bounds (d : Z) :
  Z.abs (localMidnight LocalTZA d - d * msPerDay) <= msPerDay.
Proof.
  unfold localMidnight, UTC, MakeDate.
  pose proof (zone_bounded _ civil (d * msPerDay + 0) false) as H.
  lia.
Qed.

Lemma localDay_bounds (t : Z) :
  Z.abs (localDay LocalTZA t * msPerDay - t) <= 2 * msPerDay.
Proof.
  unfold localDay, LocalTime, Day.
  pose proof (zone_bounded _ civil t true) as H.
  revert H. generalize (LocalTZA t true). intros o H.
  unfold msPerDay in *. Z.div_mod_to_equations. lia.
Qed.

(** Local midnight of a day up to thirty days after the day of a time far
    from the limits is a valid time value. *)
Lemma localMidnight_valid (t n : Z) :
  farFromLimits t -> 0 <= n <= 30 ->
  TimeClip (localMidnight LocalTZA (localDay LocalTZA t + n))
  = Some (localMidnight LocalTZA (localDay LocalTZA t + n)).
Proof.
  intros Ht Hn. apply TimeClip_in_range.
  pose proof (localMidnight_bounds (localDay LocalTZA t + n)) as H1.
  pose proof (localDay_bounds t) as H2.
  unfold farFromLimits, maxTimeValue, msPerDay in *. lia.
Qed.

Lemma startOfDay_valid (t : Z) :
  farFromLimits t -> TimeClip (startOfDay LocalTZA t) = Some (startOfDay LocalTZA t).
Proof.
  intros Ht. unfold startOfDay.
  pose proof (localMidnight_valid t 0 Ht ltac:(lia)) as H.
  rewrite Z.add_0_r in H. exact H.
Qed.

(** [d.setDate(d.getDate() + n)] keeps the local time of day and moves the
    local calendar day by [n]. *)
Lemma setDate_getDate_plus (t n : Z) :
  setDate LocalTZA (Some t) (number_plus (getDate LocalTZA (Some t)) (Some n))
  = TimeClip (UTC LocalTZA (LocalTime LocalTZA t + n * msPerDay)).
Proof.
  unfold setDate, getDate, number_plus.
  rewrite MakeDay_shift, MakeDate_Day_TimeWithinDay. reflexivity.
Qed.

(** The two steps of [calculateNextReviewDate] on a valid date. *)
Lemma setDate_then_midnight (t n : Z) :
  farFromLimits t -> 0 <= n <= 30 ->
  setHours LocalTZA
    (setDate LocalTZA (Some t) (number_plus (getDate LocalTZA (Some t)) (Some n)))
    0 0 0 0
  = Some (localMidnight LocalTZA (localDay LocalTZA t + n)).
Proof.
  intros Ht Hn. rewrite setDate_getDate_plus.
  set (x := LocalTime LocalTZA t + n * msPerDay).
  assert (Hx : TimeClip (UTC LocalTZA x) = Some (UTC LocalTZA x)).
  { apply TimeClip_in_range. unfold UTC, x, LocalTime.
    pose proof (zone_bounded _ civil t true) as H1.
    pose proof (zone_bounded _ civil (t + LocalTZA t true + n * msPerDay) false) as H2.
    unfold farFromLimits, maxTimeValue, msPerDay in *. lia. }
  rewrite Hx, setHours_midnight. unfold startOfDay.
  assert (Hd : localDay LocalTZA (UTC LocalTZA x) = localDay LocalTZA t + n).
  { unfold localDay at 1. rewrite (zone_keeps_day _ civil).
    unfold x, localDay, Day. apply Z.div_add. unfold msPerDay. lia. }
  rewrite Hd. apply localMidnight_valid; assumption.
Qed.

End CivilTime.

(** In a zone without daylight saving, calendar days are 24 hours apart. *)
Lemma localMidnight_fixedZone (offset d n : Z) :
  localMidnight (fixedZone offset) (d + n)
  = localMidnight (fixedZone offset) d + n * msPerDay.
Proof. unfold localMidnight, UTC, fixedZone, MakeDate. lia. Qed.

Lemma summerTimeZone_civil : CivilZone summerTimeZone.
Proof.
  split.
  - intros t b. unfold summerTimeZone, msPerHour, msPerDay.
    destruct b; destruct (_ <? _); lia.
  - intros x. unfold LocalTime, UTC, summerTimeZone.
    destruct (x <? springForward + 2 * msPerHour) eqn:E1.
    + apply Z.ltb_lt in E1.
      destruct (x - msPerHour <? springForward) eqn:E2.
      * f_equal. lia.
      * apply Z.ltb_ge in E2.
        unfold Day, springForward, msPerHour, msPerDay in *.
        Z.div_mod_to_equations. lia.
    + apply Z.ltb_ge in E1.
      destruct (x - 2 * msPerHour <? springForward) eqn:E2.
      * apply Z.ltb_lt in E2. lia.
      * f_equal. lia.
Qed.

(** ** The interval table *)

Lemma LEITNER_INTERVALS_in_range (l : Z) :
  LeitnerLevel l ->
  LEITNER_INTERVALS l = Some (intervalDays l) /\ 0 <= intervalDays l <= 30.
Proof.
  unfold LeitnerLevel. intros H.
  assert (Hc : l = 0 \/ l = 1 \/ l = 2 \/ l = 3 \/ l = 4 \/ l = 5) by lia.
  destruct Hc as [-> | [-> | [-> | [-> | [-> | ->]]]]];
    unfold intervalDays; simpl; split; (reflexivity || lia).
Qed.

Lemma LEITNER_INTERVALS_out_of_range (l : Z) :
  ~ LeitnerLevel l -> LEITNER_INTERVALS l = None.
Proof.
  unfold LeitnerLevel. intros H.
  destruct l as [| p | p]; [lia | | reflexivity].
  do 3 (destruct p as [p | p |]; try reflexivity; try lia).
Qed.

Lemma calculateNewLevel_in_range (l : Z) (c : ConfidenceScore) :
  LeitnerLevel l -> LeitnerLevel (calculateNewLevel l c).
Proof. unfold LeitnerLevel. destruct c; simpl; lia. Qed.

(** ** The engine, step by step *)

Section EngineLemmas.

Variable LocalTZA : Z -> bool -> Z.
Hypothesis civil : CivilZone LocalTZA.

Lemma calculateNextReviewDate_from (l t : Z) (w : World) :
  LeitnerLevel l -> farFromLimits t ->
  calculateNextReviewDate LocalTZA l (Some (Some t)) w
  = Ok (ISOString (localMidnight LocalTZA (localDay LocalTZA t + intervalDays l)), w).
Proof.
  intros Hl Ht.
  destruct (LEITNER_INTERVALS_in_range l Hl) as [Hi Hn].
  unfold calculateNextReviewDate, bind, ret. rewrite Hi.
  rewrite (setDate_then_midnight LocalTZA civil t _ Ht Hn). reflexivity.
Qed.

Lemma calculateNextReviewDate_default (l : Z) (w : World) :
  LeitnerLevel l -> farFromLimits (now w) ->
  calculateNextReviewDate LocalTZA l None w
  = Ok (ISOString (localMidnight LocalTZA
                     (localDay LocalTZA (now w) + intervalDays l)),
        afterClockReads 1 w).
Proof.
  intros Hl Ht.
  destruct (LEITNER_INTERVALS_in_range l Hl) as [Hi Hn].
  unfold calculateNextReviewDate, bind, newDate. fold (now w).
  rewrite (farFromLimits_TimeClip _ Ht), Hi.
  rewrite (setDate_then_midnight LocalTZA civil (now w) _ Ht Hn). reflexivity.
Qed.

(** An out-of-range level: the table has no entry, the date becomes invalid
    and [toISOString] throws. *)
Lemma calculateNextReviewDate_bad_level (l : Z) (d : option TimeValue) (w : World) :
  ~ LeitnerLevel l ->
  calculateNextReviewDate LocalTZA l d w = Throw (RangeError "Invalid time value").
Proof.
  intros Hl. unfold calculateNextReviewDate, bind.
  rewrite (LEITNER_INTERVALS_out_of_range l Hl).
  destruct d as [d |]; simpl.
  - destruct d; reflexivity.
  - destruct (TimeClip _); reflexivity.
Qed.

Lemma reviewCard_returns (c : FlashCard) (confidence : ConfidenceScore) (w : World) :
  LeitnerLevel (level c) ->
  farFromLimits (now w) ->
  farFromLimits (now (afterClockReads 1 w)) ->
  reviewCard LocalTZA c confidence w
  = let l := calculateNewLevel (level c) confidence in
    let due := ISOString (localMidnight LocalTZA
                            (localDay LocalTZA (now w) + intervalDays l)) in
    Ok (mkReviewResult
          (mkFlashCard (id c) (question c) (answer c) l due
             (Some (ISOString (now (afterClockReads 1 w))))
             (createdAt c) (reviewCount c + 1))
          (level c) l due,
        afterClockReads 2 w).
Proof.
  intros Hl H1 H2. unfold reviewCard, bind.
  rewrite (calculateNextReviewDate_default _ w
             (calculateNewLevel_in_range _ confidence Hl) H1).
  unfold newDate. fold (now (afterClockReads 1 w)).
  rewrite (farFromLimits_TimeClip _ H2). reflexivity.
Qed.

Lemma isCardDue_returns (c : FlashCard) (w : World) :
  isCardDue LocalTZA c w
  = Ok (Date_le (Date_parse (nextReviewDate c))
                (setHours LocalTZA (TimeClip (now w)) 0 0 0 0),
        afterClockReads 1 w).
Proof. reflexivity. Qed.

Lemma isCardDue_valid (c : FlashCard) (r : Z) (w : World) :
  Date_parse (nextReviewDate c) = Some r ->
  farFromLimits (now w) ->
  isCardDue LocalTZA c w
  = Ok (r <=? startOfDay LocalTZA (now w), afterClockReads 1 w).
Proof.
  intros Hr Ht. rewrite isCardDue_returns, Hr.
  rewrite (farFromLimits_TimeClip _ Ht), setHours_midnight.
  rewrite (startOfDay_valid LocalTZA civil _ Ht). reflexivity.
Qed.

Lemma createNewCard_returns (q a : string) (w : World) :
  farFromLimits (now w) ->
  createNewCard LocalTZA q a w
  = Ok (mkFlashCard (uuidSource w (uuidReads w)) q a 0
          (ISOString (startOfDay LocalTZA (now w))) None
          (ISOString (now w)) 0,
        afterUUID (afterClockReads 1 w)).
Proof.
  intros Ht. unfold createNewCard, bind, newDate. fold (now w).
  rewrite (farFromLimits_TimeClip _ Ht), setHours_midnight.
  rewrite (startOfDay_valid LocalTZA civil _ Ht). reflexivity.
Qed.

End EngineLemmas.

(** ** Level transitions *)

(** C1. For every current level L in [0,5]: [calculateNewLevel L forgot] is 0
    whatever L is, and [calculateNewLevel L know] is min(L + 1, 5), which is
    L + 1 below 5 and 5 at 5: the increment saturates, it neither fails nor
    wraps, and the result is again a level. *)
Theorem calculateNewLevel_forgot_resets_know_saturates (L : Z) :
  LeitnerLevel L ->
  calculateNewLevel L forgot = 0
  /\ calculateNewLevel L know = Z.min (L + 1) 5
  /\ (L < 5 -> calculateNewLevel L know = L + 1)
  /\ calculateNewLevel 5 know = 5
  /\ LeitnerLevel (calculateNewLevel L know).
Proof.
  unfold LeitnerLevel. intros H. simpl. repeat split; lia.
Qed.

Lemma calculateNewLevel_forgot_resets_know_saturates_witness :
  calculateNewLevel 4 forgot = 0
  /\ calculateNewLevel 4 know = Z.min (4 + 1) 5
  /\ (4 < 5 -> calculateNewLevel 4 know = 4 + 1)
  /\ calculateNewLevel 5 know = 5
  /\ LeitnerLevel (calculateNewLevel 4 know).
Proof.
  apply (calculateNewLevel_forgot_resets_know_saturates 4).
  unfold LeitnerLevel. lia.
Defined.

(** ** The next review date *)

(** C3. For every level L in [0,5] and every reference date-time D,
    [calculateNextReviewDate L D] is the start (local midnight) of the
    calendar day that lies [intervalDays L] days after the calendar day of D,
    where [intervalDays] is the table 0:0, 1:1, 2:3, 3:7, 4:14, 5:30.  The
    result depends on D through its calendar day only, not through its time
    of day; at level 3 it is the start of the day seven days on, at level 0
    the start of the day of D itself; and where the zone's offset never
    changes it is [startOfDay D] plus that many days of 24 hours. *)
Theorem calculateNextReviewDate_is_start_of_day_plus_interval
    (LocalTZA : Z -> bool -> Z) (civil : CivilZone LocalTZA)
    (L D : Z) (w : World) :
  LeitnerLevel L -> farFromLimits D ->
  let due := localMidnight LocalTZA (localDay LocalTZA D + intervalDays L) in
  calculateNextReviewDate LocalTZA L (Some (Some D)) w = Ok (ISOString due, w)
  /\ map intervalDays [0; 1; 2; 3; 4; 5] = [0; 1; 3; 7; 14; 30]
  /\ localDay LocalTZA due
     = localDay LocalTZA (startOfDay LocalTZA D) + intervalDays L
  /\ (forall D', farFromLimits D' ->
        localDay LocalTZA D' = localDay LocalTZA D ->
        calculateNextReviewDate LocalTZA L (Some (Some D')) w
        = Ok (ISOString due, w))
  /\ (L = 3 -> due = localMidnight LocalTZA (localDay LocalTZA D + 7))
  /\ (L = 0 -> due = startOfDay LocalTZA D)
  /\ (forall offset, (forall t b, LocalTZA t b = offset) ->
        due = startOfDay LocalTZA D + intervalDays L * msPerDay).
Proof.
  intros HL HD due. repeat split.
  - apply calculateNextReviewDate_from; assumption.
  - unfold due, startOfDay.
    rewrite !(localDay_localMidnight LocalTZA civil). reflexivity.
  - intros D' HD' Hday. unfold due. rewrite <- Hday.
    apply calculateNextReviewDate_from; assumption.
  - intros ->. reflexivity.
  - intros ->. unfold due, startOfDay. simpl. rewrite Z.add_0_r. reflexivity.
  - intros offset Hfix. unfold due, startOfDay, localMidnight, UTC, MakeDate.
    rewrite !Hfix. lia.
Qed.

Lemma sampleZone_civil : CivilZone sampleZone.
Proof. apply fixedZone_civil. unfold msPerDay. lia. Qed.

(** From noon UTC on the leap day of 2024, in the zone one hour ahead, a
    card at level 3 is due at local midnight of 7 March. *)
Lemma calculateNextReviewDate_is_start_of_day_plus_interval_witness :
  calculateNextReviewDate sampleZone 3 (Some (Some 1709208000000)) sampleWorld
  = Ok (ISOString 1709766000000, sampleWorld).
Proof.
  refine (proj1 (calculateNextReviewDate_is_start_of_day_plus_interval
                   sampleZone sampleZone_civil 3 1709208000000 sampleWorld _ _)).
  - unfold LeitnerLevel. lia.
  - unfold farFromLimits, maxTimeValue, msPerDay. lia.
Defined.

(** Calendar days, not multiples of 24 hours: reviewed at level 2 at noon
    UTC on 27 March 2026, two days before the clocks go forward, a card is
    due at local midnight of 30 March, which is three days less one hour
    after the start of the day of the review. *)
Example three_days_across_the_clock_change :
  returned (calculateNextReviewDate summerTimeZone 2
              (Some (Some 1774612800000)) sampleWorld)
  = Some (ISOString 1774821600000)
  /\ startOfDay summerTimeZone 1774612800000 = 1774566000000
  /\ 1774821600000 - 1774566000000 = 3 * msPerDay - msPerHour.
Proof. repeat split; vm_compute; reflexivity. Qed.

(** ** Due cards *)

(** C4. For every card and every check time asOf (the reading of the clock
    when [isCardDue] runs), the card is due if and only if its
    [nextReviewDate] is not after the start of the day of asOf; hence a card
    found due at one moment is found due at every other moment of the same
    calendar day, later ones in particular. *)
Theorem isCardDue_iff_due_by_start_of_day
    (LocalTZA : Z -> bool -> Z) (civil : CivilZone LocalTZA)
    (c : FlashCard) (r : Z) (w : World) :
  Date_parse (nextReviewDate c) = Some r ->
  farFromLimits (now w) ->
  exists b : bool,
    isCardDue LocalTZA c w = Ok (b, afterClockReads 1 w)
    /\ (b = true <-> r <= startOfDay LocalTZA (now w))
    /\ (forall w2 : World,
          farFromLimits (now w2) ->
          localDay LocalTZA (now w2) = localDay LocalTZA (now w) ->
          b = true ->
          isCardDue LocalTZA c w2 = Ok (true, afterClockReads 1 w2)).
Proof.
  intros Hr Ht. exists (r <=? startOfDay LocalTZA (now w)). repeat split.
  - apply isCardDue_valid; assumption.
  - apply Z.leb_le.
  - apply Z.leb_le.
  - intros w2 Ht2 Hday Hb.
    rewrite (isCardDue_valid LocalTZA civil c r w2 Hr Ht2).
    unfold startOfDay. rewrite Hday. fold (startOfDay LocalTZA (now w)).
    rewrite Hb. reflexivity.
Qed.

Lemma isCardDue_iff_due_by_start_of_day_witness :
  exists b : bool,
    isCardDue sampleZone (sampleCard 0) sampleWorld
    = Ok (b, afterClockReads 1 sampleWorld)
    /\ (b = true <-> 1793487600000 <= startOfDay sampleZone (now sampleWorld))
    /\ (forall w2 : World,
          farFromLimits (now w2) ->
          localDay sampleZone (now w2) = localDay sampleZone (now sampleWorld) ->
          b = true ->
          isCardDue sampleZone (sampleCard 0) w2 = Ok (true, afterClockReads 1 w2)).
Proof.
  apply (isCardDue_iff_due_by_start_of_day
           sampleZone sampleZone_civil (sampleCard 0) 1793487600000 sampleWorld).
  - reflexivity.
  - unfold farFromLimits. vm_compute. discriminate.
Defined.

(** ** Reviewing a card *)

(** Whatever the card and the clock, a result that [reviewCard] returns has
    this shape: the due date is the one [calculateNextReviewDate] computed
    from the first reading of the clock, the review date is the second
    reading. *)
Lemma reviewCard_result_shape
    (LocalTZA : Z -> bool -> Z)
    (c : FlashCard) (confidence : ConfidenceScore) (w w' : World)
    (r : ReviewResult) :
  reviewCard LocalTZA c confidence w = Ok (r, w') ->
  exists due : DateString,
    calculateNextReviewDate LocalTZA (calculateNewLevel (level c) confidence)
      None w = Ok (due, afterClockReads 1 w)
    /\ w' = afterClockReads 2 w
    /\ r = mkReviewResult
             (mkFlashCard (id c) (question c) (answer c)
                (calculateNewLevel (level c) confidence) due
                (Some (ISOString (now (afterClockReads 1 w))))
                (createdAt c) (reviewCount c + 1))
             (level c) (calculateNewLevel (level c) confidence) due.
Proof.
  unfold reviewCard, bind at 1.
  destruct (calculateNextReviewDate _ _ _ w) as [[due w1] | e] eqn:Hdue;
    [| discriminate].
  assert (Hw1 : w1 = afterClockReads 1 w).
  { unfold calculateNextReviewDate, bind, newDate, lift in Hdue.
    destruct (toISOString _) in Hdue; [| discriminate].
    injection Hdue as _ <-. reflexivity. }
  subst w1. unfold bind, newDate, lift, ret.
  fold (now (afterClockReads 1 w)).
  unfold TimeClip.
  destruct (Z.abs (now (afterClockReads 1 w)) <=? maxTimeValue);
    [| discriminate].
  cbn [toISOString]. intros H. injection H as <- <-.
  exists due. repeat split; reflexivity.
Qed.

(** C2. For every card and every confidence value, the updated card that
    [reviewCard] returns is the input card except for four fields: [level] is
    the new level, [nextReviewDate] the due date recomputed at the review,
    [lastReviewDate] the moment of the review, and [reviewCount] is one more
    (for a count from -2^53 up to 2^53 - 1, where adding 1 is exact); [id],
    [question], [answer] and [createdAt] are carried over.  The input card is a value
    that the function only reads; the state it changes is the clock, read
    twice.  It does return for every card whose level is a Leitner level. *)
Theorem reviewCard_updates_only_review_fields
    (LocalTZA : Z -> bool -> Z) (civil : CivilZone LocalTZA)
    (c : FlashCard) (confidence : ConfidenceScore) (w : World) :
  (forall (r : ReviewResult) (w' : World),
      reviewCard LocalTZA c confidence w = Ok (r, w') ->
      w' = afterClockReads 2 w
      /\ level (card r) = calculateNewLevel (level c) confidence
      /\ calculateNextReviewDate LocalTZA (level (card r)) None w
         = Ok (nextReviewDate (card r), afterClockReads 1 w)
      /\ lastReviewDate (card r) = Some (ISOString (now (afterClockReads 1 w)))
      /\ (incrementIsExact (reviewCount c) ->
          reviewCount (card r) = reviewCount c + 1)
      /\ id (card r) = id c
      /\ question (card r) = question c
      /\ answer (card r) = answer c
      /\ createdAt (card r) = createdAt c)
  /\ (LeitnerLevel (level c) ->
      farFromLimits (now w) ->
      farFromLimits (now (afterClockReads 1 w)) ->
      exists r : ReviewResult,
        reviewCard LocalTZA c confidence w = Ok (r, afterClockReads 2 w)
        /\ nextReviewDate (card r)
           = dueInDays LocalTZA (now w)
               (intervalDays (calculateNewLevel (level c) confidence))).
Proof.
  split.
  - intros r w' Hrun.
    destruct (reviewCard_result_shape _ _ _ _ _ _ Hrun) as [due [Hdue [-> ->]]].
    cbn [card level nextReviewDate lastReviewDate reviewCount id question
         answer createdAt].
    repeat split; try reflexivity. exact Hdue.
  - intros Hl H1 H2. eexists. split.
    + apply reviewCard_returns; eassumption.
    + reflexivity.
Qed.

Lemma sampleWorld_farFromLimits (k : nat) :
  (k <= 11)%nat -> farFromLimits (now (afterClockReads k sampleWorld)).
Proof.
  intros Hk. unfold farFromLimits.
  do 12 (destruct k as [| k]; [vm_compute; discriminate |]). lia.
Qed.

(** A card at level 2 that was never reviewed, known on 1 November 2026 at
    19:30 local time, is at level 3, due at local midnight of 8 November and
    reviewed once. *)
Lemma reviewCard_updates_only_review_fields_witness :
  exists r : ReviewResult,
    reviewCard sampleZone (sampleCard 2) know sampleWorld
    = Ok (r, afterClockReads 2 sampleWorld)
    /\ nextReviewDate (card r) = ISOString 1794092400000
    /\ reviewCount (card r) = 0 + 1.
Proof.
  destruct (reviewCard_updates_only_review_fields
              sampleZone sampleZone_civil (sampleCard 2) know sampleWorld)
    as [Hfields Hreturns].
  destruct Hreturns as [r [Hrun Hdue]].
  - unfold LeitnerLevel. simpl. lia.
  - apply (sampleWorld_farFromLimits 0). lia.
  - apply (sampleWorld_farFromLimits 1). lia.
  - exists r. split; [exact Hrun |]. split; [exact Hdue |].
    destruct (Hfields r _ Hrun) as (_ & _ & _ & _ & Hcount & _).
    apply Hcount. unfold incrementIsExact. simpl. lia.
Defined.

(** C10. For every card and confidence, the [ReviewResult] of [reviewCard]
    agrees with itself: [previousLevel] is the level of the input card,
    [newLevel] the level of the returned card, and [nextReviewDate] the
    [nextReviewDate] of the returned card; and there is such a result for
    every card whose level is a Leitner level. *)
Theorem reviewCard_result_coherent
    (LocalTZA : Z -> bool -> Z) (civil : CivilZone LocalTZA)
    (c : FlashCard) (confidence : ConfidenceScore) (w : World) :
  (forall (r : ReviewResult) (w' : World),
      reviewCard LocalTZA c confidence w = Ok (r, w') ->
      previousLevel r = level c
      /\ newLevel r = level (card r)
      /\ rr_nextReviewDate r = nextReviewDate (card r))
  /\ (LeitnerLevel (level c) ->
      farFromLimits (now w) ->
      farFromLimits (now (afterClockReads 1 w)) ->
      exists r : ReviewResult,
        reviewCard LocalTZA c confidence w = Ok (r, afterClockReads 2 w)).
Proof.
  split.
  - intros r w' Hrun.
    destruct (reviewCard_result_shape _ _ _ _ _ _ Hrun) as [due [_ [_ ->]]].
    repeat split; reflexivity.
  - intros Hl H1 H2. eexists. apply reviewCard_returns; eassumption.
Qed.

Lemma reviewCard_result_coherent_witness :
  exists r : ReviewResult,
    reviewCard sampleZone (sampleCard 5) forgot sampleWorld
    = Ok (r, afterClockReads 2 sampleWorld).
Proof.
  apply (reviewCard_result_coherent
           sampleZone sampleZone_civil (sampleCard 5) forgot sampleWorld).
  - unfold LeitnerLevel. simpl. lia.
  - apply (sampleWorld_farFromLimits 0). lia.
  - apply (sampleWorld_farFromLimits 1). lia.
Defined.

(** ** Creating a card *)

(** C8. For every question and answer, [createNewCard] returns a card with
    level 0, [nextReviewDate] the start of the current day, no
    [lastReviewDate], [reviewCount] 0 and the next UUID of the generator as
    its id, which no earlier card has as long as the generator does not repeat
    itself; and the new card is due at any time of the day of its creation. *)
Theorem createNewCard_fresh_and_due
    (LocalTZA : Z -> bool -> Z) (civil : CivilZone LocalTZA)
    (q a : string) (w : World) :
  farFromLimits (now w) ->
  exists c : FlashCard,
    createNewCard LocalTZA q a w = Ok (c, afterUUID (afterClockReads 1 w))
    /\ question c = q /\ answer c = a
    /\ level c = 0
    /\ nextReviewDate c = ISOString (startOfDay LocalTZA (now w))
    /\ lastReviewDate c = None
    /\ createdAt c = ISOString (now w)
    /\ reviewCount c = 0
    /\ id c = uuidSource w (uuidReads w)
    /\ ((forall i j, uuidSource w i = uuidSource w j -> i = j) ->
        forall k, (k < uuidReads w)%nat -> id c <> uuidSource w k)
    /\ (forall w2 : World,
          farFromLimits (now w2) ->
          localDay LocalTZA (now w2) = localDay LocalTZA (now w) ->
          isCardDue LocalTZA c w2 = Ok (true, afterClockReads 1 w2)).
Proof.
  intros Ht. eexists. split; [apply createNewCard_returns; assumption |].
  simpl. repeat split; try reflexivity.
  - intros Hinj k Hk Heq. apply Hinj in Heq. lia.
  - intros w2 Ht2 Hday.
    rewrite (isCardDue_valid LocalTZA civil _ (startOfDay LocalTZA (now w)) w2).
    + unfold startOfDay. rewrite Hday, Z.leb_refl. reflexivity.
    + simpl. apply startOfDay_valid; assumption.
    + assumption.
Qed.

Lemma sampleUUID_injective (i j : nat) : sampleUUID i = sampleUUID j -> i = j.
Proof.
  unfold sampleUUID. cbn [append]. intros H.
  injection H as H. apply DecimalNat.Unsigned.to_uint_inj.
  apply (f_equal NilEmpty.uint_of_string) in H.
  rewrite !NilEmpty.usu in H. injection H as H. exact H.
Qed.

(** Two cards created one after the other get different identifiers. *)
Example two_new_cards_differ :
  option_map (fun cs => String.eqb (id (fst cs)) (id (snd cs)))
    (returned ((c1 <- createNewCard sampleZone "Q1" "A1" ;;
                c2 <- createNewCard sampleZone "Q2" "A2" ;;
                ret (c1, c2)) sampleWorld))
  = Some false.
Proof. vm_compute. reflexivity. Qed.

Lemma createNewCard_fresh_and_due_witness :
  exists c : FlashCard,
    createNewCard sampleZone "Q" "A" sampleWorld
    = Ok (c, afterUUID (afterClockReads 1 sampleWorld))
    /\ question c = "Q"%string /\ answer c = "A"%string
    /\ level c = 0
    /\ nextReviewDate c = ISOString (startOfDay sampleZone (now sampleWorld))
    /\ lastReviewDate c = None
    /\ createdAt c = ISOString (now sampleWorld)
    /\ reviewCount c = 0
    /\ id c = uuidSource sampleWorld (uuidReads sampleWorld)
    /\ ((forall i j, uuidSource sampleWorld i = uuidSource sampleWorld j -> i = j) ->
        forall k, (k < uuidReads sampleWorld)%nat ->
                  id c <> uuidSource sampleWorld k)
    /\ (forall w2 : World,
          farFromLimits (now w2) ->
          localDay sampleZone (now w2) = localDay sampleZone (now sampleWorld) ->
          isCardDue sampleZone c w2 = Ok (true, afterClockReads 1 w2)).
Proof.
  apply (createNewCard_fresh_and_due sampleZone sampleZone_civil "Q" "A" sampleWorld).
  unfold farFromLimits. vm_compute. discriminate.
Defined.

(** ** The review round trip *)

(** Finds the reading of the clock a side condition is about. *)
Ltac far_from_limits_at H :=
  first [ exact (H 0%nat ltac:(lia)) | exact (H 1%nat ltac:(lia))
        | exact (H 2%nat ltac:(lia)) | exact (H 3%nat ltac:(lia))
        | exact (H 4%nat ltac:(lia)) | exact (H 5%nat ltac:(lia))
        | exact (H 6%nat ltac:(lia)) | exact (H 7%nat ltac:(lia))
        | exact (H 8%nat ltac:(lia)) | exact (H 9%nat ltac:(lia))
        | exact (H 10%nat ltac:(lia)) ].

(** C7. Starting from [createNewCard "Q" "A"] (level 0, due the day it is
    created), four reviews with [know] take the level from 0 to 1, 2, 3 and 4,
    each leaving the card due 1, 3, 7 and 14 days after the day of that
    review, with [reviewCount] reaching 4; a fifth review with [forgot] puts
    the level back to 0, makes the card due at the start of the day of that
    review, and makes [reviewCount] 5.  This holds whenever the reviews take
    place, on or after the due dates in particular. *)
Theorem review_round_trip_scenario
    (LocalTZA : Z -> bool -> Z) (civil : CivilZone LocalTZA) (w : World) :
  (forall k, (k <= 10)%nat -> farFromLimits (now (afterClockReads k w))) ->
  let t := fun k => now (afterClockReads k w) in
  exists (c0 : FlashCard) (r1 r2 r3 r4 r5 : ReviewResult),
    reviewRoundTrip LocalTZA w
    = Ok ((c0, [r1; r2; r3; r4; r5]), afterUUID (afterClockReads 11 w))
    /\ level c0 = 0
    /\ nextReviewDate c0 = ISOString (startOfDay LocalTZA (t 0%nat))
    /\ reviewCount c0 = 0
    /\ map previousLevel [r1; r2; r3; r4; r5] = [0; 1; 2; 3; 4]
    /\ map (fun r => level (card r)) [r1; r2; r3; r4; r5] = [1; 2; 3; 4; 0]
    /\ nextReviewDate (card r1) = dueInDays LocalTZA (t 1%nat) 1
    /\ nextReviewDate (card r2) = dueInDays LocalTZA (t 3%nat) 3
    /\ nextReviewDate (card r3) = dueInDays LocalTZA (t 5%nat) 7
    /\ nextReviewDate (card r4) = dueInDays LocalTZA (t 7%nat) 14
    /\ nextReviewDate (card r5) = ISOString (startOfDay LocalTZA (t 9%nat))
    /\ map (fun r => reviewCount (card r)) [r1; r2; r3; r4; r5] = [1; 2; 3; 4; 5].
Proof.
  intros H t.
  unfold reviewRoundTrip, bind.
  rewrite (createNewCard_returns LocalTZA civil "Q" "A" w (H 0%nat ltac:(lia))).
  do 5 (erewrite reviewCard_returns;
        [ cbv zeta;
          cbn [card level calculateNewLevel Z.min Z.add Z.compare
               Pos.add Pos.compare Pos.compare_cont Pos.succ]
        | exact civil
        | unfold LeitnerLevel; simpl; lia
        | far_from_limits_at H
        | far_from_limits_at H ]).
  unfold ret.
  do 6 eexists. split; [reflexivity |].
  unfold dueInDays, startOfDay. simpl. rewrite !Z.add_0_r.
  repeat split; reflexivity.
Qed.

Lemma review_round_trip_scenario_witness :
  exists (c0 : FlashCard) (r1 r2 r3 r4 r5 : ReviewResult),
    reviewRoundTrip sampleZone sampleWorld
    = Ok ((c0, [r1; r2; r3; r4; r5]), afterUUID (afterClockReads 11 sampleWorld))
    /\ level c0 = 0
    /\ nextReviewDate c0 = ISOString (startOfDay sampleZone (sampleClock 0))
    /\ reviewCount c0 = 0
    /\ map previousLevel [r1; r2; r3; r4; r5] = [0; 1; 2; 3; 4]
    /\ map (fun r => level (card r)) [r1; r2; r3; r4; r5] = [1; 2; 3; 4; 0]
    /\ nextReviewDate (card r1) = dueInDays sampleZone (sampleClock 1) 1
    /\ nextReviewDate (card r2) = dueInDays sampleZone (sampleClock 3) 3
    /\ nextReviewDate (card r3) = dueInDays sampleZone (sampleClock 5) 7
    /\ nextReviewDate (card r4) = dueInDays sampleZone (sampleClock 7) 14
    /\ nextReviewDate (card r5) = ISOString (startOfDay sampleZone (sampleClock 9))
    /\ map (fun r => reviewCount (card r)) [r1; r2; r3; r4; r5] = [1; 2; 3; 4; 5].
Proof.
  apply (review_round_trip_scenario sampleZone sampleZone_civil sampleWorld).
  intros k Hk. apply sampleWorld_farFromLimits. lia.
Defined.

(** ** Operations on decks *)

Lemma afterClockReads_S (n : nat) (w : World) :
  afterClockReads n (afterClockReads 1 w) = afterClockReads (S n) w.
Proof.
  unfold afterClockReads. simpl. f_equal. lia.
Qed.

(** [getDueCards] never throws; it reads the clock once per card and returns
    some of the cards it was given, in their order. *)
Lemma getDueCards_returns (LocalTZA : Z -> bool -> Z) (cards : list FlashCard) :
  forall w : World,
  exists due : list FlashCard,
    getDueCards LocalTZA cards w = Ok (due, afterClockReads (List.length cards) w)
    /\ incl due cards
    /\ (List.length due <= List.length cards)%nat.
Proof.
  unfold getDueCards.
  induction cards as [| c cards IH]; intros w.
  - exists []. repeat split.
    + destruct w; reflexivity.
    + apply incl_nil_l.
    + simpl. lia.
  - destruct (IH (afterClockReads 1 w)) as [due [Hrun [Hincl Hlen]]].
    cbn [filterM]. unfold bind at 1. rewrite isCardDue_returns.
    unfold bind at 1. rewrite Hrun. unfold ret.
    rewrite afterClockReads_S. cbn [List.length].
    eexists. split; [reflexivity |].
    destruct (Date_le _ _); split.
    + apply incl_cons; [left; reflexivity | apply incl_tl; assumption].
    + simpl. lia.
    + apply incl_tl; assumption.
    + simpl. lia.
Qed.

Lemma mapM_resetCard (midnight : Z) (cards : list FlashCard) :
  forall w : World,
    mapM (resetCard (Some midnight)) cards w = Ok (map (resetTo midnight) cards, w).
Proof.
  induction cards as [| c cards IH]; intros w; [reflexivity |].
  cbn [mapM map]. unfold bind at 1. cbn [resetCard toISOString lift bind ret].
  unfold bind at 1. rewrite IH. reflexivity.
Qed.

Lemma resetDeck_returns (LocalTZA : Z -> bool -> Z) (civil : CivilZone LocalTZA)
    (cards : list FlashCard) (w : World) :
  farFromLimits (now w) ->
  resetDeck LocalTZA cards w
  = Ok (map (resetTo (startOfDay LocalTZA (now w))) cards, afterClockReads 1 w).
Proof.
  intros Ht. unfold resetDeck, bind at 1, newDate. fold (now w).
  rewrite (farFromLimits_TimeClip _ Ht), setHours_midnight.
  rewrite (startOfDay_valid LocalTZA civil _ Ht).
  apply mapM_resetCard.
Qed.

(** ** The level invariant *)

(** C6, as the code has it.  The level of a card is always in [0,5]: a new
    card has level 0, a review of a card whose level is in range yields a
    level in range, and a reset deck has level 0 throughout.  A review
    changes the level by the two transition rules only (0 on [forgot],
    min(level + 1, 5) on [know]); the deck reset also changes it, to 0,
    without any review; [getDueCards] returns cards it was given. *)
Theorem level_in_range_changed_by_review_or_reset
    (LocalTZA : Z -> bool -> Z) (civil : CivilZone LocalTZA)
    (c : FlashCard) (cards : list FlashCard) (q a : string)
    (confidence : ConfidenceScore) (w : World) :
  LeitnerLevel (level c) ->
  farFromLimits (now w) ->
  farFromLimits (now (afterClockReads 1 w)) ->
  (exists c0 : FlashCard,
     createNewCard LocalTZA q a w = Ok (c0, afterUUID (afterClockReads 1 w))
     /\ level c0 = 0 /\ LeitnerLevel (level c0))
  /\ (exists r : ReviewResult,
        reviewCard LocalTZA c confidence w = Ok (r, afterClockReads 2 w)
        /\ LeitnerLevel (level (card r))
        /\ level (card r) = match confidence with
                            | forgot => 0
                            | know => Z.min (level c + 1) 5
                            end)
  /\ (exists cards' : list FlashCard,
        resetDeck LocalTZA cards w = Ok (cards', afterClockReads 1 w)
        /\ map level cards' = map (fun _ => 0) cards
        /\ Forall (fun c' => LeitnerLevel (level c')) cards')
  /\ (exists due : list FlashCard,
        getDueCards LocalTZA cards w
        = Ok (due, afterClockReads (List.length cards) w)
        /\ incl due cards).
Proof.
  intros Hl H1 H2. split; [| split; [| split]].
  - eexists. split; [apply createNewCard_returns; assumption |].
    simpl. unfold LeitnerLevel. lia.
  - eexists. split; [apply reviewCard_returns; assumption |].
    cbv zeta. simpl. split.
    + apply calculateNewLevel_in_range. assumption.
    + destruct confidence; reflexivity.
  - eexists. split; [apply resetDeck_returns; assumption |].
    split.
    + rewrite map_map. reflexivity.
    + apply Forall_forall. intros c' Hin. apply in_map_iff in Hin.
      destruct Hin as [x [<- _]]. simpl. unfold LeitnerLevel. lia.
  - destruct (getDueCards_returns LocalTZA cards w) as [due [Hrun [Hincl _]]].
    exists due. split; assumption.
Qed.

Lemma level_in_range_changed_by_review_or_reset_witness :
  (exists c0 : FlashCard,
     createNewCard sampleZone "Q" "A" sampleWorld
     = Ok (c0, afterUUID (afterClockReads 1 sampleWorld))
     /\ level c0 = 0 /\ LeitnerLevel (level c0))
  /\ (exists r : ReviewResult,
        reviewCard sampleZone (sampleCard 5) know sampleWorld
        = Ok (r, afterClockReads 2 sampleWorld)
        /\ LeitnerLevel (level (card r))
        /\ level (card r) = Z.min (5 + 1) 5)
  /\ (exists cards' : list FlashCard,
        resetDeck sampleZone [sampleCard 3; sampleCard 5] sampleWorld
        = Ok (cards', afterClockReads 1 sampleWorld)
        /\ map level cards' = [0; 0]
        /\ Forall (fun c' => LeitnerLevel (level c')) cards')
  /\ (exists due : list FlashCard,
        getDueCards sampleZone [sampleCard 3; sampleCard 5] sampleWorld
        = Ok (due, afterClockReads 2 sampleWorld)
        /\ incl due [sampleCard 3; sampleCard 5]).
Proof.
  apply (level_in_range_changed_by_review_or_reset
           sampleZone sampleZone_civil (sampleCard 5)
           [sampleCard 3; sampleCard 5] "Q" "A" know sampleWorld).
  - unfold LeitnerLevel. simpl. lia.
  - unfold farFromLimits. vm_compute. discriminate.
  - unfold farFromLimits. vm_compute. discriminate.
Defined.

(** C6, as stated, fails: resetting a deck takes a card from level 3 to
    level 0 although nothing was reviewed, so a level does change outside
    the two transition rules. *)
Lemma resetDeck_changes_level_without_review :
  resetDeck sampleZone [sampleCard 3] sampleWorld
  = Ok ([resetTo 1793487600000 (sampleCard 3)], afterClockReads 1 sampleWorld)
  /\ level (sampleCard 3) = 3
  /\ level (resetTo 1793487600000 (sampleCard 3)) = 0
  /\ ~ resetDeck_keeps_levels sampleZone.
Proof.
  assert (Hrun : resetDeck sampleZone [sampleCard 3] sampleWorld
                 = Ok ([resetTo 1793487600000 (sampleCard 3)],
                       afterClockReads 1 sampleWorld))
    by reflexivity.
  repeat split; try reflexivity.
  intros Hkeep. specialize (Hkeep _ _ _ _ Hrun). discriminate Hkeep.
Qed.

(** ** Levels out of range *)

(** C9, as the code has it.  A level outside [0,5] is ruled out by the type
    [LeitnerLevel] and by nothing at run time.  [calculateNewLevel] never
    fails on one: it answers 0 on [forgot] and min(L + 1, 5) on [know], which
    is 5 for every L above 5 and L + 1 for every L below 0 (down to -2^53;
    below that the sum is rounded).
    [calculateNextReviewDate] has no check either: the interval table has no
    entry, the date becomes invalid, and what is thrown is the RangeError of
    [toISOString] on an invalid date. *)
Theorem out_of_range_level_is_not_checked
    (LocalTZA : Z -> bool -> Z) (L : Z) :
  ~ LeitnerLevel L ->
  calculateNewLevel L forgot = 0
  /\ (- 2 ^ 53 <= L -> calculateNewLevel L know = Z.min (L + 1) 5)
  /\ (5 < L -> calculateNewLevel L know = 5)
  /\ (- 2 ^ 53 <= L < 0 -> calculateNewLevel L know = L + 1)
  /\ LEITNER_INTERVALS L = None
  /\ (forall (fromDate : option TimeValue) (w : World),
        calculateNextReviewDate LocalTZA L fromDate w
        = Throw (RangeError "Invalid time value")).
Proof.
  intros HL. cbn [calculateNewLevel]. repeat split; try lia.
  - apply LEITNER_INTERVALS_out_of_range. assumption.
  - intros fromDate w. apply calculateNextReviewDate_bad_level. assumption.
Qed.

Lemma out_of_range_level_is_not_checked_witness :
  calculateNewLevel 7 forgot = 0
  /\ (- 2 ^ 53 <= 7 -> calculateNewLevel 7 know = Z.min (7 + 1) 5)
  /\ (5 < 7 -> calculateNewLevel 7 know = 5)
  /\ (- 2 ^ 53 <= 7 < 0 -> calculateNewLevel 7 know = 7 + 1)
  /\ LEITNER_INTERVALS 7 = None
  /\ (forall (fromDate : option TimeValue) (w : World),
        calculateNextReviewDate sampleZone 7 fromDate w
        = Throw (RangeError "Invalid time value")).
Proof.
  apply (out_of_range_level_is_not_checked sampleZone 7).
  unfold LeitnerLevel. lia.
Defined.

(** C9, as stated, fails: level 7 is out of range, yet [calculateNewLevel]
    returns 5 for it (clamped without a word), for level -3 it returns -2,
    and a review of a card at level 7 goes through and leaves it at 5. *)
Lemma out_of_range_level_is_clamped_not_rejected :
  ~ LeitnerLevel 7
  /\ calculateNewLevel 7 know = 5
  /\ ~ LeitnerLevel (-3)
  /\ calculateNewLevel (-3) know = -2
  /\ option_map (fun r => level (card r))
       (returned (reviewCard sampleZone (sampleCard 7) know sampleWorld))
     = Some 5
  /\ ~ review_rejects_bad_level sampleZone.
Proof.
  assert (H7 : ~ LeitnerLevel 7) by (unfold LeitnerLevel; lia).
  assert (H3 : ~ LeitnerLevel (-3)) by (unfold LeitnerLevel; lia).
  assert (Hrun : option_map (fun r => level (card r))
                   (returned (reviewCard sampleZone (sampleCard 7) know sampleWorld))
                 = Some 5)
    by (vm_compute; reflexivity).
  repeat split; try assumption; try reflexivity.
  intros Hrej.
  destruct (Hrej (sampleCard 7) know sampleWorld H7) as [e He].
  rewrite He in Hrun. discriminate Hrun.
Qed.

(** ** Binary64 rounding *)

Section Binary64Facts.

Import Binary64.
Local Open Scope Q_scope.

Lemma pow2_pos (e : Z) : 0 < 2 ^ e.
Proof. apply Qpower_0_lt. reflexivity. Qed.

Lemma pow2_le (a b : Z) : (a <= b)%Z -> 2 ^ a <= 2 ^ b.
Proof. intros H. apply Qpower_le_compat_l; [assumption | discriminate]. Qed.

Lemma pow2_lt_inv (a b : Z) : 2 ^ a < 2 ^ b -> (a < b)%Z.
Proof. intros H. apply (Qpower_lt_compat_l_inv 2); [assumption | reflexivity]. Qed.

Lemma pow2_sub (a b : Z) : 2 ^ (a - b) == 2 ^ a / 2 ^ b.
Proof. apply Qpower_minus. discriminate. Qed.

Lemma pow2_inject (n : Z) : (0 <= n)%Z -> inject_Z (2 ^ n) == 2 ^ n.
Proof. intros H. apply (Zpower_Qpower 2 n H). Qed.

Lemma Qdiv_le_cross (a b c d : Q) :
  0 < b -> 0 < d -> 0 <= c -> a <= c -> d <= b -> a / b <= c / d.
Proof.
  intros Hb Hd Hc Hac Hdb.
  apply Qle_shift_div_r; [assumption |].
  setoid_replace (c / d * b) with (c * b / d) by (field; lra).
  apply Qle_shift_div_l; [assumption |].
  nra.
Qed.

Lemma Qdiv_lt_cross (a b c d : Q) :
  0 < b -> 0 < d -> 0 < a -> a < c -> d <= b -> a / b < c / d.
Proof.
  intros Hb Hd Ha Hac Hdb.
  apply Qlt_shift_div_r; [assumption |].
  setoid_replace (c / d * b) with (c * b / d) by (field; lra).
  apply Qlt_shift_div_l; [assumption |].
  nra.
Qed.

(** [ilog2] is the floor of the binary logarithm. *)
Lemma ilog2_spec (x : Q) :
  0 < x -> 2 ^ ilog2 x <= x /\ x < 2 ^ (ilog2 x + 1).
Proof.
  intros Hx. unfold ilog2.
  destruct x as [p q]. cbn [Qnum Qden].
  assert (Hp : (0 < p)%Z).
  { unfold Qlt in Hx. simpl in Hx. lia. }
  pose proof (Z.log2_spec p Hp) as [Hp1 Hp2].
  pose proof (Z.log2_spec (Zpos q) (Pos2Z.is_pos q)) as [Hq1 Hq2].
  pose proof (Z.log2_nonneg p) as Hlp.
  pose proof (Z.log2_nonneg (Zpos q)) as Hlq.
  set (lp := Z.log2 p) in *. set (lq := Z.log2 (Zpos q)) in *.
  assert (Ep : p # q == inject_Z p / inject_Z (Zpos q)) by apply Qmake_Qdiv.
  assert (P1 : 2 ^ lp <= inject_Z p).
  { rewrite <- pow2_inject by assumption. rewrite <- Zle_Qle. assumption. }
  assert (P2 : inject_Z p < 2 ^ (lp + 1)).
  { rewrite <- pow2_inject by lia. rewrite <- Zlt_Qlt. unfold Z.succ in Hp2. assumption. }
  assert (Q1 : 2 ^ lq <= inject_Z (Zpos q)).
  { rewrite <- pow2_inject by assumption. rewrite <- Zle_Qle. assumption. }
  assert (Q2 : inject_Z (Zpos q) < 2 ^ (lq + 1)).
  { rewrite <- pow2_inject by lia. rewrite <- Zlt_Qlt. unfold Z.succ in Hq2. assumption. }
  assert (Hq0 : 0 < inject_Z (Zpos q)).
  { change 0 with (inject_Z 0). rewrite <- Zlt_Qlt. lia. }
  assert (Hp0 : 0 < inject_Z p).
  { change 0 with (inject_Z 0). rewrite <- Zlt_Qlt. lia. }
  destruct (Qle_bool (2 ^ (lp - lq)) (p # q)) eqn:E.
  - apply Qle_bool_iff in E. split; [assumption |].
    rewrite Ep.
    replace (lp - lq + 1)%Z with (lp + 1 - lq)%Z by lia.
    rewrite pow2_sub.
    apply Qdiv_lt_cross; try assumption; try apply pow2_pos.
  - assert (E' : p # q < 2 ^ (lp - lq)).
    { apply Qnot_le_lt. intros H. apply Qle_bool_iff in H. congruence. }
    split.
    + rewrite Ep.
      replace (lp - lq - 1)%Z with (lp - (lq + 1))%Z by lia.
      rewrite pow2_sub.
      apply Qdiv_le_cross; try assumption; try apply pow2_pos; lra.
    + replace (lp - lq - 1 + 1)%Z with (lp - lq)%Z by lia. assumption.
Qed.

Lemma nearestEven_error (x : Q) :
  Qabs (inject_Z (nearestEven x) - x) <= 1 # 2.
Proof.
  unfold nearestEven.
  pose proof (Qfloor_le x) as H1. pose proof (Qlt_floor x) as H2.
  rewrite inject_Z_plus in H2. change (inject_Z 1) with 1 in H2.
  set (f := Qfloor x) in *.
  apply Qabs_Qle_condition.
  destruct (Qcompare (x - inject_Z f) (1 # 2)) eqn:E.
  - apply Qeq_alt in E.
    destruct (Z.even f);
      [| rewrite inject_Z_plus; change (inject_Z 1) with 1]; lra.
  - apply Qlt_alt in E. lra.
  - apply Qgt_alt in E. rewrite inject_Z_plus. change (inject_Z 1) with 1. lra.
Qed.

Lemma round_zero (x : Q) : x == 0 -> round x = 0.
Proof.
  intros H. unfold round.
  assert (E : Qeq_bool (Qred x) 0 = true).
  { apply Qeq_bool_iff. rewrite Qred_correct. assumption. }
  rewrite E. reflexivity.
Qed.

(** Equal rationals round to the same number, whatever their fractions. *)
Lemma round_compat (x y : Q) : x == y -> round x = round y.
Proof.
  intros H. unfold round. rewrite (Qred_complete x y H). reflexivity.
Qed.

Lemma round_unfold (x : Q) :
  ~ x == 0 ->
  round x == inject_Z (nearestEven (Qred x / 2 ^ ulpExponent (Qred x)))
             * 2 ^ ulpExponent (Qred x).
Proof.
  intros H. unfold round.
  destruct (Qeq_bool (Qred x) 0) eqn:E.
  - apply Qeq_bool_iff in E. rewrite Qred_correct in E. contradiction.
  - apply Qred_correct.
Qed.

(** The rounding error is at most half a unit in the last place; for a
    positive number below 2^j that is 2^(j-54). *)
Lemma round_error (x : Q) (j : Z) :
  0 < x -> x < 2 ^ j -> (-1021 <= j)%Z ->
  Qabs (round x - x) <= 2 ^ (j - 54).
Proof.
  intros Hx Hj Hmin.
  assert (Hne : ~ x == 0) by lra.
  rewrite (round_unfold x Hne).
  assert (Hr : Qred x == x) by apply Qred_correct.
  set (e := ulpExponent (Qred x)).
  assert (He : (e <= j - 53)%Z).
  { unfold e, ulpExponent.
    assert (Hpos : 0 < Qabs (Qred x)).
    { rewrite Hr. rewrite Qabs_pos; lra. }
    destruct (ilog2_spec _ Hpos) as [Hlo _].
    assert (Hlt : 2 ^ ilog2 (Qabs (Qred x)) < 2 ^ j).
    { eapply Qle_lt_trans; [exact Hlo |]. rewrite Hr, Qabs_pos; lra. }
    apply pow2_lt_inv in Hlt. lia. }
  pose proof (pow2_pos e) as Hpe.
  pose proof (nearestEven_error (Qred x / 2 ^ e)) as Herr.
  set (n := inject_Z (nearestEven (Qred x / 2 ^ e))) in *.
  assert (Hx' : x == (Qred x / 2 ^ e) * 2 ^ e).
  { rewrite Hr. field. lra. }
  assert (Hhalf : Qabs (n * 2 ^ e - x) <= (1 # 2) * 2 ^ e).
  { setoid_replace (n * 2 ^ e - x) with ((n - Qred x / 2 ^ e) * 2 ^ e)
      by (rewrite Hx' at 1; ring).
    rewrite Qabs_Qmult, (Qabs_pos (2 ^ e)) by lra.
    apply Qmult_le_compat_r; lra. }
  eapply Qle_trans; [exact Hhalf |].
  assert (Hstep : (1 # 2) * 2 ^ e == 2 ^ (e - 1)).
  { rewrite pow2_sub. change (2 ^ 1) with 2. field. }
  rewrite Hstep. apply pow2_le. lia.
Qed.

Lemma Qfloor_unique (z : Q) (k : Z) :
  inject_Z k <= z -> z < inject_Z k + 1 -> Qfloor z = k.
Proof.
  intros H1 H2.
  pose proof (Qfloor_le z) as F1. pose proof (Qlt_floor z) as F2.
  rewrite inject_Z_plus in F2. change (inject_Z 1) with 1 in F2.
  assert (A : (Qfloor z < k + 1)%Z).
  { rewrite Zlt_Qlt, inject_Z_plus. change (inject_Z 1) with 1. lra. }
  assert (B : (k < Qfloor z + 1)%Z).
  { rewrite Zlt_Qlt, inject_Z_plus. change (inject_Z 1) with 1. lra. }
  lia.
Qed.

Lemma ties_round_up : forallb tieRoundsUp (map Z.of_nat (seq 1 50)) = true.
Proof. vm_compute. reflexivity. Qed.

Lemma tie_rounds_up (K : Z) :
  (1 <= K <= 50)%Z ->
  Qfloor (mul (round ((2 * K - 1) # 20)) (inject_Z 10) + (1 # 2)) = K.
Proof.
  intros HK. apply Z.eqb_eq. fold (tieRoundsUp K).
  pose proof ties_round_up as H. rewrite forallb_forall in H.
  apply H. apply in_map_iff. exists (Z.to_nat K). split; [lia |].
  apply in_seq. lia.
Qed.

(** [Math.round(sum / n * 10)], computed in binary64, is the mean rounded
    half up to tenths, counted in tenths: the floor of 10 * sum / n + 1/2. *)
Lemma Math_round_of_mean (s n : Z) :
  (1 <= n <= 2 ^ 32)%Z -> (0 <= s <= 5 * n)%Z ->
  Math_round (mul (div (inject_Z s) (inject_Z n)) (inject_Z 10))
  = inject_Z ((20 * s + n) / (2 * n)).
Proof.
  intros Hn Hs. unfold Math_round. f_equal.
  assert (HN : 1 <= inject_Z n <= 4294967296).
  { change 1 with (inject_Z 1). change 4294967296 with (inject_Z (2 ^ 32)).
    rewrite <- !Zle_Qle. lia. }
  assert (HS : 0 <= inject_Z s <= 5 * inject_Z n).
  { change 0 with (inject_Z 0). change 5 with (inject_Z 5).
    rewrite <- inject_Z_mult, <- !Zle_Qle. lia. }
  set (N := inject_Z n) in *. set (S := inject_Z s) in *.
  destruct (Z.eq_dec s 0) as [-> | Hs0].
  - (* a deck of cards all at level 0 *)
    unfold div. rewrite (round_zero (S / N)) by (unfold S; field; lra).
    unfold mul. rewrite (round_zero (0 * inject_Z 10)) by ring.
    rewrite Z.mul_0_r, Z.add_0_l.
    change (Qfloor (0 + (1 # 2))) with 0%Z.
    symmetry. apply Z.div_small. lia.
  - assert (HS1 : 1 <= S).
    { change 1 with (inject_Z 1). unfold S. rewrite <- Zle_Qle. lia. }
    set (K := ((20 * s + n) / (2 * n))%Z).
    set (r := ((20 * s + n) mod (2 * n))%Z).
    assert (Hdiv : (20 * s + n = 2 * n * K + r)%Z)
      by (apply Z.div_mod; lia).
    assert (Hr : (0 <= r < 2 * n)%Z) by (apply Z.mod_pos_bound; lia).
    assert (HK : (0 <= K <= 50)%Z).
    { split.
      - apply Z.div_pos; lia.
      - assert (K < 51)%Z; [| lia].
        apply Z.div_lt_upper_bound; lia. }
    assert (HdivQ : 20 * S + N == 2 * N * inject_Z K + inject_Z r).
    { unfold S, N. change 20 with (inject_Z 20). change 2 with (inject_Z 2).
      rewrite <- !inject_Z_mult, <- !inject_Z_plus. rewrite Hdiv. reflexivity. }
    destruct (Z.eq_dec r 0) as [Hr0 | Hr0].
    + (* the mean is half way between two tenths *)
      rewrite Hr0 in HdivQ.
      assert (Hx : S / N == (2 * K - 1) # 20).
      { rewrite (Qmake_Qdiv (2 * K - 1) 20).
        unfold Zminus. rewrite inject_Z_plus, inject_Z_mult.
        change (inject_Z 2) with 2. change (inject_Z (-1)) with (-1).
        change (inject_Z (Zpos 20)) with 20.
        change (inject_Z 0) with 0 in HdivQ.
        apply Qmult_inj_r with (z := 20 * N); [lra |].
        setoid_replace (S / N * (20 * N)) with (20 * S) by (field; lra).
        setoid_replace ((2 * inject_Z K + -1) / 20 * (20 * N))
          with (2 * N * inject_Z K - N) by field.
        lra. }
      unfold div. rewrite (round_compat _ _ Hx).
      apply tie_rounds_up.
      destruct (Z.eq_dec K 0) as [HK0 | HK0]; [| lia].
      rewrite HK0, Hr0 in Hdiv. lia.
    + (* the mean is at least 1/(2n) away from every half-way point *)
      assert (HR : 1 <= inject_Z r <= 2 * N - 1).
      { unfold N. change 1 with (inject_Z 1). change 2 with (inject_Z 2).
        rewrite <- inject_Z_mult. unfold Qminus.
        change (- inject_Z 1) with (inject_Z (-1)).
        rewrite <- inject_Z_plus, <- !Zle_Qle. lia. }
      set (R := inject_Z r) in *.
      set (x := S / N).
      assert (Hx1 : (1 # 4294967296) <= x).
      { unfold x. apply Qle_shift_div_l; lra. }
      assert (Hx2 : x <= 5).
      { unfold x. apply Qle_shift_div_r; lra. }
      assert (Ha : Qabs (round x - x) <= 1 # 2251799813685248).
      { change (1 # 2251799813685248) with (2 ^ (3 - 54)).
        apply round_error; [lra | | lia].
        change (2 ^ 3) with 8. lra. }
      apply Qabs_Qle_condition in Ha.
      set (a := round x) in *.
      assert (Hy : Qabs (round (a * 10) - a * 10) <= 1 # 281474976710656).
      { change (1 # 281474976710656) with (2 ^ (6 - 54)).
        apply round_error; [lra | | lia].
        change (2 ^ 6) with 64. lra. }
      apply Qabs_Qle_condition in Hy.
      unfold div, mul. fold x. fold a. change (inject_Z 10) with 10.
      set (y := round (a * 10)) in *.
      set (u := R / (2 * N)).
      assert (Hu1 : (1 # 8589934592) <= u).
      { unfold u. apply Qle_shift_div_l; lra. }
      assert (Hu2 : u <= 1 - (1 # 8589934592)).
      { unfold u. apply Qle_shift_div_r; lra. }
      assert (Hmean : 10 * x + (1 # 2) == inject_Z K + u).
      { unfold x, u.
        setoid_replace (10 * (S / N) + (1 # 2)) with ((20 * S + N) / (2 * N))
          by (field; lra).
        rewrite HdivQ. field. lra. }
      apply Qfloor_unique; lra.
Qed.


Lemma Qred_inject_Z (z : Z) : Qred (inject_Z z) = inject_Z z.
Proof.
  unfold Qred, inject_Z.
  pose proof (Z.ggcd_gcd z 1) as Hg.
  pose proof (Z.ggcd_correct_divisors z 1) as Hd.
  destruct (Z.ggcd z 1) as [g [aa bb]]. cbn [fst snd] in *.
  rewrite Z.gcd_1_r in Hg. subst g. destruct Hd as [Ha Hb].
  rewrite Z.mul_1_l in Ha, Hb. rewrite <- Ha, <- Hb. reflexivity.
Qed.

(** Integers below 2^53 are binary64 numbers: rounding leaves them alone. *)
Lemma round_integer (z : Z) :
  (0 <= z < 2 ^ 53)%Z -> round (inject_Z z) = inject_Z z.
Proof.
  intros Hz.
  destruct (Z.eq_dec z 0) as [-> | Hz0]; [reflexivity |].
  assert (Hx : 0 < inject_Z z).
  { change 0 with (inject_Z 0). rewrite <- Zlt_Qlt. lia. }
  unfold round. rewrite Qred_inject_Z.
  destruct (Qeq_bool (inject_Z z) 0) eqn:E.
  { apply Qeq_bool_iff in E. lra. }
  set (e := ulpExponent (inject_Z z)).
  assert (He : (e <= 0)%Z).
  { unfold e, ulpExponent.
    assert (Hpos : 0 < Qabs (inject_Z z)) by (rewrite Qabs_pos; lra).
    destruct (ilog2_spec _ Hpos) as [Hlo _].
    assert (Hlt : 2 ^ ilog2 (Qabs (inject_Z z)) < 2 ^ 53).
    { eapply Qle_lt_trans; [exact Hlo |]. rewrite Qabs_pos by lra.
      rewrite <- (pow2_inject 53) by lia. rewrite <- Zlt_Qlt. lia. }
    apply pow2_lt_inv in Hlt. lia. }
  pose proof (pow2_pos e) as Hpe.
  assert (Hm : inject_Z z / 2 ^ e == inject_Z (z * 2 ^ (- e))).
  { rewrite inject_Z_mult, pow2_inject by lia.
    rewrite Qpower_opp. field. lra. }
  pose proof (nearestEven_error (inject_Z z / 2 ^ e)) as Herr.
  set (k := nearestEven (inject_Z z / 2 ^ e)) in *. clearbody k.
  rewrite Hm in Herr.
  assert (Hk : k = (z * 2 ^ (- e))%Z).
  { apply Qabs_Qle_condition in Herr.
    assert (A : (k < z * 2 ^ (- e) + 1)%Z).
    { rewrite Zlt_Qlt, inject_Z_plus. change (inject_Z 1) with 1. lra. }
    assert (B : (z * 2 ^ (- e) < k + 1)%Z).
    { rewrite Zlt_Qlt, inject_Z_plus. change (inject_Z 1) with 1. lra. }
    lia. }
  transitivity (Qred (inject_Z z)); [| apply Qred_inject_Z].
  apply Qred_complete. rewrite Hk, <- Hm. field. lra.
Qed.

(** So are the negative ones. *)
Lemma round_safe_integer (z : Z) :
  (Z.abs z < 2 ^ 53)%Z -> round (inject_Z z) = inject_Z z.
Proof.
  intros Hz.
  destruct (Z.eq_dec z 0) as [-> | Hz0]; [reflexivity |].
  assert (Hne : ~ inject_Z z == 0).
  { change 0 with (inject_Z 0). rewrite inject_Z_injective. exact Hz0. }
  unfold round. rewrite Qred_inject_Z.
  destruct (Qeq_bool (inject_Z z) 0) eqn:E.
  { apply Qeq_bool_iff in E. contradiction. }
  set (e := ulpExponent (inject_Z z)).
  assert (He : (e <= 0)%Z).
  { unfold e, ulpExponent.
    change (Qabs (inject_Z z)) with (inject_Z (Z.abs z)).
    assert (Hpos : 0 < inject_Z (Z.abs z)).
    { change 0 with (inject_Z 0). rewrite <- Zlt_Qlt. lia. }
    destruct (ilog2_spec _ Hpos) as [Hlo _].
    assert (Hlt : 2 ^ ilog2 (inject_Z (Z.abs z)) < 2 ^ 53).
    { eapply Qle_lt_trans; [exact Hlo |].
      rewrite <- (pow2_inject 53) by lia. rewrite <- Zlt_Qlt. lia. }
    apply pow2_lt_inv in Hlt. lia. }
  pose proof (pow2_pos e) as Hpe.
  assert (Hm : inject_Z z / 2 ^ e == inject_Z (z * 2 ^ (- e))).
  { rewrite inject_Z_mult, pow2_inject by lia.
    rewrite Qpower_opp. field. lra. }
  pose proof (nearestEven_error (inject_Z z / 2 ^ e)) as Herr.
  set (k := nearestEven (inject_Z z / 2 ^ e)) in *. clearbody k.
  rewrite Hm in Herr.
  assert (Hk : k = (z * 2 ^ (- e))%Z).
  { apply Qabs_Qle_condition in Herr.
    assert (A : (k < z * 2 ^ (- e) + 1)%Z).
    { rewrite Zlt_Qlt, inject_Z_plus. change (inject_Z 1) with 1. lra. }
    assert (B : (z * 2 ^ (- e) < k + 1)%Z).
    { rewrite Zlt_Qlt, inject_Z_plus. change (inject_Z 1) with 1. lra. }
    lia. }
  transitivity (Qred (inject_Z z)); [| apply Qred_inject_Z].
  apply Qred_complete. rewrite Hk, <- Hm. field. lra.
Qed.

(** What [incrementIsExact] says: from -2^53 up to 2^53 - 1 the binary64 sum
    [n + 1] is the integer n + 1. *)
Lemma increment_is_exact (n : Z) :
  incrementIsExact n -> add (inject_Z n) (inject_Z 1) = inject_Z (n + 1).
Proof.
  unfold incrementIsExact. intros Hn. unfold add.
  rewrite (round_compat _ (inject_Z (n + 1)))
    by (rewrite inject_Z_plus; reflexivity).
  destruct (Z.eq_dec (n + 1) (2 ^ 53)) as [E | E].
  - rewrite E. vm_compute. reflexivity.
  - apply round_safe_integer. lia.
Qed.

(** And where it ends: at 2^53 the sum is 2^53 again, and below -2^53 it is
    not the next integer either. *)
Lemma increment_stalls_at_2_53 :
  add (inject_Z (2 ^ 53)) (inject_Z 1) = inject_Z (2 ^ 53).
Proof. vm_compute. reflexivity. Qed.

Lemma increment_is_rounded_below_minus_2_53 :
  add (inject_Z (- (2 ^ 53 + 2))) (inject_Z 1) = inject_Z (- 2 ^ 53).
Proof. vm_compute. reflexivity. Qed.

Lemma sumLevels_bounds (levels : list Z) :
  Forall LeitnerLevel levels ->
  (0 <= sumLevels levels <= 5 * Z.of_nat (List.length levels))%Z.
Proof.
  induction 1 as [| l levels Hl _ IH]; [simpl; lia |].
  unfold LeitnerLevel in Hl. cbn [sumLevels fold_right List.length].
  fold (sumLevels levels). lia.
Qed.

(** The running sum of [reduce] is exact. *)
Lemma reduce_sum_exact (cards : list FlashCard) :
  Forall (fun c => LeitnerLevel (level c)) cards ->
  forall acc : Z,
    (0 <= acc)%Z ->
    (acc + sumLevels (map level cards) < 2 ^ 53)%Z ->
    fold_left (fun sum c => add sum (inject_Z (level c))) cards (inject_Z acc)
    = inject_Z (acc + sumLevels (map level cards)).
Proof.
  induction 1 as [| c cards Hc Hall IH]; intros acc Hacc Hlt.
  - simpl. f_equal. lia.
  - cbn [fold_left map sumLevels fold_right] in *.
    fold (sumLevels (map level cards)) in *.
    unfold LeitnerLevel in Hc.
    assert (Hs : (0 <= sumLevels (map level cards))%Z).
    { apply sumLevels_bounds. apply Forall_map. 
      eapply Forall_impl; [| exact Hall]. intros a Ha; exact Ha. }
    unfold add at 2.
    rewrite (round_compat _ (inject_Z (acc + level c)))
      by (rewrite inject_Z_plus; reflexivity).
    rewrite round_integer by lia.
    rewrite IH by lia. f_equal. lia.
Qed.

End Binary64Facts.

(** [Binary64] against the machine, on the numbers of all decks of up to
    24 cards. *)
Lemma Binary64_agrees_with_hardware : Hardware.agreesWithBinary64 24 = true.
Proof. vm_compute. reflexivity. Qed.

(** ** Deck statistics *)

(** [meanInTenths] is the mean rounded half up: with k tenths,
    k - 1/2 <= 10 * sum / n < k + 1/2. *)
Lemma meanInTenths_spec (levels : list Z) :
  levels <> [] ->
  let n := Z.of_nat (List.length levels) in
  let k := meanInTenths levels in
  n * (2 * k - 1) <= 20 * sumLevels levels < n * (2 * k + 1).
Proof.
  intros Hne n k.
  assert (Hn : 0 < 2 * n).
  { unfold n. destruct levels; [contradiction | simpl; lia]. }
  pose proof (Z.mul_div_le (20 * sumLevels levels + n) (2 * n) Hn) as H1.
  pose proof (Z.mul_succ_div_gt (20 * sumLevels levels + n) (2 * n) Hn) as H2.
  fold n in H1, H2. unfold k, meanInTenths. fold n.
  set (q := (20 * sumLevels levels + n) / (2 * n)) in *.
  unfold Z.succ in H2. lia.
Qed.

Lemma filter_level_count (cards : list FlashCard) (l : Z) :
  List.length (filter (fun c => level c =? l) cards)
  = count_occ Z.eq_dec (map level cards) l.
Proof.
  induction cards as [| c cards IH]; [reflexivity |].
  cbn [filter map count_occ].
  destruct (Z.eq_dec (level c) l) as [E | E].
  - rewrite (proj2 (Z.eqb_eq _ _) E). cbn [List.length]. rewrite IH. reflexivity.
  - rewrite (proj2 (Z.eqb_neq _ _) E). exact IH.
Qed.

(** The [averageLevel] that [calculateDeckStats] reports for a deck that is
    not empty. *)
Lemma averageLevel_of_deck (cards : list FlashCard) :
  Forall (fun c => LeitnerLevel (level c)) cards ->
  cards <> [] ->
  Z.of_nat (List.length cards) < 2 ^ 32 ->
  Binary64.div
    (Binary64.Math_round
       (Binary64.mul
          (Binary64.div
             (fold_left (fun sum c => Binary64.add sum (inject_Z (level c)))
                        cards 0%Q)
             (inject_Z (Z.of_nat (List.length cards))))
          (inject_Z 10)))
    (inject_Z 10)
  = tenths (meanInTenths (map level cards)).
Proof.
  intros Hall Hne Hlen.
  assert (Hn : 1 <= Z.of_nat (List.length cards)).
  { destruct cards; [contradiction | simpl; lia]. }
  assert (Hsum : 0 <= sumLevels (map level cards)
                 <= 5 * Z.of_nat (List.length cards)).
  { rewrite <- (length_map level cards). apply sumLevels_bounds.
    apply Forall_map. exact Hall. }
  change 0%Q with (inject_Z 0).
  rewrite (reduce_sum_exact cards Hall 0) by lia.
  rewrite Z.add_0_l, Math_round_of_mean by lia.
  unfold tenths, meanInTenths, Binary64.div. rewrite length_map. reflexivity.
Qed.

(** C5. For every list of cards, [calculateDeckStats] returns the number of
    cards, the number of cards that [getDueCards] returns, the number of
    cards at level 5, and as [averageLevel] 0 for the empty list and
    otherwise the mean of the levels rounded half up to one decimal place
    (for the decks there are: levels in [0,5], and fewer than 2^32 cards, as
    in any array); the empty deck gives 0, 0, 0 and 0, levels 1 and 2 give
    1.5, levels 1, 1 and 2 give 1.3. *)
Theorem calculateDeckStats_counts_and_rounded_average
    (LocalTZA : Z -> bool -> Z) (cards : list FlashCard) (w : World) :
  exists (due : list FlashCard) (stats : DeckStats) (w' : World),
    getDueCards LocalTZA cards w = Ok (due, w')
    /\ calculateDeckStats LocalTZA cards w = Ok (stats, w')
    /\ totalCards stats = Z.of_nat (List.length cards)
    /\ cardsToReview stats = Z.of_nat (List.length due)
    /\ masteredCards stats = Z.of_nat (count_occ Z.eq_dec (map level cards) 5)
    /\ (cards = [] -> stats = mkDeckStats 0 0 0 0)
    /\ (Forall (fun c => LeitnerLevel (level c)) cards ->
        Z.of_nat (List.length cards) < 2 ^ 32 ->
        cards <> [] ->
        averageLevel stats = tenths (meanInTenths (map level cards)))
    /\ (map level cards = [1; 2] -> averageLevel stats = (3 # 2)%Q)
    /\ (map level cards = [1; 1; 2] ->
        averageLevel stats = Binary64.round (13 # 10)).
Proof.
  destruct (getDueCards_returns LocalTZA cards w) as [due [Hrun [_ _]]].
  assert (Havg : Forall (fun c => LeitnerLevel (level c)) cards ->
                 Z.of_nat (List.length cards) < 2 ^ 32 ->
                 cards <> [] ->
                 averageLevel
                   (mkDeckStats (Z.of_nat (List.length cards))
                      (Z.of_nat (List.length due))
                      (Z.of_nat (List.length (filter (fun c => level c =? 5) cards)))
                      (Binary64.div
                         (Binary64.Math_round
                            (Binary64.mul
                               (if 0 <? Z.of_nat (List.length cards)
                                then Binary64.div
                                       (fold_left
                                          (fun sum c =>
                                             Binary64.add sum (inject_Z (level c)))
                                          cards 0%Q)
                                       (inject_Z (Z.of_nat (List.length cards)))
                                else 0%Q)
                               (inject_Z 10)))
                         (inject_Z 10)))
                 = tenths (meanInTenths (map level cards))).
  { intros Hall Hlen Hne. cbn [averageLevel].
    assert (Hpos : (0 <? Z.of_nat (List.length cards)) = true).
    { apply Z.ltb_lt. destruct cards; [contradiction | simpl; lia]. }
    rewrite Hpos. apply averageLevel_of_deck; assumption. }
  assert (Hdeck : forall levels : list Z,
             map level cards = levels ->
             Forall LeitnerLevel levels ->
             Forall (fun c => LeitnerLevel (level c)) cards).
  { intros levels <- H. exact (proj1 (Forall_map _ _ _) H). }
  eexists due, _, _. split; [exact Hrun |]. split.
  { unfold calculateDeckStats, bind. rewrite Hrun. unfold ret. reflexivity. }
  split; [reflexivity |]. split; [reflexivity |]. split.
  { cbn [masteredCards]. rewrite filter_level_count. reflexivity. }
  split.
  { intros ->. simpl in Hrun. injection Hrun as <- _. reflexivity. }
  split; [exact Havg |]. split.
  - intros Hlv. rewrite Havg.
    + rewrite Hlv. vm_compute. reflexivity.
    + apply (Hdeck _ Hlv). repeat constructor; unfold LeitnerLevel; lia.
    + rewrite <- (length_map level), Hlv. simpl. lia.
    + intros ->. discriminate Hlv.
  - intros Hlv. rewrite Havg.
    + rewrite Hlv. vm_compute. reflexivity.
    + apply (Hdeck _ Hlv). repeat constructor; unfold LeitnerLevel; lia.
    + rewrite <- (length_map level), Hlv. simpl. lia.
    + intros ->. discriminate Hlv.
Qed.

(** The statistics of a deck of three cards at levels 1, 1 and 2, none of
    them due before the day the sample clock starts on. *)
Example deck_of_three :
  returned (calculateDeckStats sampleZone
              [sampleCard 1; sampleCard 1; sampleCard 2] sampleWorld)
  = Some (mkDeckStats 3 3 0 (5854679515581645 # 4503599627370496)).
Proof. vm_compute. reflexivity. Qed.

(** * Further properties of the engine *)

(** ** Which cards are due *)

Lemma afterClockReads_add (a b : nat) (w : World) :
  afterClockReads a (afterClockReads b w) = afterClockReads (a + b) w.
Proof. unfold afterClockReads. simpl. f_equal. lia. Qed.

Lemma isCardDue_on_day (LocalTZA : Z -> bool -> Z) (civil : CivilZone LocalTZA)
    (c : FlashCard) (w : World) :
  farFromLimits (now w) ->
  isCardDue LocalTZA c w
  = Ok (dueOnDay LocalTZA (localDay LocalTZA (now w)) c, afterClockReads 1 w).
Proof.
  intros Ht. rewrite isCardDue_returns.
  rewrite (farFromLimits_TimeClip _ Ht), setHours_midnight.
  rewrite (startOfDay_valid LocalTZA civil _ Ht). reflexivity.
Qed.

Lemma getDueCards_same_day (LocalTZA : Z -> bool -> Z) (civil : CivilZone LocalTZA)
    (d : Z) (cards : list FlashCard) :
  forall w : World,
    (forall k, (k < List.length cards)%nat ->
               farFromLimits (now (afterClockReads k w))
               /\ localDay LocalTZA (now (afterClockReads k w)) = d) ->
    getDueCards LocalTZA cards w
    = Ok (filter (dueOnDay LocalTZA d) cards,
          afterClockReads (List.length cards) w).
Proof.
  unfold getDueCards.
  induction cards as [| c cards IH]; intros w H.
  - destruct w; reflexivity.
  - cbn [filterM filter List.length]. unfold bind at 1.
    destruct (H 0%nat ltac:(simpl; lia)) as [H0 D0].
    change (now (afterClockReads 0 w)) with (now w) in H0, D0.
    rewrite (isCardDue_on_day LocalTZA civil c w H0), D0.
    unfold bind at 1. rewrite (IH (afterClockReads 1 w)).
    + unfold ret. rewrite afterClockReads_S. reflexivity.
    + intros k Hk. rewrite afterClockReads_S. apply H. simpl. lia.
Qed.

(** X1. Checked in the course of one calendar day, [getDueCards] returns
    exactly the cards of the deck that are due that day, in the order they
    have in the deck. *)
Theorem getDueCards_filters_the_deck_in_order
    (LocalTZA : Z -> bool -> Z) (civil : CivilZone LocalTZA)
    (d : Z) (cards : list FlashCard) (w : World) :
  (forall k, (k < List.length cards)%nat ->
             farFromLimits (now (afterClockReads k w))
             /\ localDay LocalTZA (now (afterClockReads k w)) = d) ->
  getDueCards LocalTZA cards w
  = Ok (filter (dueOnDay LocalTZA d) cards,
        afterClockReads (List.length cards) w).
Proof. apply getDueCards_same_day. exact civil. Qed.

Lemma sampleWorld_first_day (k : nat) :
  (k < 3)%nat ->
  farFromLimits (now (afterClockReads k sampleWorld))
  /\ localDay sampleZone (now (afterClockReads k sampleWorld)) = 20758.
Proof.
  intros Hk. unfold farFromLimits.
  do 3 (destruct k as [| k]; [split; vm_compute; (discriminate || reflexivity) |]).
  lia.
Qed.

(** A deck of a card due today, a card due next week and another due today:
    the first and the third are returned, in that order. *)
Lemma getDueCards_filters_the_deck_in_order_witness :
  getDueCards sampleZone
    [sampleCard 1;
     mkFlashCard "b" "later" "card" 3 (ISOString 1794092400000) None
                 (ISOString 1793534400000) 2;
     sampleCard 2]
    sampleWorld
  = Ok ([sampleCard 1; sampleCard 2], afterClockReads 3 sampleWorld).
Proof.
  apply (getDueCards_filters_the_deck_in_order sampleZone sampleZone_civil 20758
           [sampleCard 1;
            mkFlashCard "b" "later" "card" 3 (ISOString 1794092400000) None
                        (ISOString 1793534400000) 2;
            sampleCard 2]
           sampleWorld).
  intros k Hk. apply sampleWorld_first_day. exact Hk.
Defined.

Lemma getDueCards_only_dated_cards (LocalTZA : Z -> bool -> Z)
    (cards : list FlashCard) :
  forall (w w' : World) (due : list FlashCard),
    getDueCards LocalTZA cards w = Ok (due, w') ->
    forall c, In c due -> Date_parse (nextReviewDate c) <> None.
Proof.
  unfold getDueCards.
  induction cards as [| c0 cards IH]; intros w w' due Hrun c Hin.
  - cbn in Hrun. injection Hrun as <- _. contradiction.
  - cbn [filterM] in Hrun. unfold bind at 1 in Hrun.
    rewrite isCardDue_returns in Hrun. unfold bind at 1 in Hrun.
    destruct (filterM (isCardDue LocalTZA) cards (afterClockReads 1 w))
      as [[ys w1] | e] eqn:Htail; [| discriminate].
    unfold ret in Hrun. injection Hrun as <- _.
    destruct (Date_le (Date_parse (nextReviewDate c0)) _) eqn:Hle.
    + destruct Hin as [<- | Hin].
      * intros Hnone. rewrite Hnone in Hle. discriminate.
      * eapply IH; eassumption.
    + eapply IH; eassumption.
Qed.

(** X2. A card whose [nextReviewDate] is not a date is never due, at any
    time, and [getDueCards] never returns it: the card drops out of every
    review without any error. *)
Theorem card_with_corrupt_date_is_never_due
    (LocalTZA : Z -> bool -> Z) (c : FlashCard) :
  Date_parse (nextReviewDate c) = None ->
  (forall w : World, isCardDue LocalTZA c w = Ok (false, afterClockReads 1 w))
  /\ (forall (cards due : list FlashCard) (w w' : World),
         getDueCards LocalTZA cards w = Ok (due, w') -> ~ In c due).
Proof.
  intros Hnone. split.
  - intros w. rewrite isCardDue_returns, Hnone. reflexivity.
  - intros cards due w w' Hrun Hin.
    exact (getDueCards_only_dated_cards _ _ _ _ _ Hrun c Hin Hnone).
Qed.

Lemma card_with_corrupt_date_is_never_due_witness :
  (forall w : World,
      isCardDue sampleZone
        (mkFlashCard "x" "q" "a" 0 NotADate None (ISOString 0) 0) w
      = Ok (false, afterClockReads 1 w))
  /\ (forall (cards due : list FlashCard) (w w' : World),
         getDueCards sampleZone cards w = Ok (due, w') ->
         ~ In (mkFlashCard "x" "q" "a" 0 NotADate None (ISOString 0) 0) due).
Proof.
  apply (card_with_corrupt_date_is_never_due sampleZone
           (mkFlashCard "x" "q" "a" 0 NotADate None (ISOString 0) 0)).
  reflexivity.
Defined.

(** ** When a reviewed card comes back *)

Lemma fixedZone_days_advance (offset : Z) : DaysAdvance (fixedZone offset).
Proof.
  intros t1 t2 H. unfold localDay, LocalTime, fixedZone, Day.
  apply Z.div_le_mono; [unfold msPerDay; lia | lia].
Qed.

Lemma summerTimeZone_days_advance : DaysAdvance summerTimeZone.
Proof.
  intros t1 t2 H. unfold localDay, LocalTime, summerTimeZone, Day.
  apply Z.div_le_mono; [unfold msPerDay; lia |].
  unfold msPerHour.
  destruct (t1 <? springForward) eqn:E1; destruct (t2 <? springForward) eqn:E2;
    rewrite ?Z.ltb_lt, ?Z.ltb_ge in *; lia.
Qed.

(** Local midnights come in the order of their days. *)
Lemma localMidnight_le_iff (LocalTZA : Z -> bool -> Z)
    (civil : CivilZone LocalTZA) (adv : DaysAdvance LocalTZA) (d1 d2 : Z) :
  localMidnight LocalTZA d1 <= localMidnight LocalTZA d2 <-> d1 <= d2.
Proof.
  split.
  - intros H. apply adv in H.
    rewrite !(localDay_localMidnight LocalTZA civil) in H. exact H.
  - intros H.
    destruct (Z_le_gt_dec (localMidnight LocalTZA d1) (localMidnight LocalTZA d2))
      as [Hle | Hgt]; [exact Hle |].
    assert (Hrev : localMidnight LocalTZA d2 <= localMidnight LocalTZA d1) by lia.
    apply adv in Hrev.
    rewrite !(localDay_localMidnight LocalTZA civil) in Hrev.
    assert (d1 = d2) by lia. subst. lia.
Qed.

Lemma intervalDays_after_know (l : Z) :
  LeitnerLevel l -> 1 <= intervalDays (calculateNewLevel l know).
Proof.
  unfold LeitnerLevel. intros H.
  assert (Hc : l = 0 \/ l = 1 \/ l = 2 \/ l = 3 \/ l = 4 \/ l = 5) by lia.
  destruct Hc as [-> | [-> | [-> | [-> | [-> | ->]]]]]; vm_compute; discriminate.
Qed.

(** X3. A reviewed card is due again exactly from the calendar day that lies
    the interval of its new level after the day of the review: at once (the
    same day) after [forgot], and not on the day of the review after
    [know]. *)
Theorem reviewed_card_is_due_from_its_due_day
    (LocalTZA : Z -> bool -> Z) (civil : CivilZone LocalTZA)
    (adv : DaysAdvance LocalTZA)
    (c : FlashCard) (confidence : ConfidenceScore) (w w2 : World) :
  LeitnerLevel (level c) ->
  farFromLimits (now w) ->
  farFromLimits (now (afterClockReads 1 w)) ->
  farFromLimits (now w2) ->
  exists r : ReviewResult,
    reviewCard LocalTZA c confidence w = Ok (r, afterClockReads 2 w)
    /\ isCardDue LocalTZA (card r) w2
       = Ok (localDay LocalTZA (now w) + intervalDays (level (card r))
             <=? localDay LocalTZA (now w2),
             afterClockReads 1 w2)
    /\ (confidence = forgot ->
        localDay LocalTZA (now w) <= localDay LocalTZA (now w2) ->
        isCardDue LocalTZA (card r) w2 = Ok (true, afterClockReads 1 w2))
    /\ (confidence = know ->
        localDay LocalTZA (now w2) <= localDay LocalTZA (now w) ->
        isCardDue LocalTZA (card r) w2 = Ok (false, afterClockReads 1 w2)).
Proof.
  intros Hl H1 H2 H3.
  pose proof (calculateNewLevel_in_range _ confidence Hl) as Hl'.
  destruct (LEITNER_INTERVALS_in_range _ Hl') as [_ Hn].
  set (n := intervalDays (calculateNewLevel (level c) confidence)) in *.
  assert (Hdue : forall c' : FlashCard,
             nextReviewDate c'
             = ISOString (localMidnight LocalTZA (localDay LocalTZA (now w) + n)) ->
             isCardDue LocalTZA c' w2
             = Ok (localDay LocalTZA (now w) + n <=? localDay LocalTZA (now w2),
                   afterClockReads 1 w2)).
  { intros r Hr.
    rewrite (isCardDue_valid LocalTZA civil r
               (localMidnight LocalTZA (localDay LocalTZA (now w) + n)) w2).
    - f_equal. f_equal. unfold startOfDay.
      apply eq_true_iff_eq. rewrite !Z.leb_le.
      apply localMidnight_le_iff; assumption.
    - rewrite Hr. cbn [Date_parse].
      apply localMidnight_valid; assumption.
    - exact H3. }
  eexists. split; [apply reviewCard_returns; eassumption |].
  cbv zeta. cbn [card level nextReviewDate]. fold n.
  split; [apply Hdue; reflexivity |]. split.
  - intros -> Hday. rewrite Hdue by reflexivity.
    replace (localDay LocalTZA (now w) + n <=? localDay LocalTZA (now w2))
      with true; [reflexivity |].
    symmetry. apply Z.leb_le. subst n. cbn. lia.
  - intros -> Hday. rewrite Hdue by reflexivity.
    replace (localDay LocalTZA (now w) + n <=? localDay LocalTZA (now w2))
      with false; [reflexivity |].
    symmetry. apply Z.leb_gt.
    pose proof (intervalDays_after_know _ Hl) as Hk. fold n in Hk. lia.
Qed.

Lemma reviewed_card_is_due_from_its_due_day_witness :
  exists r : ReviewResult,
    reviewCard sampleZone (sampleCard 1) know sampleWorld
    = Ok (r, afterClockReads 2 sampleWorld)
    /\ isCardDue sampleZone (card r) (afterClockReads 5 sampleWorld)
       = Ok (localDay sampleZone (now sampleWorld) + intervalDays (level (card r))
             <=? localDay sampleZone (now (afterClockReads 5 sampleWorld)),
             afterClockReads 1 (afterClockReads 5 sampleWorld))
    /\ (know = forgot ->
        localDay sampleZone (now sampleWorld)
        <= localDay sampleZone (now (afterClockReads 5 sampleWorld)) ->
        isCardDue sampleZone (card r) (afterClockReads 5 sampleWorld)
        = Ok (true, afterClockReads 1 (afterClockReads 5 sampleWorld)))
    /\ (know = know ->
        localDay sampleZone (now (afterClockReads 5 sampleWorld))
        <= localDay sampleZone (now sampleWorld) ->
        isCardDue sampleZone (card r) (afterClockReads 5 sampleWorld)
        = Ok (false, afterClockReads 1 (afterClockReads 5 sampleWorld))).
Proof.
  apply (reviewed_card_is_due_from_its_due_day
           sampleZone sampleZone_civil (fixedZone_days_advance 3600000)
           (sampleCard 1) know sampleWorld (afterClockReads 5 sampleWorld)).
  - unfold LeitnerLevel. simpl. lia.
  - apply (sampleWorld_farFromLimits 0). lia.
  - apply (sampleWorld_farFromLimits 1). lia.
  - apply (sampleWorld_farFromLimits 5). lia.
Defined.

(** ** Reviews in a row *)

Lemma reviewRepeatedly_know (LocalTZA : Z -> bool -> Z) (civil : CivilZone LocalTZA)
    (n : nat) :
  forall (c : FlashCard) (w : World),
    LeitnerLevel (level c) ->
    (forall k, (k < 2 * n)%nat -> farFromLimits (now (afterClockReads k w))) ->
    exists c' : FlashCard,
      reviewRepeatedly LocalTZA n know c w = Ok (c', afterClockReads (2 * n) w)
      /\ level c' = Z.min (level c + Z.of_nat n) 5
      /\ reviewCount c' = reviewCount c + Z.of_nat n
      /\ id c' = id c /\ question c' = question c
      /\ answer c' = answer c /\ createdAt c' = createdAt c.
Proof.
  induction n as [| n IH]; intros c w Hl H.
  - exists c. cbn [reviewRepeatedly]. unfold ret.
    replace (afterClockReads (2 * 0) w) with w by (destruct w; reflexivity).
    unfold LeitnerLevel in Hl. repeat split; try reflexivity; try lia.
  - cbn [reviewRepeatedly]. unfold bind.
    rewrite (reviewCard_returns LocalTZA civil c know w Hl
               (H 0%nat ltac:(lia)) (H 1%nat ltac:(lia))).
    cbv zeta. cbn [card].
    set (c1 := mkFlashCard _ _ _ _ _ _ _ _).
    assert (Hl1 : LeitnerLevel (level c1))
      by (apply (calculateNewLevel_in_range (level c) know Hl)).
    destruct (IH c1 (afterClockReads 2 w) Hl1) as [c' [Hrun Hc']].
    { intros k Hk. rewrite afterClockReads_add. apply H. lia. }
    exists c'. split.
    + rewrite Hrun, afterClockReads_add.
      replace (2 * n + 2)%nat with (2 * S n)%nat by lia. reflexivity.
    + destruct Hc' as [E1 [E2 [E3 [E4 [E5 E6]]]]].
      unfold LeitnerLevel in Hl.
      rewrite E1, E2, E3, E4, E5, E6. subst c1.
      cbn [level reviewCount id question answer createdAt calculateNewLevel].
      repeat split; try reflexivity; lia.
Qed.

(** X4. [n] reviews in a row that all answer [know] take a card from level L
    to level min(L + n, 5) and add [n] to its [reviewCount] (as long as the
    count stays within 2^53, where every addition of 1 is exact), leaving
    its id, question, answer and creation date alone; five such reviews
    master any card, and further ones keep it mastered. *)
Theorem repeated_know_reviews_reach_mastery
    (LocalTZA : Z -> bool -> Z) (civil : CivilZone LocalTZA)
    (n : nat) (c : FlashCard) (w : World) :
  LeitnerLevel (level c) ->
  (forall k, (k < 2 * n)%nat -> farFromLimits (now (afterClockReads k w))) ->
  exists c' : FlashCard,
    reviewRepeatedly LocalTZA n know c w = Ok (c', afterClockReads (2 * n) w)
    /\ level c' = Z.min (level c + Z.of_nat n) 5
    /\ ((5 <= n)%nat -> level c' = 5)
    /\ (- 2 ^ 53 <= reviewCount c ->
        reviewCount c + Z.of_nat n <= 2 ^ 53 ->
        reviewCount c' = reviewCount c + Z.of_nat n)
    /\ id c' = id c /\ question c' = question c
    /\ answer c' = answer c /\ createdAt c' = createdAt c.
Proof.
  intros Hl H.
  destruct (reviewRepeatedly_know LocalTZA civil n c w Hl H)
    as [c' [Hrun [E1 [E2 Hrest]]]].
  exists c'. split; [exact Hrun |]. split; [exact E1 |].
  split; [| split; [intros _ _; exact E2 | exact Hrest]].
  intros Hn. rewrite E1. unfold LeitnerLevel in Hl. lia.
Qed.

Lemma repeated_know_reviews_reach_mastery_witness :
  exists c' : FlashCard,
    reviewRepeatedly sampleZone 5 know (sampleCard 0) sampleWorld
    = Ok (c', afterClockReads 10 sampleWorld)
    /\ level c' = Z.min (0 + 5) 5
    /\ ((5 <= 5)%nat -> level c' = 5)
    /\ reviewCount c' = 0 + 5
    /\ id c' = id (sampleCard 0) /\ question c' = question (sampleCard 0)
    /\ answer c' = answer (sampleCard 0) /\ createdAt c' = createdAt (sampleCard 0).
Proof.
  destruct (repeated_know_reviews_reach_mastery
              sampleZone sampleZone_civil 5 (sampleCard 0) sampleWorld)
    as (c' & Hrun & Hlevel & Hmastered & Hcount & Hrest).
  - unfold LeitnerLevel. simpl. lia.
  - intros k Hk. apply sampleWorld_farFromLimits. lia.
  - exists c'. split; [exact Hrun |]. split; [exact Hlevel |].
    split; [exact Hmastered |]. split; [| exact Hrest].
    apply Hcount; simpl; lia.
Defined.

(** ** When the next review date cannot be computed *)

(** X5. [calculateNextReviewDate] returns a date exactly when the level is
    one of the six of the table and the date it starts from is a valid one;
    in every other case it ends in the RangeError of [toISOString]. *)
Theorem calculateNextReviewDate_returns_iff_level_and_date_valid
    (LocalTZA : Z -> bool -> Z) (civil : CivilZone LocalTZA)
    (L : Z) (D : TimeValue) (w : World) :
  (forall t, D = Some t -> farFromLimits t) ->
  (LeitnerLevel L /\ D <> None ->
   exists s : DateString,
     calculateNextReviewDate LocalTZA L (Some D) w = Ok (s, w))
  /\ (~ (LeitnerLevel L /\ D <> None) ->
      calculateNextReviewDate LocalTZA L (Some D) w
      = Throw (RangeError "Invalid time value")).
Proof.
  intros Hfar. split.
  - intros [HL HD]. destruct D as [t |]; [| contradiction].
    eexists. apply calculateNextReviewDate_from; [exact civil | exact HL |].
    apply Hfar. reflexivity.
  - intros Hnot. destruct D as [t |].
    + apply calculateNextReviewDate_bad_level. intros HL.
      apply Hnot. split; [exact HL | discriminate].
    + unfold calculateNextReviewDate, bind, ret. cbn.
      destruct (LEITNER_INTERVALS L); reflexivity.
Qed.

Lemma calculateNextReviewDate_returns_iff_level_and_date_valid_witness :
  (LeitnerLevel 2 /\ Some 1709208000000 <> None ->
   exists s : DateString,
     calculateNextReviewDate sampleZone 2 (Some (Some 1709208000000)) sampleWorld
     = Ok (s, sampleWorld))
  /\ (~ (LeitnerLevel 2 /\ Some 1709208000000 <> None) ->
      calculateNextReviewDate sampleZone 2 (Some (Some 1709208000000)) sampleWorld
      = Throw (RangeError "Invalid time value")).
Proof.
  apply (calculateNextReviewDate_returns_iff_level_and_date_valid
           sampleZone sampleZone_civil 2 (Some 1709208000000) sampleWorld).
  intros t Ht. injection Ht as <-.
  unfold farFromLimits. vm_compute. discriminate.
Defined.

(** ** Bounds of the statistics *)

Lemma tenths_in_range_table : forallb tenthsInRange (map Z.of_nat (seq 0 51)) = true.
Proof. vm_compute. reflexivity. Qed.

Lemma tenths_in_range (k : Z) : 0 <= k <= 50 -> (0 <= tenths k <= 5)%Q.
Proof.
  intros Hk. pose proof tenths_in_range_table as H.
  rewrite forallb_forall in H.
  assert (Hin : In k (map Z.of_nat (seq 0 51))).
  { apply in_map_iff. exists (Z.to_nat k). split; [lia |]. apply in_seq. lia. }
  apply H in Hin. unfold tenthsInRange in Hin.
  apply andb_true_iff in Hin. destruct Hin as [H1 H2].
  split; apply Qle_bool_iff; assumption.
Qed.

Lemma meanInTenths_range (levels : list Z) :
  Forall LeitnerLevel levels -> levels <> [] -> 0 <= meanInTenths levels <= 50.
Proof.
  intros Hall Hne. pose proof (sumLevels_bounds levels Hall) as Hs.
  unfold meanInTenths.
  assert (Hn : 1 <= Z.of_nat (List.length levels)).
  { destruct levels; [contradiction | simpl; lia]. }
  split.
  - apply Z.div_pos; lia.
  - assert (H : (20 * sumLevels levels + Z.of_nat (List.length levels))
                / (2 * Z.of_nat (List.length levels)) < 51); [| lia].
    apply Z.div_lt_upper_bound; lia.
Qed.

Lemma sumLevels_constant (l : Z) (levels : list Z) :
  Forall (fun x => x = l) levels ->
  sumLevels levels = l * Z.of_nat (List.length levels).
Proof.
  induction 1 as [| x levels Hx _ IH]; [simpl; lia |].
  cbn [sumLevels fold_right List.length]. fold (sumLevels levels).
  rewrite IH, Hx. lia.
Qed.

Lemma filter_all {A : Type} (p : A -> bool) (l : list A) :
  Forall (fun x => p x = true) l -> filter p l = l.
Proof.
  induction 1 as [| x l Hx _ IH]; [reflexivity |].
  cbn [filter]. rewrite Hx, IH. reflexivity.
Qed.

Lemma filter_none {A : Type} (p : A -> bool) (l : list A) :
  Forall (fun x => p x = false) l -> filter p l = [].
Proof.
  induction 1 as [| x l Hx _ IH]; [reflexivity |].
  cbn [filter]. rewrite Hx, IH. reflexivity.
Qed.

(** X6. The statistics of a deck are within bounds: there are never more due
    cards or more mastered cards than cards, and the average level lies
    between 0 and 5; it is 5 exactly for a deck (not empty) of mastered
    cards only, where all cards count as mastered, and 0 for a deck of cards
    at level 0 only. *)
Theorem deck_statistics_are_within_bounds
    (LocalTZA : Z -> bool -> Z) (cards : list FlashCard) (w : World) :
  Forall (fun c => LeitnerLevel (level c)) cards ->
  Z.of_nat (List.length cards) < 2 ^ 32 ->
  exists (stats : DeckStats) (w' : World),
    calculateDeckStats LocalTZA cards w = Ok (stats, w')
    /\ 0 <= cardsToReview stats <= totalCards stats
    /\ 0 <= masteredCards stats <= totalCards stats
    /\ (0 <= averageLevel stats <= 5)%Q
    /\ (cards <> [] -> Forall (fun c => level c = 5) cards ->
        averageLevel stats = 5%Q /\ masteredCards stats = totalCards stats)
    /\ (Forall (fun c => level c = 0) cards ->
        averageLevel stats = 0%Q /\ masteredCards stats = 0).
Proof.
  intros Hall Hlen.
  destruct (getDueCards_returns LocalTZA cards w) as [due [Hrun [_ Hdue]]].
  assert (Hlv : Forall LeitnerLevel (map level cards))
    by (apply Forall_map; exact Hall).
  eexists _, _. split.
  { unfold calculateDeckStats, bind. rewrite Hrun. unfold ret. reflexivity. }
  cbn [totalCards cardsToReview masteredCards averageLevel].
  pose proof (filter_length_le (fun c => level c =? 5) cards) as Hm.
  destruct cards as [| c0 cards'] eqn:Hcards.
  - simpl in Hdue, Hm.
    split; [cbn; lia |]. split; [cbn; lia |].
    split; [split; vm_compute; discriminate |].
    split; [intros Hne; contradiction |].
    intros _. split; vm_compute; reflexivity.
  - rewrite <- Hcards in *.
    assert (Hne : cards <> []) by (rewrite Hcards; discriminate).
    assert (Hpos : (0 <? Z.of_nat (List.length cards)) = true).
    { apply Z.ltb_lt. rewrite Hcards. simpl. lia. }
    rewrite Hpos, (averageLevel_of_deck cards Hall Hne Hlen).
    assert (Hne' : map level cards <> [])
      by (rewrite Hcards; discriminate).
    split; [lia |]. split; [lia |]. split.
    { apply tenths_in_range. apply meanInTenths_range; assumption. }
    split.
    + intros _ H5.
      assert (H5' : Forall (fun x => x = 5) (map level cards))
        by (apply Forall_map; exact H5).
      split.
      * unfold meanInTenths. rewrite (sumLevels_constant 5 _ H5').
        set (n := Z.of_nat (List.length (map level cards))).
        assert (Hn : 1 <= n).
        { unfold n. rewrite length_map, Hcards. simpl. lia. }
        replace ((20 * (5 * n) + n) / (2 * n)) with 50.
        -- vm_compute. reflexivity.
        -- apply Z.div_unique with (r := n); lia.
      * rewrite filter_all; [reflexivity |].
        eapply Forall_impl; [| exact H5].
        intros a Ha. cbn beta. rewrite Ha. reflexivity.
    + intros H0.
      assert (H0' : Forall (fun x => x = 0) (map level cards))
        by (apply Forall_map; exact H0).
      split.
      * unfold meanInTenths. rewrite (sumLevels_constant 0 _ H0').
        set (n := Z.of_nat (List.length (map level cards))).
        assert (Hn : 1 <= n).
        { unfold n. rewrite length_map, Hcards. simpl. lia. }
        replace ((20 * (0 * n) + n) / (2 * n)) with 0.
        -- vm_compute. reflexivity.
        -- symmetry. apply Z.div_small. lia.
      * rewrite filter_none; [reflexivity |].
        eapply Forall_impl; [| exact H0].
        intros a Ha. cbn beta. rewrite Ha. reflexivity.
Qed.

Lemma deck_statistics_are_within_bounds_witness :
  exists (stats : DeckStats) (w' : World),
    calculateDeckStats sampleZone [sampleCard 5; sampleCard 5] sampleWorld
    = Ok (stats, w')
    /\ 0 <= cardsToReview stats <= totalCards stats
    /\ 0 <= masteredCards stats <= totalCards stats
    /\ (0 <= averageLevel stats <= 5)%Q
    /\ ([sampleCard 5; sampleCard 5] <> [] ->
        Forall (fun c => level c = 5) [sampleCard 5; sampleCard 5] ->
        averageLevel stats = 5%Q /\ masteredCards stats = totalCards stats)
    /\ (Forall (fun c => level c = 0) [sampleCard 5; sampleCard 5] ->
        averageLevel stats = 0%Q /\ masteredCards stats = 0).
Proof.
  apply (deck_statistics_are_within_bounds
           sampleZone [sampleCard 5; sampleCard 5] sampleWorld).
  - repeat constructor; unfold LeitnerLevel; simpl; lia.
  - simpl. lia.
Defined.

(** ** Resetting a deck *)

(** X7. After a deck reset every card of the deck is due: asked the same
    day, [getDueCards] returns the whole reset deck, in order.  The reset
    cards are the old ones with level 0, no reviews and no last review date;
    they keep their id, question, answer and creation date. *)
Theorem reset_deck_is_due_as_a_whole
    (LocalTZA : Z -> bool -> Z) (civil : CivilZone LocalTZA)
    (cards : list FlashCard) (w : World) :
  farFromLimits (now w) ->
  (forall k, (1 <= k <= List.length cards)%nat ->
             farFromLimits (now (afterClockReads k w))
             /\ localDay LocalTZA (now (afterClockReads k w))
                = localDay LocalTZA (now w)) ->
  exists cards' : list FlashCard,
    resetDeck LocalTZA cards w = Ok (cards', afterClockReads 1 w)
    /\ getDueCards LocalTZA cards' (afterClockReads 1 w)
       = Ok (cards', afterClockReads (S (List.length cards)) w)
    /\ map id cards' = map id cards
    /\ map question cards' = map question cards
    /\ map answer cards' = map answer cards
    /\ map createdAt cards' = map createdAt cards
    /\ Forall (fun c => level c = 0 /\ reviewCount c = 0
                        /\ lastReviewDate c = None) cards'.
Proof.
  intros Ht Hday.
  set (m := startOfDay LocalTZA (now w)).
  exists (map (resetTo m) cards).
  split; [apply resetDeck_returns; assumption |]. split.
  - rewrite (getDueCards_same_day LocalTZA civil (localDay LocalTZA (now w))).
    + rewrite length_map, afterClockReads_S. f_equal. f_equal.
      apply filter_all. apply Forall_forall. intros c Hin.
      apply in_map_iff in Hin. destruct Hin as [c0 [<- _]].
      unfold dueOnDay, resetTo. cbn [nextReviewDate Date_parse].
      unfold m. rewrite (startOfDay_valid LocalTZA civil _ Ht).
      cbn [Date_le]. apply Z.leb_refl.
    + intros k Hk. rewrite length_map in Hk. rewrite afterClockReads_S.
      apply Hday. lia.
  - rewrite !map_map. cbn [resetTo id question answer createdAt].
    repeat split; try reflexivity.
    apply Forall_forall. intros c Hin.
    apply in_map_iff in Hin. destruct Hin as [c0 [<- _]].
    repeat split; reflexivity.
Qed.

Lemma reset_deck_is_due_as_a_whole_witness :
  exists cards' : list FlashCard,
    resetDeck sampleZone [sampleCard 3; sampleCard 5] sampleWorld
    = Ok (cards', afterClockReads 1 sampleWorld)
    /\ getDueCards sampleZone cards' (afterClockReads 1 sampleWorld)
       = Ok (cards', afterClockReads 3 sampleWorld)
    /\ map id cards' = map id [sampleCard 3; sampleCard 5]
    /\ map question cards' = map question [sampleCard 3; sampleCard 5]
    /\ map answer cards' = map answer [sampleCard 3; sampleCard 5]
    /\ map createdAt cards' = map createdAt [sampleCard 3; sampleCard 5]
    /\ Forall (fun c => level c = 0 /\ reviewCount c = 0
                        /\ lastReviewDate c = None) cards'.
Proof.
  apply (reset_deck_is_due_as_a_whole sampleZone sampleZone_civil
           [sampleCard 3; sampleCard 5] sampleWorld).
  - apply (sampleWorld_farFromLimits 0). lia.
  - intros k Hk. simpl in Hk.
    destruct (sampleWorld_first_day k ltac:(lia)) as [H1 H2].
    split; [exact H1 |]. rewrite H2. vm_compute. reflexivity.
Defined.

(** * Properties of the hook, the services and the components *)

(** ** The hook's callbacks *)

Lemma findIndex_none {A : Type} (p : A -> bool) (l : list A) :
  (forall x, In x l -> p x = false) -> findIndex p l = None.
Proof.
  induction l as [|x xs IH]; intros H; simpl; [reflexivity|].
  rewrite (H x (or_introl eq_refl)), IH; [reflexivity|].
  intros y Hy. apply H. right. exact Hy.
Qed.

Lemma findIndex_first {A : Type} (p : A -> bool) (pre : list A) (x : A)
    (post : list A) :
  (forall y, In y pre -> p y = false) -> p x = true ->
  findIndex p (pre ++ x :: post) = Some (List.length pre).
Proof.
  induction pre as [|y ys IH]; intros Hpre Hx; simpl.
  - rewrite Hx. reflexivity.
  - rewrite (Hpre y (or_introl eq_refl)), IH; [reflexivity| |exact Hx].
    intros z Hz. apply Hpre. right. exact Hz.
Qed.

Lemma assignAt_middle {A : Type} (pre : list A) (x y : A) (post : list A) :
  assignAt (List.length pre) y (pre ++ x :: post) = pre ++ y :: post.
Proof. induction pre as [|z zs IH]; simpl; [reflexivity|]. rewrite IH. reflexivity. Qed.

Lemma id_differs (cardId : string) (l : list FlashCard) :
  ~ In cardId (map id l) ->
  forall c, In c l -> String.eqb (id c) cardId = false.
Proof.
  intros H c Hc. apply String.eqb_neq. intros E. apply H.
  rewrite <- E. apply in_map. exact Hc.
Qed.

Lemma persistCards_stored (updatedCards : list FlashCard) (b : Browser) :
  quotaExceeded (localStorage b) (setItemCalls (localStorage b)) = false ->
  persistCards updatedCards b
  = Returns tt
      (mkBrowser (world b) (windowDefined b)
         (putCards (Some (JSONOf updatedCards)) (countSetItem (localStorage b)))
         (network b) (notifications b)
         (mkHookState updatedCards (isLoading (hookState b))
            (isOffline (hookState b)) (hookError (hookState b)))).
Proof.
  intros Hq. unfold persistCards, tryCatch, bindB, setItemWith.
  rewrite Hq. reflexivity.
Qed.

Lemma persistCards_refused (updatedCards : list FlashCard) (b : Browser) :
  quotaExceeded (localStorage b) (setItemCalls (localStorage b)) = true ->
  persistCards updatedCards b
  = Returns tt (withStorage (countSetItem (localStorage b)) b).
Proof.
  intros Hq. unfold persistCards, tryCatch, bindB, setItemWith.
  rewrite Hq. reflexivity.
Qed.

Lemma persistCards_keeps_inSync (updatedCards : list FlashCard) (b : Browser) :
  inSync b -> inSync (finalBrowser (persistCards updatedCards b)).
Proof.
  intros H.
  destruct (quotaExceeded (localStorage b) (setItemCalls (localStorage b))) eqn:Hq.
  - rewrite (persistCards_refused _ _ Hq). exact H.
  - rewrite (persistCards_stored _ _ Hq). reflexivity.
Qed.

(** X8. Asked to review a card whose id no card of the deck has,
    [reviewFlashCard] returns [null] and leaves everything as it was: the
    clock is not read, nothing is written to [localStorage], the state of
    the hook stays. *)
Theorem reviewFlashCard_unknown_id_changes_nothing
    (LocalTZA : Z -> bool -> Z) (cards : list FlashCard) (cardId : string)
    (confidence : ConfidenceScore) (b : Browser) :
  ~ In cardId (map id cards) ->
  reviewFlashCard LocalTZA cards cardId confidence b = Returns None b.
Proof.
  intros Hid. unfold reviewFlashCard.
  rewrite findIndex_none; [reflexivity|].
  intros c Hc. exact (id_differs _ _ Hid c Hc).
Qed.

Lemma reviewFlashCard_unknown_id_changes_nothing_witness :
  reviewFlashCard sampleZone [sampleCard 2; otherCard] "no-such-card" know
                  sampleBrowser
  = Returns None sampleBrowser.
Proof.
  apply reviewFlashCard_unknown_id_changes_nothing.
  simpl. intros [H | [H | []]]; discriminate H.
Defined.

Lemma reviewFlashCard_finds_first (LocalTZA : Z -> bool -> Z)
    (pre : list FlashCard) (c : FlashCard) (post : list FlashCard)
    (confidence : ConfidenceScore) (b : Browser) :
  ~ In (id c) (map id pre) ->
  reviewFlashCard LocalTZA (pre ++ c :: post) (id c) confidence b
  = bindB (engine (reviewCard LocalTZA c confidence))
          (fun result =>
             bindB (persistCards (pre ++ card result :: post))
                   (fun _ => retB (Some result))) b.
Proof.
  intros Hid. unfold reviewFlashCard.
  rewrite (findIndex_first _ pre c post (id_differs _ _ Hid) (String.eqb_refl _)).
  rewrite nth_error_app2 by lia. rewrite Nat.sub_diag.
  change (nth_error (c :: post) 0) with (Some c).
  unfold bindB. destruct (engine (reviewCard LocalTZA c confidence) b); [|reflexivity].
  rewrite assignAt_middle. reflexivity.
Qed.

(** X9. A review through the hook replaces the first card of the deck that
    has the id by the card that [reviewCard] returns for it and leaves every
    other card in its place, also a later card with the same id.  The result
    of the review is returned in either case; when [localStorage] refuses
    the write, neither the stored deck nor the deck in the state changes. *)
Theorem reviewFlashCard_replaces_the_first_card_with_the_id
    (LocalTZA : Z -> bool -> Z) (pre : list FlashCard) (c : FlashCard)
    (post : list FlashCard) (confidence : ConfidenceScore) (b : Browser)
    (r : ReviewResult) (w' : World) :
  ~ In (id c) (map id pre) ->
  reviewCard LocalTZA c confidence (world b) = Ok (r, w') ->
  exists b',
    reviewFlashCard LocalTZA (pre ++ c :: post) (id c) confidence b
    = Returns (Some r) b'
    /\ world b' = w'
    /\ (if quotaExceeded (localStorage b) (setItemCalls (localStorage b))
        then hookState b' = hookState b
             /\ cardsItem (localStorage b') = cardsItem (localStorage b)
        else hookCards (hookState b') = pre ++ card r :: post
             /\ cardsItem (localStorage b')
                = Some (JSONOf (pre ++ card r :: post))).
Proof.
  intros Hid Hr. rewrite (reviewFlashCard_finds_first _ _ _ _ _ _ Hid).
  unfold bindB at 1, engine. rewrite Hr. unfold bindB.
  destruct (quotaExceeded (localStorage b) (setItemCalls (localStorage b))) eqn:Hq.
  - rewrite persistCards_refused by exact Hq.
    eexists. split; [reflexivity|]. repeat split.
  - rewrite persistCards_stored by exact Hq.
    eexists. split; [reflexivity|]. repeat split.
Qed.

Lemma reviewFlashCard_replaces_the_first_card_with_the_id_witness :
  exists (r : ReviewResult) (b' : Browser),
    reviewFlashCard sampleZone ([otherCard] ++ sampleCard 2 :: [sampleCard 4])
                    (id (sampleCard 2)) know sampleBrowser
    = Returns (Some r) b'
    /\ level (card r) = 3
    /\ hookCards (hookState b') = [otherCard; card r; sampleCard 4]
    /\ cardsItem (localStorage b')
       = Some (JSONOf [otherCard; card r; sampleCard 4]).
Proof.
  pose proof (reviewCard_returns sampleZone sampleZone_civil (sampleCard 2) know
                sampleWorld ltac:(unfold LeitnerLevel; simpl; lia)
                (sampleWorld_farFromLimits 0 ltac:(lia))
                (sampleWorld_farFromLimits 1 ltac:(lia))) as Hr.
  cbv zeta in Hr.
  destruct (reviewFlashCard_replaces_the_first_card_with_the_id
              sampleZone [otherCard] (sampleCard 2) [sampleCard 4] know
              sampleBrowser _ _
              ltac:(simpl; intros [H | []]; discriminate H) Hr)
    as (b' & Hrun & _ & Hdeck).
  eexists. exists b'. split; [exact Hrun|].
  split; [reflexivity|]. exact Hdeck.
Defined.

Lemma filter_without_id (cardId : string) (l : list FlashCard) :
  ~ In cardId (map id l) ->
  filter (fun c => negb (String.eqb (id c) cardId)) l = l.
Proof.
  intros H. apply filter_all. apply Forall_forall. intros c Hc.
  rewrite (id_differs _ _ H c Hc). reflexivity.
Qed.

(** X10. [deleteCard] removes exactly the cards that have the id: a card is
    in the new deck if and only if it was in the deck under another id; a
    deck without the id stays as it is; the new deck is also what is stored.
    A review asked for the deleted id afterwards returns [null]. *)
Theorem deleteCard_removes_exactly_the_cards_with_the_id
    (LocalTZA : Z -> bool -> Z) (cards : list FlashCard) (cardId : string)
    (b : Browser) :
  quotaExceeded (localStorage b) (setItemCalls (localStorage b)) = false ->
  exists b',
    deleteCard cards cardId b = Returns tt b'
    /\ (forall c, In c (hookCards (hookState b'))
                  <-> In c cards /\ id c <> cardId)
    /\ (~ In cardId (map id cards) -> hookCards (hookState b') = cards)
    /\ cardsItem (localStorage b') = Some (JSONOf (hookCards (hookState b')))
    /\ forall confidence,
         reviewFlashCard LocalTZA (hookCards (hookState b')) cardId confidence b'
         = Returns None b'.
Proof.
  intros Hq. unfold deleteCard. rewrite (persistCards_stored _ _ Hq).
  eexists. split; [reflexivity|]. cbn [hookState hookCards localStorage cardsItem putCards].
  split; [|split; [|split]].
  - intros c. rewrite filter_In. rewrite negb_true_iff, String.eqb_neq. reflexivity.
  - apply filter_without_id.
  - reflexivity.
  - intros confidence. unfold reviewFlashCard.
    rewrite findIndex_none; [reflexivity|].
    intros c Hin. apply filter_In in Hin. destruct Hin as [_ Hne].
    apply negb_true_iff. exact Hne.
Qed.

Lemma deleteCard_removes_exactly_the_cards_with_the_id_witness :
  exists b',
    deleteCard [otherCard; sampleCard 2; sampleCard 4] (id (sampleCard 2))
               sampleBrowser
    = Returns tt b'
    /\ hookCards (hookState b') = [otherCard].
Proof.
  destruct (deleteCard_removes_exactly_the_cards_with_the_id
              sampleZone [otherCard; sampleCard 2; sampleCard 4]
              (id (sampleCard 2)) sampleBrowser eq_refl)
    as (b' & Hrun & _).
  exists b'. split; [exact Hrun|].
  unfold deleteCard in Hrun.
  rewrite (persistCards_stored _ sampleBrowser eq_refl) in Hrun.
  injection Hrun as <-. reflexivity.
Defined.

(** X11. A card added through the hook goes to the end of the deck, and
    deleting it again gives back the deck as it was, in the state and in
    [localStorage], provided the new identifier is not already the id of a
    card of the deck. *)
Theorem addCard_then_deleteCard_restores_the_deck
    (LocalTZA : Z -> bool -> Z) (civil : CivilZone LocalTZA)
    (cards : list FlashCard) (question answer : string) (b : Browser) :
  farFromLimits (now (world b)) ->
  ~ In (uuidSource (world b) (uuidReads (world b))) (map id cards) ->
  storageAccepts 2 b ->
  exists (newCard : FlashCard) (b1 b2 : Browser),
    addCard LocalTZA cards question answer b = Returns newCard b1
    /\ hookCards (hookState b1) = cards ++ [newCard]
    /\ cardsItem (localStorage b1) = Some (JSONOf (cards ++ [newCard]))
    /\ deleteCard (hookCards (hookState b1)) (id newCard) b1 = Returns tt b2
    /\ hookCards (hookState b2) = cards
    /\ cardsItem (localStorage b2) = Some (JSONOf cards).
Proof.
  intros Ht Hfresh Hacc.
  pose proof (Hacc 0%nat ltac:(lia)) as H0.
  pose proof (Hacc 1%nat ltac:(lia)) as H1. simpl in H0, H1.
  unfold addCard, bindB at 1, engine.
  rewrite (createNewCard_returns LocalTZA civil question answer (world b) Ht).
  set (newCard := mkFlashCard _ _ _ _ _ _ _ _).
  unfold bindB. rewrite persistCards_stored by exact H0.
  unfold retB. eexists. eexists. eexists.
  split; [reflexivity|].
  split; [reflexivity|]. split; [reflexivity|].
  cbn [hookState hookCards]. unfold deleteCard.
  rewrite persistCards_stored by exact H1.
  cbn [hookState hookCards localStorage cardsItem putCards].
  assert (Hdel : filter (fun c => negb (String.eqb (id c) (id newCard)))
                        (cards ++ [newCard]) = cards).
  { rewrite filter_app. cbn [filter]. rewrite String.eqb_refl. cbn [negb].
    rewrite app_nil_r. apply filter_without_id. exact Hfresh. }
  rewrite Hdel. split; [reflexivity|]. split; reflexivity.
Qed.

Lemma addCard_then_deleteCard_restores_the_deck_witness :
  exists (newCard : FlashCard) (b1 b2 : Browser),
    addCard sampleZone [otherCard; sampleCard 2] "2 + 2 = ?" "4" sampleBrowser
    = Returns newCard b1
    /\ hookCards (hookState b1) = [otherCard; sampleCard 2] ++ [newCard]
    /\ cardsItem (localStorage b1)
       = Some (JSONOf ([otherCard; sampleCard 2] ++ [newCard]))
    /\ deleteCard (hookCards (hookState b1)) (id newCard) b1 = Returns tt b2
    /\ hookCards (hookState b2) = [otherCard; sampleCard 2]
    /\ cardsItem (localStorage b2) = Some (JSONOf [otherCard; sampleCard 2]).
Proof.
  apply (addCard_then_deleteCard_restores_the_deck sampleZone sampleZone_civil).
  - apply (sampleWorld_farFromLimits 0). lia.
  - simpl. intros [H | [H | []]]; discriminate H.
  - intros k Hk. reflexivity.
Defined.

(** X12. The four callbacks of the hook keep the deck in the state and the
    deck in [localStorage] the same: if they are the same before [addCard],
    [reviewFlashCard], [deleteCard] or [resetDeck], they are the same after
    it, whatever deck the callback was made with, and also when the engine
    throws or [localStorage] refuses the write. *)
Theorem hook_callbacks_keep_state_and_storage_in_sync
    (LocalTZA : Z -> bool -> Z) (cards : list FlashCard) (b : Browser) :
  inSync b ->
  (forall question answer,
      inSync (finalBrowser (addCard LocalTZA cards question answer b)))
  /\ (forall cardId confidence,
         inSync (finalBrowser (reviewFlashCard LocalTZA cards cardId confidence b)))
  /\ (forall cardId, inSync (finalBrowser (deleteCard cards cardId b)))
  /\ inSync (finalBrowser (resetDeckCallback LocalTZA cards b)).
Proof.
  intros Hsync.
  assert (Hengine : forall (A : Type) (m : M A) (k : A -> list FlashCard)
                           (C : Type) (v : A -> C),
             inSync (finalBrowser
                       (bindB (engine m)
                              (fun a => bindB (persistCards (k a))
                                              (fun _ => retB (v a))) b))).
  { intros A m k C v. unfold bindB at 1, engine.
    destruct (m (world b)) as [[a w']|e]; [|exact Hsync].
    unfold bindB.
    pose proof (persistCards_keeps_inSync (k a) (withWorld w' b) Hsync) as Hp.
    destruct (persistCards (k a) (withWorld w' b)); exact Hp. }
  split; [|split; [|split]].
  - intros question answer. unfold addCard. apply Hengine.
  - intros cardId confidence. unfold reviewFlashCard.
    destruct (findIndex _ cards) as [cardIndex|]; [|exact Hsync].
    destruct (nth_error cards cardIndex) as [found|]; [|exact Hsync].
    apply (Hengine _ _ (fun result => assignAt cardIndex (card result) cards)
                   _ (fun result => Some result)).
  - intros cardId. unfold deleteCard. apply persistCards_keeps_inSync. exact Hsync.
  - unfold resetDeckCallback, bindB, engine.
    destruct (resetDeck LocalTZA cards (world b)) as [[a w']|e]; [|exact Hsync].
    apply (persistCards_keeps_inSync a (withWorld w' b)). exact Hsync.
Qed.

Lemma hook_callbacks_keep_state_and_storage_in_sync_witness :
  (forall question answer,
      inSync (finalBrowser (addCard sampleZone sampleDeck question answer
                                    loadedBrowser)))
  /\ (forall cardId confidence,
         inSync (finalBrowser (reviewFlashCard sampleZone sampleDeck cardId
                                               confidence loadedBrowser)))
  /\ (forall cardId,
         inSync (finalBrowser (deleteCard sampleDeck cardId loadedBrowser)))
  /\ inSync (finalBrowser (resetDeckCallback sampleZone sampleDeck loadedBrowser)).
Proof.
  apply (hook_callbacks_keep_state_and_storage_in_sync sampleZone sampleDeck
           loadedBrowser).
  reflexivity.
Defined.

(** ** The cache of fetched cards *)

Lemma cacheFlashcards_stored (cards : list FlashCard) (b : Browser) :
  windowDefined b = true ->
  storageAccepts 2 b ->
  cacheFlashcards cards b
  = Returns tt
      (mkBrowser (afterClockReads 1 (world b)) (windowDefined b)
         (mkStorage (cardsItem (localStorage b)) (Some (JSONOf cards))
            (Some (DecimalOf (now (world b) + CACHE_DURATION)))
            (reminderItem (localStorage b)) (quotaExceeded (localStorage b))
            (2 + setItemCalls (localStorage b)))
         (network b) (notifications b) (hookState b)).
Proof.
  intros Hw Hacc.
  pose proof (Hacc 0%nat ltac:(lia)) as H0.
  pose proof (Hacc 1%nat ltac:(lia)) as H1. simpl in H0, H1.
  unfold cacheFlashcards.
  replace (negb (windowDefined b)) with false by (rewrite Hw; reflexivity).
  unfold tryCatch, bindB, setItemWith. rewrite H0.
  cbn [localStorage withStorage Date_now world withWorld countSetItem putApiCache
       quotaExceeded setItemCalls clock clockReads uuidSource uuidReads].
  rewrite H1. reflexivity.
Qed.

Lemma getCachedFlashcards_stored (cards : list FlashCard) (expiryTime : Z)
    (b : Browser) :
  windowDefined b = true ->
  apiCacheItem (localStorage b) = Some (JSONOf cards) ->
  cacheExpiryItem (localStorage b) = Some (DecimalOf expiryTime) ->
  getCachedFlashcards b
  = if now (world b) <? expiryTime
    then Returns (Some cards) (withWorld (afterClockReads 1 (world b)) b)
    else Returns None
           (withStorage
              (putCacheExpiry None (putApiCache None (localStorage b)))
              (withWorld (afterClockReads 1 (world b)) b)).
Proof.
  intros Hw Hc He. unfold getCachedFlashcards.
  replace (negb (windowDefined b)) with false by (rewrite Hw; reflexivity).
  unfold bindB at 1. unfold isCacheValid.
  replace (negb (windowDefined b)) with false by (rewrite Hw; reflexivity).
  unfold bindB at 1, getItem. rewrite He.
  unfold bindB at 1, Date_now. fold (now (world b)). unfold retB at 1.
  destruct (now (world b) <? expiryTime); cbn [negb].
  - unfold bindB at 1, getItem. cbn [localStorage withWorld]. rewrite Hc.
    cbn [truthyText negb]. reflexivity.
  - reflexivity.
Qed.

(** X13. Cards that [cacheFlashcards] stored are served by
    [getCachedFlashcards] for exactly 24 hours: read at a time less than
    86400000 ms after they were cached, the cache gives the cards back as
    they were; read at that time or later it gives [null] and both cache
    keys are removed.  The clock is within the range of [Date], where the
    expiry time is read back as it was written. *)
Theorem cached_cards_are_served_for_a_day
    (cards : list FlashCard) (b : Browser) :
  windowDefined b = true ->
  farFromLimits (now (world b)) ->
  storageAccepts 2 b ->
  exists b1,
    cacheFlashcards cards b = Returns tt b1
    /\ forall b2,
         windowDefined b2 = true ->
         apiCacheItem (localStorage b2) = apiCacheItem (localStorage b1) ->
         cacheExpiryItem (localStorage b2) = cacheExpiryItem (localStorage b1) ->
         exists b3,
           getCachedFlashcards b2
           = Returns (if now (world b2) <? now (world b) + 86400000
                      then Some cards else None) b3
           /\ (now (world b) + 86400000 <= now (world b2) ->
               apiCacheItem (localStorage b3) = None
               /\ cacheExpiryItem (localStorage b3) = None).
Proof.
  intros Hw _ Hacc. rewrite (cacheFlashcards_stored cards b Hw Hacc).
  eexists. split; [reflexivity|].
  cbn [localStorage apiCacheItem cacheExpiryItem].
  intros b2 Hw2 Hc He.
  rewrite (getCachedFlashcards_stored cards _ b2 Hw2 Hc He).
  change CACHE_DURATION with 86400000.
  destruct (now (world b2) <? now (world b) + 86400000) eqn:Hlt.
  - eexists. split; [reflexivity|]. intros Hle.
    apply Z.ltb_lt in Hlt. lia.
  - eexists. split; [reflexivity|]. intros _. split; reflexivity.
Qed.

Lemma cached_cards_are_served_for_a_day_witness :
  exists b1,
    cacheFlashcards sampleDeck sampleBrowser = Returns tt b1
    /\ forall b2,
         windowDefined b2 = true ->
         apiCacheItem (localStorage b2) = apiCacheItem (localStorage b1) ->
         cacheExpiryItem (localStorage b2) = cacheExpiryItem (localStorage b1) ->
         exists b3,
           getCachedFlashcards b2
           = Returns (if now (world b2) <? now (world sampleBrowser) + 86400000
                      then Some sampleDeck else None) b3
           /\ (now (world sampleBrowser) + 86400000 <= now (world b2) ->
               apiCacheItem (localStorage b3) = None
               /\ cacheExpiryItem (localStorage b3) = None).
Proof.
  apply (cached_cards_are_served_for_a_day sampleDeck sampleBrowser).
  - reflexivity.
  - apply (sampleWorld_farFromLimits 0). lia.
  - intros k Hk. reflexivity.
Defined.

(** ** Fetching cards *)

Lemma sameStore_trans (b1 b2 b3 : Browser) :
  sameStore b1 b2 -> sameStore b2 b3 -> sameStore b1 b3.
Proof.
  intros (H1 & H2 & H3) (H4 & H5 & H6). repeat split; congruence.
Qed.

Lemma sameDeck_trans (b1 b2 b3 : Browser) :
  sameDeck b1 b2 -> sameDeck b2 b3 -> sameDeck b1 b3.
Proof.
  intros (H1 & H2 & H3) (H4 & H5 & H6). repeat split; congruence.
Qed.

Lemma sameStore_sameDeck (b1 b2 : Browser) : sameStore b1 b2 -> sameDeck b1 b2.
Proof. intros (H1 & H2 & H3). repeat split; congruence. Qed.


Lemma mapB_outcome {A C : Type} (P : Browser -> Browser -> Prop)
    (f : A -> B C) (l : list A) :
  (forall b, P b b) ->
  (forall b1 b2 b3, P b1 b2 -> P b2 b3 -> P b1 b3) ->
  (forall x b, P b (finalBrowser (f x b))) ->
  forall b,
    match mapB f l b with
    | Returns ys b' => P b b' /\ List.length ys = List.length l
    | Throws _ b' => P b b'
    end.
Proof.
  intros Hrefl Htrans Hf. induction l as [|x xs IH]; intros b; simpl.
  - split; [apply Hrefl | reflexivity].
  - unfold bindB at 1. pose proof (Hf x b) as Hx.
    destruct (f x b) as [y b1|e b1]; simpl in Hx; [|exact Hx].
    unfold bindB at 1. pose proof (IH b1) as Hxs.
    destruct (mapB f xs b1) as [ys b2|e b2].
    + destruct Hxs as [Hxs Hlen]. unfold retB. split.
      * exact (Htrans _ _ _ Hx Hxs).
      * simpl. rewrite Hlen. reflexivity.
    + exact (Htrans _ _ _ Hx Hxs).
Qed.

Lemma fetchFromOpenTrivia_outcome (LocalTZA : Z -> bool -> Z) (amount : Z)
    (b : Browser) :
  match fetchFromOpenTrivia LocalTZA amount b with
  | Returns cards b' =>
      sameStore b b'
      /\ exists status results,
           fetchOutcome (network b) (fetchCalls (network b))
           = Response true status (Some (0, results))
           /\ List.length cards = List.length results
  | Throws _ b' => sameStore b b'
  end.
Proof.
  unfold fetchFromOpenTrivia, tryCatch, bindB at 1, fetch.
  destruct (fetchOutcome (network b) (fetchCalls (network b)))
    as [|ok status [[response_code results]|]] eqn:Hout;
    [repeat split | destruct ok; cbn [negb]; [|repeat split] ..];
    [|repeat split].
  destruct (response_code =? 0) eqn:Hcode; cbn [negb]; [|repeat split].
  apply Z.eqb_eq in Hcode. subst response_code.
  match goal with
  | |- context [mapB ?f results ?b0] =>
      pose proof (mapB_outcome sameStore f results) as Hmap;
      specialize (Hmap (fun b => conj eq_refl (conj eq_refl eq_refl)));
      specialize (Hmap sameStore_trans);
      assert (Hf : forall x b, sameStore b (finalBrowser (f x b)));
      [| specialize (Hmap Hf b0); destruct (mapB f results b0) as [cards b'|e b'] ]
  end.
  - intros item b0. unfold bindB, decodeHTML, answerOf.
    unfold bindB, decodeHTML.
    match goal with
    | |- context [mapB ?g ?l b0] =>
        pose proof (mapB_outcome (fun b1 b2 => b2 = b1) g l
                      (fun _ => eq_refl)
                      (fun b1 b2 b3 H1 H2 => eq_trans H2 H1)) as Hd;
        assert (Hg : forall x b, finalBrowser (g x b) = b) by reflexivity;
        specialize (Hd Hg b0); destruct (mapB g l b0) as [ds b1|e b1]
    end.
    + destruct Hd as [-> _]. unfold retB, engine.
      destruct (createNewCard LocalTZA _ _ (world b0)) as [[c w']|e];
        repeat split.
    + subst b1. repeat split.
  - destruct Hmap as [Hs Hlen]. split; [exact Hs|].
    exists status, results. split; [reflexivity | exact Hlen].
  - exact Hmap.
Qed.

Lemma cacheFlashcards_outcome (cards : list FlashCard) (b : Browser) :
  exists b', cacheFlashcards cards b = Returns tt b' /\ sameDeck b b'.
Proof.
  unfold cacheFlashcards.
  destruct (windowDefined b) eqn:Hw; cbn [negb].
  - unfold tryCatch, bindB, setItemWith.
    destruct (quotaExceeded (localStorage b) (setItemCalls (localStorage b))).
    + eexists. split; [reflexivity|]. repeat split.
    + cbn [Date_now withStorage withWorld world localStorage].
      match goal with
      | |- context [if ?c then _ else _] => destruct c
      end; (eexists; split; [reflexivity|]; repeat split).
  - eexists. split; [reflexivity|]. repeat split; assumption.
Qed.

Lemma getCachedFlashcards_outcome (b : Browser) :
  exists (o : option (list FlashCard)) (b' : Browser),
    getCachedFlashcards b = Returns o b'
    /\ sameDeck b b'
    /\ network b' = network b
    /\ forall cards, o = Some cards ->
                     apiCacheItem (localStorage b) = Some (JSONOf cards).
Proof.
  unfold getCachedFlashcards.
  destruct (windowDefined b) eqn:Hw; cbn [negb];
    [| exists None, b; repeat split; try assumption; discriminate ].
  unfold bindB at 1, isCacheValid. rewrite Hw. cbn [negb].
  unfold bindB at 1, getItem.
  assert (Hmiss : forall b0 : Browser,
             sameDeck b b0 -> network b0 = network b ->
             exists (o : option (list FlashCard)) (b' : Browser),
               (removeItemWith (putApiCache None) ;;;
                removeItemWith (putCacheExpiry None) ;;;
                retB (@None (list FlashCard)))%browser b0 = Returns o b'
               /\ sameDeck b b' /\ network b' = network b
               /\ forall cards, o = Some cards ->
                    apiCacheItem (localStorage b) = Some (JSONOf cards)).
  { intros b0 (H1 & H2 & H3) Hn. eexists. eexists. split; [reflexivity|].
    repeat split; try assumption. discriminate. }
  assert (Hhit : forall b0 : Browser,
             sameDeck b b0 -> network b0 = network b ->
             apiCacheItem (localStorage b0) = apiCacheItem (localStorage b) ->
             exists (o : option (list FlashCard)) (b' : Browser),
               (cached <~ getItem apiCacheItem ;;
                match cached with
                | None => retB None
                | Some text =>
                    if negb (truthyText text) then retB None
                    else
                      tryCatch
                        (cards <~ JSON_parse text ;; retB (Some cards))
                        (fun _ =>
                           removeItemWith (putApiCache None) ;;;
                           retB None)
                end)%browser b0 = Returns o b'
               /\ sameDeck b b' /\ network b' = network b
               /\ forall cards, o = Some cards ->
                    apiCacheItem (localStorage b) = Some (JSONOf cards)).
  { intros b0 (H1 & H2 & H3) Hn Hc. unfold bindB, getItem. rewrite Hc.
    destruct (apiCacheItem (localStorage b)) as [[cards| |]|];
      cbn [truthyText negb tryCatch JSON_parse];
      (eexists; eexists; split; [reflexivity|]);
      repeat split; try assumption; try discriminate.
    intros cards' E. injection E as <-. reflexivity. }
  destruct (cacheExpiryItem (localStorage b)) as [[expiryTime| |]|].
  - unfold bindB at 1, Date_now, retB at 1.
    destruct (clock (world b) (clockReads (world b)) <? expiryTime); cbn [negb].
    + apply Hhit; repeat split; assumption.
    + apply Hmiss; repeat split; assumption.
  - unfold retB at 1. cbn [negb]. apply Hmiss; repeat split; assumption.
  - unfold bindB at 1, Date_now, retB at 1. cbn [negb].
    apply Hmiss; repeat split; assumption.
  - unfold retB at 1. cbn [negb]. apply Hmiss; repeat split; assumption.
Qed.

Lemma fetchFlashcards_outcome
    (LocalTZA : Z -> bool -> Z) (amount : Z) (b : Browser) :
  exists (r : FetchResult) (b' : Browser),
    fetchFlashcards LocalTZA amount b = Returns r b'
    /\ sameDeck b b'
    /\ (fromCache r = true ->
        apiCacheItem (localStorage b) = Some (JSONOf (fr_cards r)))
    /\ (fromCache r = false -> fr_isOffline r = true -> fr_cards r = [])
    /\ (fromCache r = false -> fr_isOffline r = false ->
        windowDefined b = true
        /\ onLine (network b) (onLineReads (network b)) = true
        /\ exists status results,
             fetchOutcome (network b) (fetchCalls (network b))
             = Response true status (Some (0, results))
             /\ List.length (fr_cards r) = List.length results).
Proof.
  assert (Hcache : forall b0 : Browser,
             sameDeck b b0 ->
             apiCacheItem (localStorage b0) = apiCacheItem (localStorage b) ->
             exists (r : FetchResult) (b' : Browser),
               (cachedCards <~ getCachedFlashcards ;;
                match cachedCards with
                | Some cards =>
                    (online <~ isOnline ;;
                     retB (mkFetchResult cards (negb online) true))
                | None => retB (mkFetchResult [] true false)
                end)%browser b0 = Returns r b'
               /\ sameDeck b b'
               /\ (fromCache r = true ->
                   apiCacheItem (localStorage b) = Some (JSONOf (fr_cards r)))
               /\ (fromCache r = false ->
                   fr_isOffline r = true /\ fr_cards r = [])).
  { intros b0 Hb0 Hc0.
    destruct (getCachedFlashcards_outcome b0) as (o & b1 & Hrun & Hb1 & _ & Ho).
    unfold bindB at 1. rewrite Hrun.
    pose proof (sameDeck_trans _ _ _ Hb0 Hb1) as H01.
    destruct o as [cards|].
    - unfold bindB, isOnline, retB.
      destruct H01 as (? & ? & ?).
      destruct (negb (windowDefined b1));
        (eexists; eexists; split; [reflexivity|]);
        (split; [repeat split; assumption|]);
        cbn [fromCache fr_cards fr_isOffline];
        (split; [intros _; rewrite <- Hc0; apply Ho; reflexivity|]);
        discriminate.
    - unfold retB. eexists; eexists. split; [reflexivity|].
      split; [exact H01|]. cbn [fromCache fr_cards fr_isOffline].
      split; [discriminate|]. intros _. split; reflexivity. }
  assert (Hthen : forall m : B FetchResult,
             (exists (r : FetchResult) (b' : Browser),
                 m b = Returns r b'
                 /\ sameDeck b b'
                 /\ (fromCache r = true ->
                     apiCacheItem (localStorage b) = Some (JSONOf (fr_cards r)))
                 /\ (fromCache r = false ->
                     fr_isOffline r = true /\ fr_cards r = [])) ->
             exists (r : FetchResult) (b' : Browser),
               m b = Returns r b'
               /\ sameDeck b b'
               /\ (fromCache r = true ->
                   apiCacheItem (localStorage b) = Some (JSONOf (fr_cards r)))
               /\ (fromCache r = false -> fr_isOffline r = true -> fr_cards r = [])
               /\ (fromCache r = false -> fr_isOffline r = false ->
                   windowDefined b = true
                   /\ onLine (network b) (onLineReads (network b)) = true
                   /\ exists status results,
                        fetchOutcome (network b) (fetchCalls (network b))
                        = Response true status (Some (0, results))
                        /\ List.length (fr_cards r) = List.length results)).
  { intros m (r & b' & Hrun & Hd & Hc & Hoff).
    exists r, b'. split; [exact Hrun|]. split; [exact Hd|].
    split; [exact Hc|]. split.
    - intros H _. apply Hoff. exact H.
    - intros H H'. destruct (Hoff H) as [E _]. rewrite E in H'. discriminate H'. }
  destruct (Bool.bool_dec (windowDefined b) true) as [Hw|Hw];
    [|apply Bool.not_true_is_false in Hw].
  - destruct (Bool.bool_dec (onLine (network b) (onLineReads (network b))) true)
      as [Hon|Hon]; [|apply Bool.not_true_is_false in Hon].
    + unfold fetchFlashcards. unfold bindB at 1, isOnline.
      replace (negb (windowDefined b)) with false by (rewrite Hw; reflexivity).
      rewrite Hon.
      unfold bindB at 1, tryCatch, bindB at 1.
      match goal with
      | |- context [fetchFromOpenTrivia LocalTZA amount ?b0] =>
          pose proof (fetchFromOpenTrivia_outcome LocalTZA amount b0) as Hf;
          destruct (fetchFromOpenTrivia LocalTZA amount b0) as [cards b1|e b1]
      end.
      * destruct Hf as [Hs (status & results & Hout & Hlen)].
        destruct (cacheFlashcards_outcome cards b1) as (b2 & Hrun & Hb2).
        unfold bindB at 1. rewrite Hrun. unfold retB.
        eexists; eexists. split; [reflexivity|].
        split.
        { apply (sameDeck_trans _ b1); [|exact Hb2].
          apply sameStore_sameDeck in Hs. exact Hs. }
        cbn [fromCache fr_cards fr_isOffline].
        split; [discriminate|]. split; [discriminate|].
        intros _ _. split; [exact Hw|]. split; [reflexivity|].
        exists status, results. split; [exact Hout | exact Hlen].
      * unfold retB at 1. destruct Hf as (H1 & H2 & H3).
        match goal with
        | |- exists r b', ?k b1 = _ /\ _ =>
            destruct (Hcache b1) as (r & b' & Hrun & Hrest)
        end.
        -- repeat split; [exact H2 | rewrite H1; reflexivity | exact H3].
        -- rewrite H1. reflexivity.
        -- destruct Hrest as (Hd & Hc & Hoff).
           exists r, b'. split; [exact Hrun|]. split; [exact Hd|].
           split; [exact Hc|]. split.
           ++ intros H _. apply Hoff. exact H.
           ++ intros H H'. destruct (Hoff H) as [E _]. rewrite E in H'.
              discriminate H'.
    + apply Hthen. unfold fetchFlashcards. unfold bindB at 1, isOnline.
      replace (negb (windowDefined b)) with false by (rewrite Hw; reflexivity).
      rewrite Hon. unfold bindB at 1, retB at 1. apply Hcache.
      * repeat split.
      * reflexivity.
  - apply Hthen. unfold fetchFlashcards. unfold bindB at 1, isOnline.
    replace (negb (windowDefined b)) with true by (rewrite Hw; reflexivity).
    unfold bindB at 1, retB at 1. apply Hcache.
    + repeat split.
    + reflexivity.
Qed.

(** X14. [fetchFlashcards] always returns, whatever the network does,
    whatever lies under the cache keys and also when [localStorage] refuses
    to store, and it never touches the deck of the hook.  What it returns is
    one of three things: cards marked [fromCache], which are the cards under
    the cache key; an empty list marked off line; or, marked neither, one
    new card for each result of a request that was answered while the
    browser was on line. *)
Theorem fetchFlashcards_always_returns_one_of_three_results
    (LocalTZA : Z -> bool -> Z) (amount : Z) (b : Browser) :
  exists (r : FetchResult) (b' : Browser),
    fetchFlashcards LocalTZA amount b = Returns r b'
    /\ sameDeck b b'
    /\ (fromCache r = true ->
        apiCacheItem (localStorage b) = Some (JSONOf (fr_cards r)))
    /\ (fromCache r = false -> fr_isOffline r = true -> fr_cards r = [])
    /\ (fromCache r = false -> fr_isOffline r = false ->
        windowDefined b = true
        /\ onLine (network b) (onLineReads (network b)) = true
        /\ exists status results,
             fetchOutcome (network b) (fetchCalls (network b))
             = Response true status (Some (0, results))
             /\ List.length (fr_cards r) = List.length results).
Proof. exact (fetchFlashcards_outcome LocalTZA amount b). Qed.

Lemma mapB_pure {A C : Type} (g : A -> C) (l : list A) (b : Browser) :
  mapB (fun x => retB (g x)) l b = Returns (map g l) b.
Proof.
  induction l as [|x xs IH]; [reflexivity|].
  simpl. unfold bindB at 1, retB at 1. unfold bindB at 1. rewrite IH.
  reflexivity.
Qed.

Lemma answerOf_returns (item : TriviaItem) (b : Browser) :
  exists a : string, answerOf item b = Returns a b.
Proof.
  unfold answerOf. unfold bindB at 1, decodeHTML at 1. unfold bindB at 1.
  assert (Hothers : forall l : list string,
             mapB (fun a : string =>
                     (d <~ decodeHTML a ;; retB ("- " ++ d)%string)%browser) l b
             = Returns (map (fun a => ("- " ++ decodeEntities (network b) a)%string) l) b).
  { induction l as [|x xs IHl]; [reflexivity|].
    cbn [mapB]. unfold bindB at 1. unfold bindB at 1, decodeHTML at 1.
    unfold retB at 1. unfold bindB at 1. rewrite IHl. reflexivity. }
  rewrite Hothers. eexists. reflexivity.
Qed.

Lemma mapB_createNewCard (LocalTZA : Z -> bool -> Z) (civil : CivilZone LocalTZA)
    (results : list TriviaItem) (b : Browser) :
  (forall k, (k < List.length results)%nat ->
             farFromLimits (now (afterClockReads k (world b)))) ->
  exists cards : list FlashCard,
    mapB (fun item =>
            (q <~ decodeHTML (trivia_question item) ;;
             a <~ answerOf item ;;
             engine (createNewCard LocalTZA q a))%browser) results b
    = Returns cards
        (withWorld (mkWorld (clock (world b))
                            (List.length results + clockReads (world b))
                            (uuidSource (world b))
                            (List.length results + uuidReads (world b))) b)
    /\ map question cards
       = map (fun item => decodeEntities (network b) (trivia_question item))
             results
    /\ Forall (fun c => level c = 0 /\ reviewCount c = 0
                        /\ lastReviewDate c = None) cards.
Proof.
  revert b. induction results as [|item items IH]; intros b Hfar.
  - exists []. split; [|split; [reflexivity | constructor]].
    destruct b as [[ck cr us ur] wd ls nw nt hs]. reflexivity.
  - cbn [mapB]. unfold bindB at 1. unfold bindB at 1, decodeHTML at 1.
    unfold bindB at 1. destruct (answerOf_returns item b) as [a Ha].
    rewrite Ha. unfold engine at 1.
    rewrite (createNewCard_returns LocalTZA civil _ _ (world b)
               (Hfar 0%nat ltac:(simpl; lia))).
    set (c := mkFlashCard _ _ _ _ _ _ _ _).
    set (b1 := withWorld _ b).
    destruct (IH b1) as (cards & Hrun & Hq & Hall).
    { intros k Hk. unfold b1. cbn [world withWorld].
      replace (afterClockReads k (afterUUID (afterClockReads 1 (world b))))
        with (afterUUID (afterClockReads (S k) (world b))).
      - apply (Hfar (S k)). simpl. lia.
      - unfold afterUUID, afterClockReads. cbn. f_equal. lia. }
    unfold bindB at 1. rewrite Hrun. unfold retB.
    exists (c :: cards). split; [|split].
    + f_equal. unfold b1, withWorld, afterUUID, afterClockReads. cbn.
      f_equal. f_equal; lia.
    + simpl. f_equal. exact Hq.
    + constructor; [repeat split | exact Hall].
Qed.

(** X15. Cards fetched while on line are there when the browser is off
    line: a request answered with results gives one new card per result,
    not marked off line or cached, and a later call made off line, less than
    24 hours after the cards were cached, returns the very same cards,
    marked [fromCache]. *)
Theorem fetched_cards_are_served_from_the_cache_when_offline
    (LocalTZA : Z -> bool -> Z) (civil : CivilZone LocalTZA)
    (amount status : Z) (results : list TriviaItem) (b : Browser) :
  windowDefined b = true ->
  onLine (network b) (onLineReads (network b)) = true ->
  fetchOutcome (network b) (fetchCalls (network b))
  = Response true status (Some (0, results)) ->
  (forall k, (k <= List.length results)%nat ->
             farFromLimits (now (afterClockReads k (world b)))) ->
  storageAccepts 2 b ->
  exists (cards : list FlashCard) (b1 : Browser),
    fetchFlashcards LocalTZA amount b
    = Returns (mkFetchResult cards false false) b1
    /\ map question cards
       = map (fun item => decodeEntities (network b) (trivia_question item))
             results
    /\ forall b2 : Browser,
         windowDefined b2 = true ->
         apiCacheItem (localStorage b2) = apiCacheItem (localStorage b1) ->
         cacheExpiryItem (localStorage b2) = cacheExpiryItem (localStorage b1) ->
         onLine (network b2) (onLineReads (network b2)) = false ->
         now (world b2)
         < now (afterClockReads (List.length results) (world b)) + 86400000 ->
         exists b3 : Browser,
           fetchFlashcards LocalTZA amount b2
           = Returns (mkFetchResult
                        cards
                        (negb (onLine (network b2) (S (onLineReads (network b2)))))
                        true) b3.
Proof.
  intros Hw Hon Hout Hfar Hacc.
  unfold fetchFlashcards at 1. unfold bindB at 1, isOnline.
  replace (negb (windowDefined b)) with false by (rewrite Hw; reflexivity).
  rewrite Hon. unfold bindB at 1, tryCatch at 1, bindB at 1.
  unfold fetchFromOpenTrivia, tryCatch at 1, bindB at 1, fetch.
  cbn [network withNetwork fetchOutcome fetchCalls]. rewrite Hout. cbn [negb Z.eqb].
  match goal with
  | |- context [mapB _ results ?b0] =>
      destruct (mapB_createNewCard LocalTZA civil results b0)
        as (cards & Hrun & Hq & _);
      [ intros k Hk; apply Hfar; lia | rewrite Hrun ]
  end.
  cbv beta iota. unfold bindB at 1.
  match goal with
  | |- context [cacheFlashcards cards ?b0] =>
      rewrite (cacheFlashcards_stored cards b0 Hw Hacc)
  end.
  unfold retB. eexists. eexists. split; [reflexivity|].
  split; [exact Hq|].
  cbn [localStorage apiCacheItem cacheExpiryItem world withWorld withNetwork].
  intros b2 Hw2 Hc He Hoff Hlt.
  unfold fetchFlashcards. unfold bindB at 1, isOnline.
  replace (negb (windowDefined b2)) with false by (rewrite Hw2; reflexivity).
  rewrite Hoff. unfold bindB at 1, retB at 1. unfold bindB at 1.
  match goal with
  | |- context [getCachedFlashcards ?b0] =>
      rewrite (getCachedFlashcards_stored cards _ b0 Hw2 Hc He)
  end.
  cbn [world withNetwork].
  match goal with
  | |- context [now (world b2) <? ?e] =>
      replace (now (world b2) <? e) with true
  end.
  - unfold bindB, retB.
    cbn [windowDefined withWorld withNetwork network onLine onLineReads].
    replace (negb (windowDefined b2)) with false by (rewrite Hw2; reflexivity).
    eexists. reflexivity.
  - symmetry. apply Z.ltb_lt. revert Hlt.
    unfold now, afterClockReads, CACHE_DURATION. cbn [clock clockReads]. lia.
Qed.

Lemma fetched_cards_are_served_from_the_cache_when_offline_witness :
  exists (cards : list FlashCard) (b1 : Browser),
    fetchFlashcards sampleZone 8 sampleBrowser
    = Returns (mkFetchResult cards false false) b1
    /\ map question cards
       = map (fun item => decodeEntities (network sampleBrowser)
                                         (trivia_question item))
             [sampleItem]
    /\ forall b2 : Browser,
         windowDefined b2 = true ->
         apiCacheItem (localStorage b2) = apiCacheItem (localStorage b1) ->
         cacheExpiryItem (localStorage b2) = cacheExpiryItem (localStorage b1) ->
         onLine (network b2) (onLineReads (network b2)) = false ->
         now (world b2)
         < now (afterClockReads (List.length [sampleItem]) (world sampleBrowser))
           + 86400000 ->
         exists b3 : Browser,
           fetchFlashcards sampleZone 8 b2
           = Returns (mkFetchResult
                        cards
                        (negb (onLine (network b2) (S (onLineReads (network b2)))))
                        true) b3.
Proof.
  apply (fetched_cards_are_served_from_the_cache_when_offline
           sampleZone sampleZone_civil 8 200 [sampleItem] sampleBrowser).
  - reflexivity.
  - reflexivity.
  - reflexivity.
  - intros k Hk. apply (sampleWorld_farFromLimits k). simpl in Hk. lia.
  - intros k Hk. reflexivity.
Defined.

(** ** Loading the deck when the hook is mounted *)

Lemma updateCardsFromAPI_with_cards (LocalTZA : Z -> bool -> Z) (b b1 : Browser)
    (r : FetchResult) :
  fetchFlashcards LocalTZA 8 b = Returns r b1 ->
  fr_cards r <> [] ->
  updateCardsFromAPI LocalTZA b
  = Returns tt
      (withHookState
         (mkHookState
            (match hookCards (hookState b1) with
             | [] => fr_cards r
             | _ :: _ => hookCards (hookState b1)
             end)
            (isLoading (hookState b1)) (fr_isOffline r)
            (if fromCache r
             then Some "Using cached flashcards - refresh when online for new cards"%string
             else None))
         b1).
Proof.
  intros Hrun Hne. unfold updateCardsFromAPI, tryCatch. unfold bindB at 1.
  rewrite Hrun. destruct r as [cards offline cached]. cbn [fr_cards fr_isOffline fromCache] in *.
  destruct cards as [|c cards]; [contradiction Hne; reflexivity|].
  cbn [List.length Nat.ltb Nat.leb].
  destruct b1 as [w wd ls nw nt [prev loading off err]].
  destruct prev as [|p prev]; destruct cached; reflexivity.
Qed.

Lemma updateCardsFromAPI_offline_without_cards (LocalTZA : Z -> bool -> Z)
    (b b1 : Browser) (r : FetchResult) :
  fetchFlashcards LocalTZA 8 b = Returns r b1 ->
  fr_cards r = [] -> fr_isOffline r = true ->
  updateCardsFromAPI LocalTZA b = Returns tt b1.
Proof.
  intros Hrun Hc Ho. unfold updateCardsFromAPI, tryCatch. unfold bindB at 1.
  rewrite Hrun. rewrite Hc, Ho. reflexivity.
Qed.

Lemma fetchFlashcards_online (LocalTZA : Z -> bool -> Z) (civil : CivilZone LocalTZA)
    (amount status : Z) (results : list TriviaItem) (b : Browser) :
  windowDefined b = true ->
  onLine (network b) (onLineReads (network b)) = true ->
  fetchOutcome (network b) (fetchCalls (network b))
  = Response true status (Some (0, results)) ->
  (forall k, (k < List.length results)%nat ->
             farFromLimits (now (afterClockReads k (world b)))) ->
  exists (cards : list FlashCard) (b1 : Browser),
    fetchFlashcards LocalTZA amount b
    = Returns (mkFetchResult cards false false) b1
    /\ sameDeck b b1
    /\ List.length cards = List.length results
    /\ map question cards
       = map (fun item => decodeEntities (network b) (trivia_question item))
             results.
Proof.
  intros Hw Hon Hout Hfar.
  unfold fetchFlashcards at 1. unfold bindB at 1, isOnline.
  replace (negb (windowDefined b)) with false by (rewrite Hw; reflexivity).
  rewrite Hon. unfold bindB at 1, tryCatch at 1, bindB at 1.
  unfold fetchFromOpenTrivia, tryCatch at 1, bindB at 1, fetch.
  cbn [network withNetwork fetchOutcome fetchCalls]. rewrite Hout. cbn [negb Z.eqb].
  match goal with
  | |- context [mapB _ results ?b0] =>
      destruct (mapB_createNewCard LocalTZA civil results b0)
        as (cards & Hrun & Hq & _);
      [ intros k Hk; apply Hfar; lia | rewrite Hrun ]
  end.
  cbv beta iota. unfold bindB at 1.
  match goal with
  | |- context [cacheFlashcards cards ?b0] =>
      destruct (cacheFlashcards_outcome cards b0) as (b1 & Hc & Hd);
      rewrite Hc
  end.
  unfold retB. exists cards, b1. split; [reflexivity|].
  split; [|split].
  - destruct Hd as (H1 & H2 & H3). repeat split; assumption.
  - rewrite <- (length_map question cards), Hq, length_map. reflexivity.
  - exact Hq.
Qed.

(** X16. On a first visit, with nothing under "braindeck-cards", mounting
    the hook while on line shows one card for each result that the trivia
    service returns, with loading finished, not off line and no error; but
    the cards are only in the state: "braindeck-cards" is still absent
    afterwards. *)
Theorem first_load_shows_fetched_cards_without_storing_them
    (LocalTZA : Z -> bool -> Z) (civil : CivilZone LocalTZA)
    (status : Z) (results : list TriviaItem) (b : Browser) :
  cardsItem (localStorage b) = None ->
  hookCards (hookState b) = [] ->
  windowDefined b = true ->
  onLine (network b) (onLineReads (network b)) = true ->
  fetchOutcome (network b) (fetchCalls (network b))
  = Response true status (Some (0, results)) ->
  results <> [] ->
  (forall k, (k < List.length results)%nat ->
             farFromLimits (now (afterClockReads k (world b)))) ->
  exists b' : Browser,
    initializeCards LocalTZA b = Returns tt b'
    /\ map question (hookCards (hookState b'))
       = map (fun item => decodeEntities (network b) (trivia_question item))
             results
    /\ isLoading (hookState b') = false
    /\ isOffline (hookState b') = false
    /\ hookError (hookState b') = None
    /\ cardsItem (localStorage b') = None.
Proof.
  intros Hstored Hprev Hw Hon Hout Hne Hfar.
  destruct b as [w wd ls nw nt [prev loading off err]].
  cbn [localStorage hookState hookCards windowDefined network world] in *.
  subst prev.
  unfold initializeCards, tryFinally.
  unfold bindB at 1, setIsLoading at 1. unfold bindB at 1, setError at 1.
  unfold bindB at 1, getItem at 1.
  cbn [localStorage hookState withHookState hookCards isLoading isOffline hookError
       windowDefined network notifications world].
  rewrite Hstored. unfold bindB at 1, retB at 1.
  unfold withHookState at 1 2.
  cbn [world windowDefined localStorage network notifications hookState].
  set (b0 := mkBrowser w wd ls nw nt (mkHookState [] true off None)).
  destruct (fetchFlashcards_online LocalTZA civil 8 status results b0 Hw Hon Hout Hfar)
    as (cards & b1 & Hrun & (Hh & Hc & _) & Hlen & Hq).
  assert (Hcards : cards <> []).
  { intros ->. destruct results; [apply Hne; reflexivity | discriminate Hlen]. }
  rewrite (updateCardsFromAPI_with_cards LocalTZA b0 b1 _ Hrun Hcards).
  cbn [fr_cards fr_isOffline fromCache].
  rewrite Hh. cbn [b0 hookState hookCards isLoading].
  unfold setIsLoading.
  eexists. split; [reflexivity|].
  cbn [hookState withHookState hookCards isLoading isOffline hookError localStorage].
  repeat split; try assumption.
  rewrite Hc. exact Hstored.
Qed.

Lemma first_load_shows_fetched_cards_without_storing_them_witness :
  exists b' : Browser,
    initializeCards sampleZone sampleBrowser = Returns tt b'
    /\ map question (hookCards (hookState b'))
       = map (fun item => decodeEntities (network sampleBrowser)
                                         (trivia_question item))
             [sampleItem]
    /\ isLoading (hookState b') = false
    /\ isOffline (hookState b') = false
    /\ hookError (hookState b') = None
    /\ cardsItem (localStorage b') = None.
Proof.
  apply (first_load_shows_fetched_cards_without_storing_them
           sampleZone sampleZone_civil 200 [sampleItem] sampleBrowser).
  - reflexivity.
  - reflexivity.
  - reflexivity.
  - reflexivity.
  - reflexivity.
  - discriminate.
  - intros k Hk. apply (sampleWorld_farFromLimits k). simpl in Hk. lia.
Defined.

Lemma updateCardsFromAPI_keeps_deck (LocalTZA : Z -> bool -> Z) (b : Browser) :
  hookCards (hookState b) <> [] ->
  apiCacheItem (localStorage b) <> Some (JSONOf []) ->
  (forall status, fetchOutcome (network b) (fetchCalls (network b))
                  <> Response true status (Some (0, []))) ->
  exists b' : Browser,
    updateCardsFromAPI LocalTZA b = Returns tt b'
    /\ hookCards (hookState b') = hookCards (hookState b)
    /\ isLoading (hookState b') = isLoading (hookState b)
    /\ cardsItem (localStorage b') = cardsItem (localStorage b).
Proof.
  intros Hprev Hcache Hnet.
  destruct (fetchFlashcards_outcome LocalTZA 8 b)
    as (r & b1 & Hrun & (Hh & Hc & _) & Hfrom & Hoff & Hon).
  destruct (fr_cards r) as [|c cards] eqn:Hcards.
  - assert (Ho : fr_isOffline r = true).
    { destruct (fromCache r) eqn:Hf.
      - exfalso. apply Hcache. exact (Hfrom eq_refl).
      - destruct (fr_isOffline r) eqn:Ho; [reflexivity|].
        destruct (Hon eq_refl eq_refl) as (_ & _ & status & results & Hout & Hlen).
        destruct results; [|discriminate Hlen].
        exfalso. exact (Hnet status Hout). }
    rewrite (updateCardsFromAPI_offline_without_cards LocalTZA b b1 r Hrun Hcards Ho).
    exists b1. rewrite Hh, Hc. repeat split.
  - rewrite (updateCardsFromAPI_with_cards LocalTZA b b1 r Hrun).
    + eexists. split; [reflexivity|].
      cbn [hookState withHookState hookCards isLoading localStorage].
      rewrite Hh, Hc. destruct (hookCards (hookState b)); [contradiction Hprev; reflexivity|].
      repeat split.
    + rewrite Hcards. discriminate.
Qed.

(** X17. A deck that was stored comes back when the hook is mounted again:
    with a deck of at least one card under "braindeck-cards", mounting ends
    with that deck in the state, loading finished and the stored deck
    untouched, whether the browser is on line or not and whatever the fetch
    and the cache give, as long as neither gives an empty list of cards. *)
Theorem mounting_restores_the_stored_deck
    (LocalTZA : Z -> bool -> Z) (deck : list FlashCard) (b : Browser) :
  cardsItem (localStorage b) = Some (JSONOf deck) ->
  deck <> [] ->
  apiCacheItem (localStorage b) <> Some (JSONOf []) ->
  (forall status, fetchOutcome (network b) (fetchCalls (network b))
                  <> Response true status (Some (0, []))) ->
  exists b' : Browser,
    initializeCards LocalTZA b = Returns tt b'
    /\ hookCards (hookState b') = deck
    /\ isLoading (hookState b') = false
    /\ cardsItem (localStorage b') = Some (JSONOf deck).
Proof.
  intros Hstored Hne Hcache Hnet.
  destruct b as [w wd ls nw nt [prev loading off err]].
  cbn [localStorage hookState hookCards windowDefined network world] in *.
  unfold initializeCards, tryFinally.
  unfold bindB at 1, setIsLoading at 1. unfold bindB at 1, setError at 1.
  unfold bindB at 1, getItem at 1.
  cbn [localStorage hookState withHookState hookCards isLoading isOffline hookError
       windowDefined network notifications world].
  rewrite Hstored. cbn [truthyText]. unfold bindB at 1, tryCatch at 1.
  unfold bindB at 1. unfold JSON_parse. unfold retB at 1.
  unfold bindB at 1. unfold setCards, setCardsWith. unfold retB at 1.
  unfold bindB at 1. unfold setIsLoading at 1.
  unfold withHookState.
  cbn [world windowDefined localStorage network notifications hookState
       hookCards isLoading isOffline hookError].
  set (b0 := mkBrowser w wd ls nw nt (mkHookState deck false off None)).
  destruct (updateCardsFromAPI_keeps_deck LocalTZA b0 Hne Hcache Hnet)
    as (b1 & Hrun & Hd & Hl & Hc).
  unfold bindB at 1. rewrite Hrun. unfold bindB, retB.
  unfold setIsLoading.
  eexists. split; [reflexivity|].
  cbn [hookState withHookState hookCards isLoading localStorage].
  split; [exact Hd|]. split; [reflexivity|]. rewrite Hc. exact Hstored.
Qed.

Lemma mounting_restores_the_stored_deck_witness :
  exists b' : Browser,
    initializeCards sampleZone loadedBrowser = Returns tt b'
    /\ hookCards (hookState b') = sampleDeck
    /\ isLoading (hookState b') = false
    /\ cardsItem (localStorage b') = Some (JSONOf sampleDeck).
Proof.
  apply (mounting_restores_the_stored_deck sampleZone sampleDeck loadedBrowser).
  - reflexivity.
  - discriminate.
  - discriminate.
  - intros status. discriminate.
Defined.

Lemma mapB_createNewCard_pairs (LocalTZA : Z -> bool -> Z)
    (civil : CivilZone LocalTZA) (data : list (string * string)) (b : Browser) :
  (forall k, (k < List.length data)%nat ->
             farFromLimits (now (afterClockReads k (world b)))) ->
  exists cards : list FlashCard,
    mapB (fun qa => engine (createNewCard LocalTZA (fst qa) (snd qa))) data b
    = Returns cards
        (withWorld (mkWorld (clock (world b))
                            (List.length data + clockReads (world b))
                            (uuidSource (world b))
                            (List.length data + uuidReads (world b))) b)
    /\ map question cards = map fst data
    /\ map answer cards = map snd data
    /\ Forall (fun c => level c = 0 /\ reviewCount c = 0
                        /\ lastReviewDate c = None) cards.
Proof.
  revert b. induction data as [|qa data IH]; intros b Hfar.
  - exists []. split; [|split; [reflexivity | split; [reflexivity | constructor]]].
    destruct b as [[ck cr us ur] wd ls nw nt hs]. reflexivity.
  - cbn [mapB]. unfold bindB at 1. unfold engine at 1.
    rewrite (createNewCard_returns LocalTZA civil _ _ (world b)
               (Hfar 0%nat ltac:(simpl; lia))).
    set (c := mkFlashCard _ _ _ _ _ _ _ _).
    set (b1 := withWorld _ b).
    destruct (IH b1) as (cards & Hrun & Hq & Ha & Hall).
    { intros k Hk. unfold b1. cbn [world withWorld].
      replace (afterClockReads k (afterUUID (afterClockReads 1 (world b))))
        with (afterUUID (afterClockReads (S k) (world b))).
      - apply (Hfar (S k)). simpl. lia.
      - unfold afterUUID, afterClockReads. cbn. f_equal. lia. }
    unfold bindB at 1. rewrite Hrun. unfold retB.
    exists (c :: cards). split; [|split; [|split]].
    + f_equal. unfold b1, withWorld, afterUUID, afterClockReads. cbn.
      f_equal. f_equal; lia.
    + simpl. f_equal. exact Hq.
    + simpl. f_equal. exact Ha.
    + constructor; [repeat split | exact Hall].
Qed.

Lemma fetchFlashcards_empty_answer (LocalTZA : Z -> bool -> Z) (amount status : Z)
    (b : Browser) :
  windowDefined b = true ->
  onLine (network b) (onLineReads (network b)) = true ->
  fetchOutcome (network b) (fetchCalls (network b))
  = Response true status (Some (0, [])) ->
  storageAccepts 2 b ->
  exists b1 : Browser,
    fetchFlashcards LocalTZA amount b = Returns (mkFetchResult [] false false) b1
    /\ hookState b1 = hookState b
    /\ cardsItem (localStorage b1) = cardsItem (localStorage b)
    /\ quotaExceeded (localStorage b1) = quotaExceeded (localStorage b)
    /\ setItemCalls (localStorage b1) = (2 + setItemCalls (localStorage b))%nat
    /\ world b1 = afterClockReads 1 (world b).
Proof.
  intros Hw Hon Hout Hacc.
  unfold fetchFlashcards at 1. unfold bindB at 1, isOnline.
  replace (negb (windowDefined b)) with false by (rewrite Hw; reflexivity).
  rewrite Hon. unfold bindB at 1, tryCatch at 1, bindB at 1.
  unfold fetchFromOpenTrivia, tryCatch at 1, bindB at 1, fetch.
  cbn [network withNetwork fetchOutcome fetchCalls]. rewrite Hout.
  cbn [negb Z.eqb mapB]. unfold retB at 1. unfold bindB at 1.
  match goal with
  | |- context [cacheFlashcards [] ?b0] =>
      rewrite (cacheFlashcards_stored [] b0 Hw Hacc)
  end.
  unfold retB. eexists. split; [reflexivity|]. repeat split.
Qed.

Lemma updateCardsFromAPI_demo_cards (LocalTZA : Z -> bool -> Z)
    (civil : CivilZone LocalTZA) (b b1 : Browser) :
  fetchFlashcards LocalTZA 8 b = Returns (mkFetchResult [] false false) b1 ->
  (forall k, (k < 8)%nat -> farFromLimits (now (afterClockReads k (world b1)))) ->
  quotaExceeded (localStorage b1) (setItemCalls (localStorage b1)) = false ->
  exists (demoCards : list FlashCard) (b' : Browser),
    updateCardsFromAPI LocalTZA b = Returns tt b'
    /\ hookCards (hookState b') = demoCards
    /\ cardsItem (localStorage b') = Some (JSONOf demoCards)
    /\ isLoading (hookState b') = isLoading (hookState b1)
    /\ map question demoCards = map fst sampleData
    /\ map answer demoCards = map snd sampleData
    /\ Forall (fun c => level c = 0 /\ reviewCount c = 0
                        /\ lastReviewDate c = None) demoCards.
Proof.
  intros Hrun Hfar Hq.
  unfold updateCardsFromAPI, tryCatch. unfold bindB at 1. rewrite Hrun.
  cbn [fr_cards fr_isOffline fromCache List.length Nat.ltb Nat.leb negb].
  unfold bindB at 1, setError at 1. unfold bindB at 1, initializeSampleCards.
  match goal with
  | |- context [mapB _ sampleData ?b0] =>
      destruct (mapB_createNewCard_pairs LocalTZA civil sampleData b0 Hfar)
        as (demoCards & Hdemo & Hquestion & Hanswer & Hall);
      rewrite Hdemo
  end.
  unfold bindB at 1, setCards, setCardsWith, retB at 1.
  unfold setItemWith.
  cbn [localStorage withHookState withWorld hookState].
  rewrite Hq.
  exists demoCards. eexists. split; [reflexivity|].
  cbn [hookState withStorage hookCards localStorage cardsItem putCards isLoading].
  repeat split; assumption.
Qed.

(** X18. When the trivia service answers a request with an empty list of
    results while the browser is on line, mounting the hook puts the eight
    demo cards in the place of the deck that was stored: they are the deck
    in the state and under "braindeck-cards" afterwards, new cards at level
    0 with the questions and answers of the sample data. *)
Theorem empty_answer_replaces_the_stored_deck_by_demo_cards
    (LocalTZA : Z -> bool -> Z) (civil : CivilZone LocalTZA)
    (deck : list FlashCard) (status : Z) (b : Browser) :
  cardsItem (localStorage b) = Some (JSONOf deck) ->
  windowDefined b = true ->
  onLine (network b) (onLineReads (network b)) = true ->
  fetchOutcome (network b) (fetchCalls (network b))
  = Response true status (Some (0, [])) ->
  (forall k, (1 <= k <= 8)%nat ->
             farFromLimits (now (afterClockReads k (world b)))) ->
  storageAccepts 3 b ->
  exists b' : Browser,
    initializeCards LocalTZA b = Returns tt b'
    /\ map question (hookCards (hookState b')) = map fst sampleData
    /\ map answer (hookCards (hookState b')) = map snd sampleData
    /\ Forall (fun c => level c = 0 /\ reviewCount c = 0
                        /\ lastReviewDate c = None) (hookCards (hookState b'))
    /\ cardsItem (localStorage b') = Some (JSONOf (hookCards (hookState b')))
    /\ isLoading (hookState b') = false.
Proof.
  intros Hstored Hw Hon Hout Hfar Hacc.
  destruct b as [w wd ls nw nt [prev loading off err]].
  cbn [localStorage hookState hookCards windowDefined network world] in *.
  unfold initializeCards, tryFinally.
  unfold bindB at 1, setIsLoading at 1. unfold bindB at 1, setError at 1.
  unfold bindB at 1, getItem at 1.
  cbn [localStorage hookState withHookState hookCards isLoading isOffline hookError
       windowDefined network notifications world].
  rewrite Hstored. cbn [truthyText]. unfold bindB at 1, tryCatch at 1.
  unfold bindB at 1. unfold JSON_parse. unfold retB at 1.
  unfold bindB at 1. unfold setCards, setCardsWith. unfold retB at 1.
  unfold bindB at 1. unfold setIsLoading at 1.
  unfold withHookState.
  cbn [world windowDefined localStorage network notifications hookState
       hookCards isLoading isOffline hookError].
  set (b0 := mkBrowser w wd ls nw nt (mkHookState deck false off None)).
  assert (Hacc2 : storageAccepts 2 b0).
  { intros k Hk. apply (Hacc k). lia. }
  destruct (fetchFlashcards_empty_answer LocalTZA 8 status b0 Hw Hon Hout Hacc2)
    as (b1 & Hfetch & Hh & Hc & Hquota & Hcalls & Hworld).
  destruct (updateCardsFromAPI_demo_cards LocalTZA civil b0 b1 Hfetch)
    as (demoCards & b2 & Hrun & Hd & Hs & Hl & Hquestion & Hanswer & Hall).
  { intros k Hk. rewrite Hworld. rewrite afterClockReads_add.
    apply Hfar. lia. }
  { rewrite Hquota, Hcalls. exact (Hacc 2%nat ltac:(lia)). }
  unfold bindB at 1. rewrite Hrun. unfold bindB, retB.
  unfold setIsLoading.
  eexists. split; [reflexivity|].
  cbn [hookState withHookState hookCards isLoading localStorage].
  rewrite Hd, Hs. repeat split; assumption.
Qed.

Lemma empty_answer_replaces_the_stored_deck_by_demo_cards_witness :
  exists b' : Browser,
    initializeCards sampleZone emptyAnswerBrowser = Returns tt b'
    /\ map question (hookCards (hookState b')) = map fst sampleData
    /\ map answer (hookCards (hookState b')) = map snd sampleData
    /\ Forall (fun c => level c = 0 /\ reviewCount c = 0
                        /\ lastReviewDate c = None) (hookCards (hookState b'))
    /\ cardsItem (localStorage b') = Some (JSONOf (hookCards (hookState b')))
    /\ isLoading (hookState b') = false.
Proof.
  apply (empty_answer_replaces_the_stored_deck_by_demo_cards
           sampleZone sampleZone_civil sampleDeck 200 emptyAnswerBrowser).
  - reflexivity.
  - reflexivity.
  - reflexivity.
  - reflexivity.
  - intros k Hk. apply (sampleWorld_farFromLimits k). lia.
  - intros k Hk. reflexivity.
Defined.

(** ** The daily reminder *)

Section Reminder.

Variable LocalTZA : Z -> bool -> Z.
Hypothesis civil : CivilZone LocalTZA.

Lemma MakeTime_range (hour minute : Z) :
  0 <= hour <= 23 -> 0 <= minute <= 59 ->
  0 <= MakeTime hour minute 0 0 < msPerDay.
Proof. unfold MakeTime, msPerHour, msPerMinute, msPerSecond, msPerDay. lia. Qed.

Lemma Day_MakeDate (d tod : Z) : 0 <= tod < msPerDay -> Day (MakeDate d tod) = d.
Proof.
  intros H. unfold Day, MakeDate, msPerDay in *.
  symmetry. apply (Z.div_unique _ _ d tod); lia.
Qed.

Lemma TimeWithinDay_MakeDate (d tod : Z) :
  0 <= tod < msPerDay -> TimeWithinDay (MakeDate d tod) = tod.
Proof.
  intros H. unfold TimeWithinDay, MakeDate, msPerDay in *.
  symmetry. apply (Z.mod_unique _ _ d tod); lia.
Qed.

Lemma nextReminder_is_ahead (t1 t2 hour minute : Z) :
  DaysAdvance LocalTZA ->
  t1 <= t2 -> farFromLimits t1 -> farFromLimits t2 ->
  0 <= hour <= 23 -> 0 <= minute <= 59 ->
  let reminderTime := setHours LocalTZA (Some t2) hour minute 0 0 in
  let reminderTime :=
    if Date_le reminderTime (Some t1)
    then setDate LocalTZA reminderTime
                 (number_plus (getDate LocalTZA reminderTime) (Some 1))
    else reminderTime in
  exists t : Z,
    reminderTime = Some t
    /\ t1 < t
    /\ (localDay LocalTZA t = localDay LocalTZA t2
        \/ localDay LocalTZA t = localDay LocalTZA t2 + 1).
Proof.
  intros Hadv Hle Hf1 Hf2 Hh Hm. cbv zeta.
  pose proof (MakeTime_range hour minute Hh Hm) as Htod.
  set (tod := MakeTime hour minute 0 0) in *.
  set (d := localDay LocalTZA t2).
  set (x1 := MakeDate d tod).
  assert (Hx1 : Z.abs (x1 - t2) <= 3 * msPerDay).
  { pose proof (localDay_bounds LocalTZA civil t2) as Hb. fold d in Hb.
    unfold x1, MakeDate. unfold msPerDay in *. lia. }
  assert (Hu1 : Z.abs (UTC LocalTZA x1 - t2) <= 4 * msPerDay).
  { unfold UTC. pose proof (zone_bounded LocalTZA civil x1 false) as Hz.
    unfold msPerDay in *. lia. }
  assert (Hr1 : setHours LocalTZA (Some t2) hour minute 0 0
                = Some (UTC LocalTZA x1)).
  { unfold setHours. fold (localDay LocalTZA t2). fold d. fold tod. fold x1.
    apply TimeClip_in_range. unfold farFromLimits in Hf2.
    unfold msPerDay, maxTimeValue in *. lia. }
  assert (Hd1 : localDay LocalTZA (UTC LocalTZA x1) = d).
  { unfold localDay. rewrite (zone_keeps_day LocalTZA civil).
    apply Day_MakeDate. exact Htod. }
  rewrite Hr1. cbn [Date_le].
  destruct (UTC LocalTZA x1 <=? t1) eqn:Hcmp.
  - rewrite setDate_getDate_plus.
    set (x2 := LocalTime LocalTZA (UTC LocalTZA x1) + 1 * msPerDay).
    assert (Hx2 : Z.abs (UTC LocalTZA x2 - t2) <= 7 * msPerDay).
    { unfold x2, UTC at 1, LocalTime.
      pose proof (zone_bounded LocalTZA civil (UTC LocalTZA x1) true) as Hz1.
      match goal with
      | |- context [LocalTZA ?a false] =>
          pose proof (zone_bounded LocalTZA civil a false) as Hz2
      end.
      unfold msPerDay in *. lia. }
    assert (Hd2 : localDay LocalTZA (UTC LocalTZA x2) = d + 1).
    { unfold localDay at 1. rewrite (zone_keeps_day LocalTZA civil).
      unfold x2. unfold Day. rewrite Z.div_add by (unfold msPerDay; lia).
      fold (Day (LocalTime LocalTZA (UTC LocalTZA x1))).
      fold (localDay LocalTZA (UTC LocalTZA x1)). rewrite Hd1. reflexivity. }
    exists (UTC LocalTZA x2). split; [|split].
    + apply TimeClip_in_range. unfold farFromLimits in Hf2.
      unfold msPerDay, maxTimeValue in *. lia.
    + destruct (Z_lt_le_dec t1 (UTC LocalTZA x2)) as [Hlt|Hge]; [exact Hlt|].
      exfalso. pose proof (Hadv _ _ Hge) as Hc1. pose proof (Hadv _ _ Hle) as Hc2.
      fold d in Hc2. rewrite Hd2 in Hc1. lia.
    + right. exact Hd2.
  - exists (UTC LocalTZA x1). split; [reflexivity|]. split.
    + apply Z.leb_gt in Hcmp. exact Hcmp.
    + left. exact Hd1.
Qed.

End Reminder.

Lemma nextReminder_fixedZone (offset t1 t2 hour minute : Z) :
  Z.abs offset <= msPerDay ->
  t1 <= t2 -> farFromLimits t1 -> farFromLimits t2 ->
  0 <= hour <= 23 -> 0 <= minute <= 59 ->
  let reminderTime := setHours (fixedZone offset) (Some t2) hour minute 0 0 in
  let reminderTime :=
    if Date_le reminderTime (Some t1)
    then setDate (fixedZone offset) reminderTime
                 (number_plus (getDate (fixedZone offset) reminderTime) (Some 1))
    else reminderTime in
  exists t : Z,
    reminderTime = Some t
    /\ t1 < t <= t2 + msPerDay
    /\ localTimeOfDay (fixedZone offset) t = MakeTime hour minute 0 0.
Proof.
  intros Hoff Hle Hf1 Hf2 Hh Hm. cbv zeta.
  pose proof (MakeTime_range hour minute Hh Hm) as Htod.
  set (tod := MakeTime hour minute 0 0) in *.
  unfold setHours. fold tod. unfold LocalTime, UTC, fixedZone.
  set (d := Day (t2 + offset)).
  assert (Hd : d * msPerDay <= t2 + offset < d * msPerDay + msPerDay).
  { unfold d, Day, msPerDay. pose proof (Z.div_mod (t2 + offset) 86400000 ltac:(lia)).
    pose proof (Z.mod_pos_bound (t2 + offset) 86400000 ltac:(lia)). lia. }
  assert (Hr1 : TimeClip (MakeDate d tod - offset) = Some (MakeDate d tod - offset)).
  { apply TimeClip_in_range. unfold farFromLimits in Hf2.
    unfold MakeDate, msPerDay, maxTimeValue in *. lia. }
  rewrite Hr1. cbn [Date_le].
  destruct (MakeDate d tod - offset <=? t1) eqn:Hcmp.
  - apply Z.leb_le in Hcmp.
    pose proof (setDate_getDate_plus (fixedZone offset) (MakeDate d tod - offset) 1)
      as Hset.
    unfold LocalTime, UTC, fixedZone in Hset. rewrite Hset.
    replace (MakeDate d tod - offset + offset + 1 * msPerDay - offset)
      with (MakeDate (d + 1) tod - offset) by (unfold MakeDate; lia).
    exists (MakeDate (d + 1) tod - offset). split; [|split].
    + apply TimeClip_in_range. unfold farFromLimits in Hf2.
      unfold MakeDate, msPerDay, maxTimeValue in *. lia.
    + unfold MakeDate, msPerDay in *. lia.
    + unfold localTimeOfDay, LocalTime, fixedZone.
      replace (MakeDate (d + 1) tod - offset + offset) with (MakeDate (d + 1) tod) by lia.
      apply TimeWithinDay_MakeDate. exact Htod.
  - apply Z.leb_gt in Hcmp.
    exists (MakeDate d tod - offset). split; [reflexivity|]. split.
    + unfold MakeDate, msPerDay in *. lia.
    + unfold localTimeOfDay, LocalTime, fixedZone.
      replace (MakeDate d tod - offset + offset) with (MakeDate d tod) by lia.
      apply TimeWithinDay_MakeDate. exact Htod.
Qed.

Lemma requestPermission_granted (b : Browser) :
  permitted b ->
  exists b0 : Browser,
    requestPermission b = Returns granted b0
    /\ world b0 = world b /\ localStorage b0 = localStorage b
    /\ timeZone (notifications b0) = timeZone (notifications b).
Proof.
  intros [Hin [Hp | [Hp Ha]]]; unfold requestPermission; rewrite Hin, Hp; cbn [negb].
  - exists b. repeat split.
  - rewrite Ha. eexists. split; [reflexivity|]. repeat split.
Qed.

Lemma scheduleDailyReminder_run (LocalTZA : Z -> bool -> Z) (hour minute : Z)
    (b : Browser) (t : Z) :
  permitted b ->
  farFromLimits (now (world b)) ->
  farFromLimits (now (afterClockReads 1 (world b))) ->
  (let reminderTime :=
     setHours LocalTZA (Some (now (afterClockReads 1 (world b)))) hour minute 0 0 in
   if Date_le reminderTime (Some (now (world b)))
   then setDate LocalTZA reminderTime
                (number_plus (getDate LocalTZA reminderTime) (Some 1))
   else reminderTime) = Some t ->
  quotaExceeded (localStorage b) (setItemCalls (localStorage b)) = false ->
  exists b' : Browser,
    scheduleDailyReminder LocalTZA hour minute b = Returns tt b'
    /\ pendingDelay b' = Some (Some (t - now (world b)))
    /\ storedReminder b'
       = Some (JSONOf (mkReminder hour minute (ISOString t)
                                  (timeZone (notifications b))))
    /\ world b' = afterClockReads 2 (world b).
Proof.
  intros Hperm Hf1 Hf2 Ht Hq. cbv zeta in Ht.
  destruct (requestPermission_granted b Hperm) as (b0 & Hreq & Hw0 & Hs0 & Hz0).
  unfold scheduleDailyReminder. unfold bindB at 1. rewrite Hreq.
  unfold bindB at 1, engine at 1, newDate at 1. rewrite Hw0.
  fold (now (world b)). rewrite (farFromLimits_TimeClip _ Hf1).
  unfold bindB at 1, engine at 1, newDate at 1.
  cbn [world withWorld clock clockReads uuidSource uuidReads].
  change (clock (world b) (S (clockReads (world b))))
    with (now (afterClockReads 1 (world b))).
  rewrite (farFromLimits_TimeClip _ Hf2).
  cbv zeta. rewrite Ht.
  unfold bindB at 1, engine at 1, lift, toISOString.
  unfold bindB at 1. unfold bindB at 1, setItemWith.
  cbn [localStorage withWorld world notifications].
  rewrite Hs0, Hq. unfold setReminderTimeout.
  eexists. split; [reflexivity|].
  unfold pendingDelay, storedReminder.
  cbn [notifications withNotifications withStorage withWorld reminderTimeout
       localStorage reminderItem putReminder countSetItem world number_minus].
  rewrite Hz0. repeat split.
Qed.

(** X19. The daily reminder is always scheduled ahead: for an hour from 0 to
    23 and a minute from 0 to 59, with permission given and a clock that
    does not run backwards, [scheduleDailyReminder] sets the timer to a
    delay greater than zero, the reminder falls on the local calendar day
    of the call or on the next one, and what is stored under
    "braindeck-reminder" is the hour, the minute and exactly the time at
    which the timer ends. *)
Theorem daily_reminder_is_scheduled_ahead
    (LocalTZA : Z -> bool -> Z) (civil : CivilZone LocalTZA)
    (hour minute : Z) (b : Browser) :
  DaysAdvance LocalTZA ->
  permitted b ->
  now (world b) <= now (afterClockReads 1 (world b)) ->
  farFromLimits (now (world b)) ->
  farFromLimits (now (afterClockReads 1 (world b))) ->
  0 <= hour <= 23 -> 0 <= minute <= 59 ->
  quotaExceeded (localStorage b) (setItemCalls (localStorage b)) = false ->
  exists (delay : Z) (b' : Browser),
    scheduleDailyReminder LocalTZA hour minute b = Returns tt b'
    /\ 0 < delay
    /\ pendingDelay b' = Some (Some delay)
    /\ storedReminder b'
       = Some (JSONOf (mkReminder hour minute
                                  (ISOString (now (world b) + delay))
                                  (timeZone (notifications b))))
    /\ (localDay LocalTZA (now (world b) + delay)
        = localDay LocalTZA (now (afterClockReads 1 (world b)))
        \/ localDay LocalTZA (now (world b) + delay)
           = localDay LocalTZA (now (afterClockReads 1 (world b))) + 1).
Proof.
  intros Hadv Hperm Hle Hf1 Hf2 Hh Hm Hq.
  destruct (nextReminder_is_ahead LocalTZA civil _ _ hour minute
              Hadv Hle Hf1 Hf2 Hh Hm) as (t & Ht & Hlt & Hday).
  destruct (scheduleDailyReminder_run LocalTZA hour minute b t
              Hperm Hf1 Hf2 Ht Hq) as (b' & Hrun & Hdelay & Hstored & _).
  exists (t - now (world b)), b'.
  replace (now (world b) + (t - now (world b))) with t by lia.
  split; [exact Hrun|]. split; [lia|]. split; [exact Hdelay|].
  split; [exact Hstored | exact Hday].
Qed.

(** X20. In a time zone with a fixed offset the reminder is set for the
    chosen time of day: the timer ends at [hour]:[minute] local time, and
    not later than 24 hours after the call. *)
Theorem daily_reminder_rings_at_the_chosen_time
    (offset hour minute : Z) (b : Browser) :
  Z.abs offset <= msPerDay ->
  permitted b ->
  now (world b) <= now (afterClockReads 1 (world b)) ->
  farFromLimits (now (world b)) ->
  farFromLimits (now (afterClockReads 1 (world b))) ->
  0 <= hour <= 23 -> 0 <= minute <= 59 ->
  quotaExceeded (localStorage b) (setItemCalls (localStorage b)) = false ->
  exists (delay : Z) (b' : Browser),
    scheduleDailyReminder (fixedZone offset) hour minute b = Returns tt b'
    /\ pendingDelay b' = Some (Some delay)
    /\ 0 < delay
    /\ now (world b) + delay <= now (afterClockReads 1 (world b)) + 86400000
    /\ localTimeOfDay (fixedZone offset) (now (world b) + delay)
       = hour * 3600000 + minute * 60000.
Proof.
  intros Hoff Hperm Hle Hf1 Hf2 Hh Hm Hq.
  destruct (nextReminder_fixedZone offset _ _ hour minute
              Hoff Hle Hf1 Hf2 Hh Hm) as (t & Ht & Hlt & Htod).
  destruct (scheduleDailyReminder_run (fixedZone offset) hour minute b t
              Hperm Hf1 Hf2 Ht Hq) as (b' & Hrun & Hdelay & _).
  exists (t - now (world b)), b'.
  replace (now (world b) + (t - now (world b))) with t by lia.
  split; [exact Hrun|]. split; [exact Hdelay|]. split; [lia|].
  split; [unfold msPerDay in Hlt; lia|].
  rewrite Htod. unfold MakeTime, msPerHour, msPerMinute, msPerSecond. lia.
Qed.

(** X21. What [scheduleDailyReminder] stores is what the settings read back:
    after it [getReminderSettings] returns the hour and the minute and
    [isReminderEnabled] returns true; after [cancelReminders] the settings
    are [null], reminders are not enabled and no timer is pending. *)
Theorem reminder_settings_round_trip
    (LocalTZA : Z -> bool -> Z) (civil : CivilZone LocalTZA)
    (hour minute : Z) (b : Browser) :
  DaysAdvance LocalTZA ->
  permitted b ->
  now (world b) <= now (afterClockReads 1 (world b)) ->
  farFromLimits (now (world b)) ->
  farFromLimits (now (afterClockReads 1 (world b))) ->
  0 <= hour <= 23 -> 0 <= minute <= 59 ->
  quotaExceeded (localStorage b) (setItemCalls (localStorage b)) = false ->
  exists b1 b2 : Browser,
    scheduleDailyReminder LocalTZA hour minute b = Returns tt b1
    /\ getReminderSettings b1 = Returns (Some (hour, minute)) b1
    /\ isReminderEnabled b1 = Returns true b1
    /\ cancelReminders b1 = Returns tt b2
    /\ getReminderSettings b2 = Returns None b2
    /\ isReminderEnabled b2 = Returns false b2
    /\ pendingDelay b2 = None.
Proof.
  intros Hadv Hperm Hle Hf1 Hf2 Hh Hm Hq.
  destruct (nextReminder_is_ahead LocalTZA civil _ _ hour minute
              Hadv Hle Hf1 Hf2 Hh Hm) as (t & Ht & _).
  destruct (scheduleDailyReminder_run LocalTZA hour minute b t
              Hperm Hf1 Hf2 Ht Hq) as (b1 & Hrun & _ & Hstored & _).
  unfold storedReminder in Hstored.
  exists b1. eexists. split; [exact Hrun|].
  split; [|split; [|split; [reflexivity|]]].
  - unfold getReminderSettings, bindB, getItem. rewrite Hstored. reflexivity.
  - unfold isReminderEnabled, bindB, getItem. rewrite Hstored. reflexivity.
  - repeat split.
Qed.

Lemma daily_reminder_is_scheduled_ahead_witness :
  exists (delay : Z) (b' : Browser),
    scheduleDailyReminder sampleZone 9 0 sampleBrowser = Returns tt b'
    /\ 0 < delay
    /\ pendingDelay b' = Some (Some delay)
    /\ storedReminder b'
       = Some (JSONOf (mkReminder 9 0
                                  (ISOString (now (world sampleBrowser) + delay))
                                  (timeZone (notifications sampleBrowser))))
    /\ (localDay sampleZone (now (world sampleBrowser) + delay)
        = localDay sampleZone (now (afterClockReads 1 (world sampleBrowser)))
        \/ localDay sampleZone (now (world sampleBrowser) + delay)
           = localDay sampleZone (now (afterClockReads 1 (world sampleBrowser))) + 1).
Proof.
  apply (daily_reminder_is_scheduled_ahead sampleZone sampleZone_civil 9 0
           sampleBrowser).
  - apply fixedZone_days_advance.
  - split; [reflexivity|]. right. split; reflexivity.
  - vm_compute. discriminate.
  - apply (sampleWorld_farFromLimits 0). lia.
  - apply (sampleWorld_farFromLimits 1). lia.
  - lia.
  - lia.
  - reflexivity.
Defined.

Lemma daily_reminder_rings_at_the_chosen_time_witness :
  exists (delay : Z) (b' : Browser),
    scheduleDailyReminder (fixedZone 3600000) 9 0 sampleBrowser = Returns tt b'
    /\ pendingDelay b' = Some (Some delay)
    /\ 0 < delay
    /\ now (world sampleBrowser) + delay
       <= now (afterClockReads 1 (world sampleBrowser)) + 86400000
    /\ localTimeOfDay (fixedZone 3600000) (now (world sampleBrowser) + delay)
       = 9 * 3600000 + 0 * 60000.
Proof.
  apply (daily_reminder_rings_at_the_chosen_time 3600000 9 0 sampleBrowser).
  - vm_compute. discriminate.
  - split; [reflexivity|]. right. split; reflexivity.
  - vm_compute. discriminate.
  - apply (sampleWorld_farFromLimits 0). lia.
  - apply (sampleWorld_farFromLimits 1). lia.
  - lia.
  - lia.
  - reflexivity.
Defined.

Lemma reminder_settings_round_trip_witness :
  exists b1 b2 : Browser,
    scheduleDailyReminder sampleZone 9 0 sampleBrowser = Returns tt b1
    /\ getReminderSettings b1 = Returns (Some (9, 0)) b1
    /\ isReminderEnabled b1 = Returns true b1
    /\ cancelReminders b1 = Returns tt b2
    /\ getReminderSettings b2 = Returns None b2
    /\ isReminderEnabled b2 = Returns false b2
    /\ pendingDelay b2 = None.
Proof.
  apply (reminder_settings_round_trip sampleZone sampleZone_civil 9 0
           sampleBrowser).
  - apply fixedZone_days_advance.
  - split; [reflexivity|]. right. split; reflexivity.
  - vm_compute. discriminate.
  - apply (sampleWorld_farFromLimits 0). lia.
  - apply (sampleWorld_farFromLimits 1). lia.
  - lia.
  - lia.
  - reflexivity.
Defined.

(** ** Components *)

Lemma labels_read_back : forallb labelReadsBack (seq 0 1440) = true.
Proof. vm_compute. reflexivity. Qed.

Lemma readTime_formatTime (hour minute : Z) :
  0 <= hour <= 23 -> 0 <= minute <= 59 ->
  readTime (formatTime hour minute) = Some (hour, minute).
Proof.
  intros Hh Hm.
  pose proof (proj1 (forallb_forall _ _) labels_read_back
                (Z.to_nat (hour * 60 + minute))) as H.
  assert (Hin : In (Z.to_nat (hour * 60 + minute)) (seq 0 1440)).
  { apply in_seq. lia. }
  specialize (H Hin). unfold labelReadsBack in H.
  rewrite Z2Nat.id in H by lia.
  replace ((hour * 60 + minute) / 60) with hour in H
    by (apply (Z.div_unique _ _ hour minute); lia).
  replace ((hour * 60 + minute) mod 60) with minute in H
    by (apply (Z.mod_unique _ _ hour minute); lia).
  destruct (readTime (formatTime hour minute)) as [[h m]|]; [|discriminate H].
  apply andb_true_iff in H. destruct H as [H1 H2].
  apply Z.eqb_eq in H1. apply Z.eqb_eq in H2. subst. reflexivity.
Qed.

(** X22. Every minute of the day has a label of its own: for hours from 0 to
    23 and minutes from 0 to 59, [formatTime] gives two different times two
    different labels. *)
Theorem formatTime_labels_are_distinct (hour minute hour' minute' : Z) :
  0 <= hour <= 23 -> 0 <= minute <= 59 ->
  0 <= hour' <= 23 -> 0 <= minute' <= 59 ->
  hour <> hour' \/ minute <> minute' ->
  formatTime hour minute <> formatTime hour' minute'.
Proof.
  intros Hh Hm Hh' Hm' Hne Heq.
  pose proof (readTime_formatTime hour minute Hh Hm) as H1.
  pose proof (readTime_formatTime hour' minute' Hh' Hm') as H2.
  rewrite Heq, H2 in H1. injection H1 as -> ->.
  destruct Hne as [Hne | Hne]; apply Hne; reflexivity.
Qed.

Lemma formatTime_labels_are_distinct_witness :
  formatTime 9 30 <> formatTime 21 30.
Proof.
  apply (formatTime_labels_are_distinct 9 30 21 30); try lia.
Defined.

Lemma numberToString_injective (m n : Z) :
  0 <= m -> 0 <= n -> numberToString m = numberToString n -> m = n.
Proof.
  intros Hm Hn. unfold numberToString.
  replace (m <? 0) with false by (symmetry; apply Z.ltb_ge; lia).
  replace (n <? 0) with false by (symmetry; apply Z.ltb_ge; lia).
  intros H. apply (f_equal NilEmpty.uint_of_string) in H.
  rewrite !NilEmpty.usu in H. injection H as H.
  apply DecimalNat.Unsigned.to_uint_inj in H. lia.
Qed.

Lemma toast_id_injective (m n : Z) :
  0 <= m -> 0 <= n ->
  ("toast-" ++ numberToString m)%string = ("toast-" ++ numberToString n)%string ->
  m = n.
Proof.
  intros Hm Hn H. cbn [append] in H. injection H as H.
  exact (numberToString_injective m n Hm Hn H).
Qed.

Lemma increment_grows (n : Z) : n <= increment n.
Proof. unfold increment. destruct (n <? 2 ^ 53); lia. Qed.

Lemma toastId_grows (s s' : ToastState) :
  toastStep s s' -> toastId s <= toastId s'.
Proof.
  intros [title body type s0 | toast s0]; cbn [toastId showToast expireToast].
  - apply increment_grows.
  - lia.
Qed.

Lemma NoDup_map_filter {A C : Type} (f : A -> C) (p : A -> bool) (l : list A) :
  NoDup (map f l) -> NoDup (map f (filter p l)).
Proof.
  induction l as [|x xs IH]; intros H; [constructor|].
  cbn [filter]. inversion H as [|y ys Hnot Hrest]; subst.
  destruct (p x).
  - cbn [map]. constructor; [|exact (IH Hrest)].
    intros Hin. apply Hnot. apply in_map_iff in Hin.
    destruct Hin as (u & Hu & Hin). apply filter_In in Hin.
    rewrite <- Hu. apply in_map. exact (proj1 Hin).
  - exact (IH Hrest).
Qed.

Lemma toasts_invariant (s : ToastState) :
  toastReachable s ->
  0 <= toastId s
  /\ (toastId s < 2 ^ 53 ->
      NoDup (map toast_id (toasts s))
      /\ forall t, In t (toasts s) ->
           exists k, 0 <= k < toastId s
                     /\ toast_id t = ("toast-" ++ numberToString k)%string).
Proof.
  induction 1 as [|s s' Hreach [IH0 IH] Hstep].
  - split; [cbn; lia|]. intros _. split; [constructor|]. intros t [].
  - split; [pose proof (toastId_grows s s' Hstep); lia|].
    intros Hlt. pose proof (toastId_grows s s' Hstep) as Hgrow.
    destruct (IH ltac:(lia)) as [Hnodup Hids].
    destruct Hstep as [title body type s | toast s];
      cbn [toastId toasts showToast expireToast] in *.
    + assert (Hs : toastId s < 2 ^ 53).
      { unfold increment in Hlt. destruct (toastId s <? 2 ^ 53) eqn:E; [|lia].
        apply Z.ltb_lt in E. exact E. }
      assert (Hinc : increment (toastId s) = toastId s + 1).
      { unfold increment. apply Z.ltb_lt in Hs. rewrite Hs. reflexivity. }
      rewrite Hinc. split.
      * rewrite map_app. cbn [map toast_id].
        apply NoDup_app; [exact Hnodup | constructor; [intros [] | constructor] |].
        intros x Hx [Hy | []]. apply in_map_iff in Hx.
        destruct Hx as (t & Ht & Hin). destruct (Hids t Hin) as (k & Hk & Hid).
        rewrite <- Hy, Hid in Ht.
        apply toast_id_injective in Ht; lia.
      * intros t Hin. apply in_app_or in Hin. destruct Hin as [Hin | [<- | []]].
        -- destruct (Hids t Hin) as (k & Hk & Hid). exists k. split; [lia | exact Hid].
        -- exists (toastId s). split; [lia | reflexivity].
    + split.
      * apply NoDup_map_filter. exact Hnodup.
      * intros t Hin. apply filter_In in Hin. exact (Hids t (proj1 Hin)).
Qed.

Lemma filter_removes_the_one {A : Type} (f : A -> string) (pre : list A) (x : A)
    (post : list A) :
  NoDup (map f (pre ++ x :: post)) ->
  filter (fun y => negb (String.eqb (f y) (f x))) (pre ++ x :: post)
  = pre ++ post.
Proof.
  intros H. rewrite map_app in H. cbn [map] in H.
  pose proof (NoDup_remove_2 _ _ _ H) as Hnot.
  rewrite filter_app. cbn [filter]. rewrite String.eqb_refl. cbn [negb].
  f_equal; apply filter_all; apply Forall_forall; intros y Hy;
    apply negb_true_iff, String.eqb_neq; intros E; apply Hnot;
    rewrite <- E; apply in_or_app; [left | right]; apply in_map; exact Hy.
Qed.

(** X23. The toasts on display never share an id, as long as the counter is
    below 2^53: whatever toasts were shown and whichever timers have ended,
    the ids of the toasts in the list are pairwise different, so that the
    end of a toast's timer removes that toast and no other. *)
Theorem toasts_on_display_have_ids_of_their_own (s : ToastState) :
  toastReachable s ->
  toastId s < 2 ^ 53 ->
  NoDup (map toast_id (toasts s))
  /\ forall (pre : list Toast) (t : Toast) (post : list Toast),
       toasts s = pre ++ t :: post ->
       toasts (expireToast t s) = pre ++ post.
Proof.
  intros Hreach Hlt.
  destruct (toasts_invariant s Hreach) as [_ Hinv].
  destruct (Hinv Hlt) as [Hnodup _].
  split; [exact Hnodup|].
  intros pre t post Heq. cbn [toasts expireToast]. rewrite Heq.
  apply filter_removes_the_one. rewrite <- Heq. exact Hnodup.
Qed.

Lemma toasts_on_display_have_ids_of_their_own_witness :
  NoDup (map toast_id (toasts sampleToasts))
  /\ forall (pre : list Toast) (t : Toast) (post : list Toast),
       toasts sampleToasts = pre ++ t :: post ->
       toasts (expireToast t sampleToasts) = pre ++ post.
Proof.
  apply (toasts_on_display_have_ids_of_their_own sampleToasts).
  - unfold sampleToasts. repeat (eapply reach_step; [|constructor]).
    apply reach_start.
  - vm_compute. reflexivity.
Defined.

Section SevenDays.

Import Binary64.
Local Open Scope Q_scope.

Lemma nearestEven_above (y : Q) (n : Z) : inject_Z n <= y -> (n <= nearestEven y)%Z.
Proof.
  intros H. assert (Hf : (n <= Qfloor y)%Z).
  { rewrite <- (Qfloor_Z n). apply Qfloor_resp_le. exact H. }
  unfold nearestEven.
  destruct (Qcompare (y - inject_Z (Qfloor y)) (1 # 2)); [|lia|lia].
  destruct (Z.even (Qfloor y)); lia.
Qed.

Lemma round_at_least_seven (x : Q) :
  7 <= x -> x < 2 ^ 27 -> 7 <= round x.
Proof.
  intros H7 Hlt.
  assert (Hne : ~ x == 0) by lra.
  rewrite (round_unfold x Hne).
  assert (Hr : Qred x == x) by apply Qred_correct.
  set (e := ulpExponent (Qred x)).
  assert (Hpos : 0 < Qabs (Qred x)).
  { rewrite Hr. rewrite Qabs_pos; lra. }
  destruct (ilog2_spec _ Hpos) as [Hlo Hhi].
  assert (Hax : Qabs (Qred x) == x) by (rewrite Hr; apply Qabs_pos; lra).
  assert (He : (-50 <= e <= -26)%Z).
  { unfold e, ulpExponent.
    set (i := ilog2 (Qabs (Qred x))) in *.
    rewrite Hax in Hlo, Hhi.
    assert (H1 : (i < 27)%Z).
    { apply pow2_lt_inv. eapply Qle_lt_trans; [exact Hlo | exact Hlt]. }
    assert (H2 : (2 < i + 1)%Z).
    { apply pow2_lt_inv. change (2 ^ 2) with 4. lra. }
    lia. }
  pose proof (pow2_pos e) as Hpe.
  set (n := (7 * 2 ^ (- e))%Z).
  assert (Hn : inject_Z n == 7 / 2 ^ e).
  { unfold n. rewrite inject_Z_mult, pow2_inject by lia.
    replace (- e)%Z with (0 - e)%Z by lia. rewrite pow2_sub.
    change (2 ^ 0) with 1. field. lra. }
  assert (Hy : inject_Z n <= Qred x / 2 ^ e).
  { rewrite Hn, Hr. apply Qmult_le_compat_r; [exact H7|].
    apply Qlt_le_weak, Qinv_lt_0_compat. exact Hpe. }
  pose proof (nearestEven_above _ _ Hy) as Hk.
  assert (Hk' : inject_Z n <= inject_Z (nearestEven (Qred x / 2 ^ e))).
  { rewrite <- Zle_Qle. exact Hk. }
  setoid_replace 7 with (inject_Z n * 2 ^ e) by (rewrite Hn; field; lra).
  apply Qmult_le_compat_r; [exact Hk' | lra].
Qed.

Lemma round_below_seven (x : Q) :
  0 <= x -> x <= 7 - (1 # 86400000) -> round x < 7.
Proof.
  intros H0 Hx.
  destruct (Qlt_le_dec 0 x) as [Hpos | Hzero].
  - pose proof (round_error x 3 Hpos) as Herr.
    change (2 ^ 3) with 8 in Herr.
    specialize (Herr ltac:(lra) ltac:(lia)).
    change (2 ^ (3 - 54)) with (1 # 2251799813685248) in Herr.
    apply Qabs_Qle_condition in Herr. destruct Herr as [_ Hup].
    lra.
  - rewrite (round_zero x) by lra. lra.
Qed.

Lemma seven_days_threshold (d : Z) :
  (0 <= d < 2 ^ 53)%Z ->
  Qle_bool 7 (Binary64.div (inject_Z d) (inject_Z (1000 * 60 * 60 * 24)))
  = (604800000 <=? d)%Z.
Proof.
  intros Hd. unfold Binary64.div.
  change (1000 * 60 * 60 * 24)%Z with 86400000%Z.
  assert (Hb : inject_Z 86400000 == 86400000) by reflexivity.
  destruct (604800000 <=? d)%Z eqn:Hcmp.
  - apply Z.leb_le in Hcmp. apply Qle_bool_iff.
    apply round_at_least_seven.
    + apply Qle_shift_div_l; [reflexivity|].
      change (7 * inject_Z 86400000) with (inject_Z 604800000).
      rewrite <- Zle_Qle. exact Hcmp.
    + apply Qlt_shift_div_r; [reflexivity|].
      change (2 ^ 27 * inject_Z 86400000) with (inject_Z (134217728 * 86400000)).
      rewrite <- Zlt_Qlt. change (2 ^ 53)%Z with 9007199254740992%Z in Hd. lia.
  - apply Z.leb_gt in Hcmp.
    destruct (Qle_bool 7 (round (inject_Z d / inject_Z 86400000))) eqn:Hq;
      [|reflexivity].
    apply Qle_bool_iff in Hq. exfalso.
    assert (Hlt : round (inject_Z d / inject_Z 86400000) < 7).
    { apply round_below_seven.
      - apply Qle_shift_div_l; [reflexivity|].
        setoid_replace (0 * inject_Z 86400000) with (inject_Z 0) by ring.
        rewrite <- Zle_Qle. lia.
      - apply Qle_shift_div_r; [reflexivity|].
        setoid_replace ((7 - (1 # 86400000)) * inject_Z 86400000)
          with (inject_Z 604799999) by (rewrite Hb; reflexivity).
        rewrite <- Zle_Qle. lia. }
    lra.
Qed.

End SevenDays.

(** X24. A dismissed install prompt stays away for exactly seven days: with
    the time of the dismissal stored by [handleDismiss], both the first
    value of [showPrompt] on a later load and the handler of
    [beforeinstallprompt] show the prompt if and only if at least
    604800000 ms have passed; the rounding of the division does not move
    the threshold. *)
Theorem install_prompt_comes_back_after_seven_days (t0 t : Z) :
  0 <= t0 <= t ->
  farFromLimits t ->
  initialShowPrompt true (Some (snd (handleDismiss t0))) t
  = (t0 + 604800000 <=? t)
  /\ beforeInstallPrompt (Some (snd (handleDismiss t0))) t
                         (fst (handleDismiss t0))
     = (t0 + 604800000 <=? t).
Proof.
  intros Ht Hfar.
  assert (Hd : 0 <= t - t0 < 2 ^ 53).
  { unfold farFromLimits, maxTimeValue, msPerDay in Hfar.
    change (2 ^ 53) with 9007199254740992. lia. }
  pose proof (seven_days_threshold (t - t0) Hd) as Hseven.
  assert (Hcmp : (604800000 <=? t - t0) = (t0 + 604800000 <=? t)).
  { destruct (t0 + 604800000 <=? t) eqn:E.
    - apply Z.leb_le in E. apply Z.leb_le. lia.
    - apply Z.leb_gt in E. apply Z.leb_gt. lia. }
  unfold initialShowPrompt, beforeInstallPrompt, handleDismiss.
  cbn [snd fst negb atLeastSevenDays daysSince].
  rewrite Hseven, Hcmp. split; [reflexivity|].
  destruct (t0 + 604800000 <=? t); reflexivity.
Qed.

Lemma install_prompt_comes_back_after_seven_days_witness :
  initialShowPrompt true (Some (snd (handleDismiss 1793557800000)))
                    (1793557800000 + 604799999)
  = (1793557800000 + 604800000 <=? 1793557800000 + 604799999)
  /\ beforeInstallPrompt (Some (snd (handleDismiss 1793557800000)))
                         (1793557800000 + 604799999)
                         (fst (handleDismiss 1793557800000))
     = (1793557800000 + 604800000 <=? 1793557800000 + 604799999).
Proof.
  apply (install_prompt_comes_back_after_seven_days
           1793557800000 (1793557800000 + 604799999)).
  - lia.
  - vm_compute. discriminate.
Defined.
